(** * aws-fpga test harness: command wrapper, slot polling, example discovery

A shallow embedding of the parts of
  - shared/lib/aws_fpga_test_utils/AwsFpgaTestBase.py
  - sdk/tests/test_fpga_tools.py
  - Vitis/tests/test_find_vitis_examples.py
that the specification talks about, together with the properties the
specification states about them.

Conventions.  Python [str] values are [string], a character outside ASCII
being its UTF-8 bytes.  The files are Python 3 (they use f-strings), and
[run_cmd] opens its pipes without a text mode, so the two streams that
[Popen.communicate] hands back are [bytes], a type of its own here
([PyBytes.bytes]).  Python [int] is [Z], slot numbers
([range(num_slots)]) are [nat], and [f"{n}"] is stdpp's decimal [pretty].
Code that logs, runs processes or raises lives in the monad [M]: a state
made of the outside world and the logger's records, and a result that is
either a raised signal or a value. *)

From Stdlib Require Import ZArith Ascii.
From Stdlib Require String.
From stdpp Require Import base option list functions strings pretty gmap.

(* ===================================================================== *)
(** ** Strings as Python uses them                                        *)
(* ===================================================================== *)

Module PyStr.

Definition newline : ascii := "010"%char.
Definition dash : ascii := "-"%char.

(** ["\n"] as a one-character string. *)
Definition nl : string := String newline "".

(** [s.split(sep)] for a one-character separator [sep]: the pieces between
    consecutive occurrences of [sep], empty pieces included. *)
Fixpoint split (sep : ascii) (s : string) : list string :=
  match s with
  | "" => [""]
  | String c rest =>
      if decide (c = sep) then "" :: split sep rest
      else match split sep rest with
           | piece :: pieces => String c piece :: pieces
           | [] => [String c ""]
           end
  end.

(** [re.sub(c, '', s)] for a pattern that is the literal character [c]. *)
Fixpoint remove_char (c : ascii) (s : string) : string :=
  match s with
  | "" => ""
  | String a rest =>
      if decide (a = c) then remove_char c rest
      else String a (remove_char c rest)
  end.

(** [c in s] for a character. *)
Fixpoint has_char (c : ascii) (s : string) : bool :=
  match s with
  | "" => false
  | String a rest => if decide (a = c) then true else has_char c rest
  end.


End PyStr.

(* ===================================================================== *)
(** ** Signals, log records and the monad                                 *)
(* ===================================================================== *)

(** What a call can signal instead of returning.  [AssertionError] is a
    failed [assert]; [PyError] is any other exception of the interpreter or
    its libraries, by name; [ExecutionFailure] and [PollTimeout] are the two
    signals of the specification's taxonomy that concern the embedded
    functions. *)
Inductive Signal :=
  | AssertionError (msg : string)
  | PyError (name : string)
  | ExecutionFailure (command : string) (exitCode : Z) (stdout stderr : string)
  | PollTimeout.

Definition TypeError : Signal := PyError "TypeError".
Definition KeyError : Signal := PyError "KeyError".
Definition AttributeError : Signal := PyError "AttributeError".
Definition IndexError : Signal := PyError "IndexError".
Definition UnboundLocalError : Signal := PyError "UnboundLocalError".

(* ===================================================================== *)
(** ** Bytes as Python 3 has them                                         *)
(* ===================================================================== *)

Module PyBytes.

(** A [bytes] object, one character per byte.  A [bytes] is not a [str]:
    the two never compare equal, and a method of one does not take the
    other. *)
Inductive bytes := Bytes (data : string).

Definition data (b : bytes) : string :=
  match b with Bytes s => s end.

(** [b.split(sep)] for a [bytes] [b] and a [str] [sep]: a bytes-like
    object is required, not [str]. *)
Definition split_str (b : bytes) (sep : string) : Signal + list bytes :=
  inl TypeError.

(** [re.sub(pattern, repl, b)] for a [str] pattern and a [bytes] [b]: a
    string pattern cannot be used on a bytes-like object. *)
Definition re_sub_str (pattern repl : string) (b : bytes) : Signal + bytes :=
  inl TypeError.

(** [b == s] for a [bytes] [b] and a [str] [s]. *)
Definition eq_str (b : bytes) (s : string) : bool := false.

Definition quote : ascii := "'"%char.
Definition double_quote : ascii := ascii_of_nat 34.
Definition backslash : ascii := "\"%char.

Definition hex_digit (n : nat) : ascii :=
  if n <? 10 then ascii_of_nat (48 + n) else ascii_of_nat (87 + n).

(** One byte as [repr] prints it between the quotes [q]. *)
Definition escape (q : ascii) (c : ascii) : string :=
  let n := nat_of_ascii c in
  if bool_decide (c = q) || bool_decide (c = backslash)
  then String backslash (String c "")
  else if n =? 9 then String backslash "t"
  else if n =? 10 then String backslash "n"
  else if n =? 13 then String backslash "r"
  else if (n <? 32) || (127 <=? n)
  then String backslash
         (String "x" (String (hex_digit (n / 16)) (String (hex_digit (n mod 16)) "")))
  else String c "".

Fixpoint escape_all (q : ascii) (s : string) : string :=
  match s with
  | "" => ""
  | String c rest => escape q c +:+ escape_all q rest
  end.

(** [f"{b}"], which is [repr(b)]: double quotes when [b] has a single
    quote and no double quote, single quotes otherwise. *)
Definition repr (b : bytes) : string :=
  let q :=
    if PyStr.has_char quote (data b)
       && negb (PyStr.has_char double_quote (data b))
    then double_quote else quote in
  "b" +:+ String q (escape_all q (data b)) +:+ String q "".

(** [b.split(b'\n')] read as text: the lines of a stream. *)
Definition lines (b : bytes) : list string :=
  PyStr.split PyStr.newline (data b).

End PyBytes.

Inductive Level := INFO | WARNING | ERROR.

Record LogRecord := mkLog { level : Level; message : string }.

Record State (World : Type) := mkState {
  world : World;
  logs : list LogRecord
}.
Arguments mkState {World} _ _.
Arguments world {World} _.
Arguments logs {World} _.

Definition M (World A : Type) : Type :=
  State World → (Signal + A) * State World.

Global Instance M_ret {World} : MRet (M World) :=
  λ A a st, (inr a, st).

Global Instance M_bind {World} : MBind (M World) :=
  λ A B f m st,
    match m st with
    | (inl e, st') => (inl e, st')
    | (inr a, st') => f a st'
    end.

Definition raise {World A} (e : Signal) : M World A :=
  λ st, (inl e, st).

(** [logger.info / logger.warn / logger.error]. *)
Definition logger_log {World} (lvl : Level) (msg : string) : M World unit :=
  λ st, (inr (), mkState (world st) (logs st ++ [mkLog lvl msg])).

(** [assert cond, msg]. *)
Definition py_assert {World} (cond : bool) (msg : string) : M World unit :=
  if cond then mret () else raise (AssertionError msg).

(** Something the world does: no signal, a value and a new world. *)
Definition lift_world {World A} (f : World → A * World) : M World A :=
  λ st, let '(a, w) := f (world st) in (inr a, mkState w (logs st)).

(** Something the world does that may signal. *)
Definition call_world {World A} (f : World → (Signal + A) * World) : M World A :=
  λ st, let '(r, w) := f (world st) in (r, mkState w (logs st)).

(** Reading the world without changing it. *)
Definition read_world {World A} (f : World → A) : M World A :=
  λ st, (inr (f (world st)), st).

(** A pure operation that may signal. *)
Definition from_result {World A} (r : Signal + A) : M World A :=
  λ st, (r, st).

(* ===================================================================== *)
(** ** The host: processes, the describe helper, the clock                *)
(* ===================================================================== *)

(** What [p.communicate()] and [p.returncode] give once the process is done. *)
Record Completed := mkCompleted {
  returncode : Z;
  stdout_data : PyBytes.bytes;
  stderr_data : PyBytes.bytes
}.

(** The object [aws_fpga_test_utils.fpga_describe_local_image] returns; the
    harness compares every attribute with a string. *)
Record FpgaLocalImage := mkImage {
  slot : string;
  agfi : string;
  statusName : string;
  statusCode : string;
  errorName : string;
  errorCode : string;
  shVersion : string
}.

(** The outside of the harness, in two parts.  [popen] is
    [subprocess.Popen(cmd, shell=True, stdout=PIPE, stderr=PIPE)] followed by
    [communicate()]; [fpga_describe_local_image] is the helper of
    [aws_fpga_test_utils], which is not part of the embedded files;
    [time_sleep] is [time.sleep]. *)
Class Shell (World : Type) :=
  popen : string → World → Completed * World.

Class FpgaHost (World : Type) := {
  fpga_describe_local_image : nat → World → (Signal + FpgaLocalImage) * World;
  time_sleep : nat → World → World
}.

(* ===================================================================== *)
(** ** AwsFpgaTestBase                                                    *)
(* ===================================================================== *)

Module AwsFpgaTestBase.
Section WithHost.
Context {World : Type} {shell : Shell World} {host : FpgaHost World}.

(** The text of the [logger.error] call of [run_cmd]. *)
Definition failed_msg (cmd : string) (p : Completed) : string :=
  "Cmd failed with rc=" +:+ pretty (returncode p) +:+ PyStr.nl +:+
  "cmd: " +:+ cmd +:+ PyStr.nl +:+
  "stdout:" +:+ PyStr.nl +:+ PyBytes.repr (stdout_data p) +:+ PyStr.nl +:+
  "stderr:" +:+ PyStr.nl +:+ PyBytes.repr (stderr_data p).

(** The text of the closing [logger.info] call of [run_cmd]. *)
Definition echo_msg (p : Completed) : string :=
  "rc=" +:+ pretty (returncode p) +:+ PyStr.nl +:+
  "stdout:" +:+ PyStr.nl +:+ PyBytes.repr (stdout_data p) +:+ PyStr.nl +:+
  "stderr:" +:+ PyStr.nl +:+ PyBytes.repr (stderr_data p) +:+ PyStr.nl.

(** [run_cmd(cmd, echo=False, check=True)].  The two [split] calls are
    handed the [str] ['\n']. *)
Definition run_cmd (cmd : string) (echo check : bool)
  : M World (Z * list PyBytes.bytes * list PyBytes.bytes) :=
  (if echo then logger_log INFO ("Running: " +:+ cmd) else mret ()) ;;
  p ← lift_world (popen cmd) ;
  stdout_lines ← from_result (PyBytes.split_str (stdout_data p) PyStr.nl) ;
  stderr_lines ← from_result (PyBytes.split_str (stderr_data p) PyStr.nl) ;
  (if check && negb (returncode p =? 0)%Z
   then logger_log ERROR (failed_msg cmd p)
   else if echo then logger_log INFO (echo_msg p) else mret ()) ;;
  mret (returncode p, stdout_lines, stderr_lines).

(** [exec_as_user(as_root, command)]. *)
Definition exec_as_user (as_root : bool) (command : string) : string :=
  if as_root then "sudo " +:+ command else command.

(** [fpga_clear_local_image(slot, request_timeout=6000, sync_timeout=180,
    as_root=True)]. *)
Definition fpga_clear_local_image
    (slot : nat) (request_timeout sync_timeout : Z) (as_root : bool)
  : M World unit :=
  logger_log INFO ("Clearing FPGA slot " +:+ pretty slot) ;;
  let cmd :=
    exec_as_user as_root "fpga-clear-local-image" +:+
    " -S " +:+ pretty slot +:+
    " --request-timeout " +:+ pretty request_timeout +:+
    " --sync-timeout " +:+ pretty sync_timeout in
  '(rc, stdout_lines, stderr_lines) ← run_cmd cmd false true ;
  py_assert (rc =? 0)%Z
    ("Clearing FPGA slot " +:+ pretty slot +:+ " failed.").

(** [fpga_load_local_image(agfi, slot, request_timeout=6000,
    sync_timeout=180, as_root=True)]. *)
Definition fpga_load_local_image
    (agfi : string) (slot : nat) (request_timeout sync_timeout : Z)
    (as_root : bool) : M World unit :=
  logger_log INFO ("Loading " +:+ agfi +:+ " into slot " +:+ pretty slot) ;;
  let cmd :=
    exec_as_user as_root "fpga-load-local-image" +:+
    " -S " +:+ pretty slot +:+ " -I " +:+ agfi +:+
    " --request-timeout " +:+ pretty request_timeout +:+
    " --sync-timeout " +:+ pretty sync_timeout in
  '(rc, stdout_lines, stderr_lines) ← run_cmd cmd false true ;
  py_assert (rc =? 0)%Z
    ("Failed to load " +:+ agfi +:+ " in slot " +:+ pretty slot +:+ ".").

(** The command line [fpga_set_virtual_dip_switch] builds, from the value
    as it is once the dashes are gone. *)
Definition set_virtual_dip_switch_cmd
    (value : string) (slot : nat) (as_root : bool) : string :=
  exec_as_user as_root "fpga-set-virtual-dip-switch" +:+
  " -S " +:+ pretty slot +:+ " -D " +:+ value.

(** [fpga_set_virtual_dip_switch(value, slot, as_root=True)]. *)
Definition fpga_set_virtual_dip_switch
    (value : string) (slot : nat) (as_root : bool) : M World unit :=
  let value := PyStr.remove_char PyStr.dash value in
  let cmd := set_virtual_dip_switch_cmd value slot as_root in
  '(rc, stdout_lines, stderr_lines) ← run_cmd cmd false true ;
  py_assert (rc =? 0)%Z
    ("Failed to set virtual DIP switches in slot " +:+ pretty slot +:+
     " to " +:+ value +:+ ".").

(** [check_fpga_afi_loaded(agfi, slot)]. *)
Definition check_fpga_afi_loaded (agfi_ : string) (slot_ : nat)
  : M World FpgaLocalImage :=
  fpgaLocalImage ← call_world (fpga_describe_local_image slot_) ;
  py_assert (bool_decide (statusName fpgaLocalImage = "loaded"))
    (agfi_ +:+ " FPGA StatusName != loaded: " +:+ statusName fpgaLocalImage) ;;
  py_assert (bool_decide (statusCode fpgaLocalImage = "0"))
    (agfi_ +:+ " status code != 0: " +:+ statusCode fpgaLocalImage) ;;
  py_assert (bool_decide (errorName fpgaLocalImage = "ok"))
    (agfi_ +:+ " FPGA ErrorName != ok: " +:+ errorName fpgaLocalImage) ;;
  py_assert (bool_decide (errorCode fpgaLocalImage = "0"))
    (agfi_ +:+ " ErrorCode != 0: " +:+ errorCode fpgaLocalImage) ;;
  py_assert (bool_decide (agfi fpgaLocalImage = agfi_))
    ("Expected " +:+ agfi_ +:+ ", actual " +:+ agfi fpgaLocalImage) ;;
  mret fpgaLocalImage.

(** [lines[i]]: the element, or [IndexError] past the end. *)
Definition py_index {A} (lines : list A) (i : nat) : Signal + A :=
  match lines !! i with
  | Some line => inr line
  | None => inl IndexError
  end.

(** [fpga_get_virtual_led(slot, remove_dashes=False, as_root=True)]. *)
Definition fpga_get_virtual_led
    (slot : nat) (remove_dashes as_root : bool) : M World PyBytes.bytes :=
  let cmd :=
    exec_as_user as_root "fpga-get-virtual-led" +:+ " -S " +:+ pretty slot in
  '(rc, stdout_lines, stderr_lines) ← run_cmd cmd false true ;
  py_assert (rc =? 0)%Z
    ("Failed to get virtual LEDs from slot " +:+ pretty slot +:+ ".") ;;
  value ← from_result (py_index stdout_lines 1) ;
  value ← (if remove_dashes
           then from_result (PyBytes.re_sub_str "-" "" value)
           else mret value) ;
  mret value.

(** [fpga_get_virtual_dip_switch(slot, remove_dashes=False, as_root=True)]. *)
Definition fpga_get_virtual_dip_switch
    (slot : nat) (remove_dashes as_root : bool) : M World PyBytes.bytes :=
  let cmd :=
    exec_as_user as_root "fpga-get-virtual-dip-switch" +:+
    " -S " +:+ pretty slot in
  '(rc, stdout_lines, stderr_lines) ← run_cmd cmd false true ;
  py_assert (rc =? 0)%Z
    ("Failed to get virtual DIP switches from slot " +:+ pretty slot +:+ ".") ;;
  value ← from_result (py_index stdout_lines 1) ;
  value ← (if remove_dashes
           then from_result (PyBytes.re_sub_str "-" "" value)
           else mret value) ;
  mret value.

Definition msix_agfi : string := "agfi-09c2a21805a8b9257".

(** [load_msix_workaround(slot=0)].  The object [check_fpga_afi_loaded]
    returns is what the [assert] tests; an object is true. *)
Definition load_msix_workaround (slot : nat) : M World unit :=
  fpga_clear_local_image slot 6000 180 true ;;
  logger_log INFO ("Loading MSI-X workaround into slot " +:+ pretty slot) ;;
  fpga_load_local_image msix_agfi slot 6000 180 true ;;
  logger_log INFO ("Checking slot " +:+ pretty slot +:+ " AFI Load status") ;;
  check_fpga_afi_loaded msix_agfi slot ;;
  fpga_clear_local_image slot 6000 180 true.

End WithHost.
End AwsFpgaTestBase.

(* ===================================================================== *)
(** ** sdk/tests/test_fpga_tools.py                                       *)
(* ===================================================================== *)

Module TestFpgaTools.

(** Whether a [while True] loop has been left when the model stops
    unrolling it. *)
Inductive Loop := StillLooping | LeftLoop.

Section WithHost.
Context {World : Type} {shell : Shell World} {host : FpgaHost World}.

(** Attributes the test class inherits from [BaseSdkTools]. *)
Variable cl_hello_world_agfi : string.
Variable shell_version : string.
Variable slot2device : nat → string.

Definition DEFAULT_REQUEST_TIMEOUT : Z := 6000.



Definition afi_cleared_row (slot : nat) : string :=
  "AFI          " +:+ pretty slot +:+
  "       none                    cleared           1        ok               0       " +:+
  shell_version.

Definition afi_loaded_row (slot : nat) : string :=
  "AFI          " +:+ pretty slot +:+ "       " +:+ cl_hello_world_agfi +:+
  "  loaded            0        ok               0       " +:+
  shell_version.

Definition afidevice_row (slot : nat) (device_id : string) : string :=
  "AFIDEVICE    " +:+ pretty slot +:+ "       0x1d0f      " +:+ device_id +:+
  "      " +:+ slot2device slot.

Definition busy_line : string := "Error: (3) busy".

Definition load_cmd (slot : nat) : string :=
  "sudo fpga-load-local-image --request-timeout " +:+
  pretty DEFAULT_REQUEST_TIMEOUT +:+ " -S " +:+ pretty slot +:+
  " -I " +:+ cl_hello_world_agfi.

Definition clear_cmd (slot : nat) : string :=
  "sudo fpga-clear-local-image --request-timeout " +:+
  pretty DEFAULT_REQUEST_TIMEOUT +:+ " -S " +:+ pretty slot.

(** The four assertions that follow a describe of one slot:
    [len(stdout) == 3], [len(stderr) == 1] and the two expected rows. *)
Definition assert_described
    (stdout stderr : list PyBytes.bytes) (row0 row1 : string) : M World unit :=
  py_assert (bool_decide (length stdout = 3)) "" ;;
  py_assert (bool_decide (length stderr = 1)) "" ;;
  line0 ← from_result (AwsFpgaTestBase.py_index stdout 0) ;
  py_assert (PyBytes.eq_str line0 row0) "" ;;
  line1 ← from_result (AwsFpgaTestBase.py_index stdout 1) ;
  py_assert (PyBytes.eq_str line1 row1) "".

(** The shape shared by the two polling loops:
[[
    while True:
        fpgaLocalImage = aws_fpga_test_utils.fpga_describe_local_image(slot)
        logger.info(f'status={fpgaLocalImage.statusName}')
        if fpgaLocalImage.statusName != target:
            time.sleep(1)
            continue
        on_target
        break
]]
    [fuel] bounds how many iterations the model unrolls; the source has
    no bound. *)
Fixpoint poll_while_true
    (fuel : nat) (target : string) (slot : nat) (on_target : M World unit)
  : M World Loop :=
  match fuel with
  | 0 => mret StillLooping
  | S fuel =>
      fpgaLocalImage ← call_world (fpga_describe_local_image slot) ;
      logger_log INFO ("status=" +:+ statusName fpgaLocalImage) ;;
      if bool_decide (statusName fpgaLocalImage ≠ target)
      then lift_world (λ w, ((), time_sleep 1 w)) ;;
           poll_while_true fuel target slot on_target
      else on_target ;; mret LeftLoop
  end.

(** [test_load_local_image], the loop under "Poll for it to be loaded". *)
Definition poll_for_loaded (fuel : nat) (slot : nat) : M World Loop :=
  poll_while_true fuel "loaded" slot (
    '(rc, stdout, stderr) ←
      AwsFpgaTestBase.run_cmd
        ("sudo fpga-describe-local-image -S " +:+ pretty slot) true true ;
    assert_described stdout stderr
      (afi_loaded_row slot) (afidevice_row slot "0xf000")).

(** [test_clear_local_image], the loop under "Poll for cleared". *)
Definition poll_for_cleared (fuel : nat) (slot : nat) : M World Loop :=
  poll_while_true fuel "cleared" slot (
    '(rc, stdout, stderr) ←
      AwsFpgaTestBase.run_cmd
        ("sudo fpga-describe-local-image --request-timeout " +:+
         pretty DEFAULT_REQUEST_TIMEOUT +:+ " -S " +:+ pretty slot)
        true true ;
    assert_described stdout stderr
      (afi_cleared_row slot) (afidevice_row slot "0x1042")).

(** [test_load_local_image], the part under "-A" for one slot. *)
Definition load_async_then_poll (fuel : nat) (slot : nat) : M World Loop :=
  '(rc, stdout, stderr) ←
    AwsFpgaTestBase.run_cmd (load_cmd slot +:+ " -A") true true ;
  py_assert (bool_decide (length stdout = 1)) "" ;;
  py_assert (bool_decide (length stderr = 1)) "" ;;
  poll_for_loaded fuel slot.

(** [test_clear_local_image], from "-A (async)" on, for one slot. *)
Definition clear_async_twice_then_poll (fuel : nat) (slot : nat)
  : M World Loop :=
  '(rc, stdout, stderr) ←
    AwsFpgaTestBase.run_cmd (clear_cmd slot +:+ " -A") true true ;
  py_assert (bool_decide (length stdout = 1)) "" ;;
  py_assert (bool_decide (length stderr = 1)) "" ;;
  (* Clear again immediately. It should fail because busy *)
  '(rc, stdout, stderr) ←
    AwsFpgaTestBase.run_cmd (clear_cmd slot +:+ " -A") true false ;
  py_assert (negb (rc =? 0)%Z) "" ;;
  py_assert (bool_decide (length stdout = 3)) "" ;;
  py_assert (bool_decide (length stderr = 1)) "" ;;
  line0 ← from_result (AwsFpgaTestBase.py_index stdout 0) ;
  py_assert (PyBytes.eq_str line0 busy_line) "" ;;
  poll_for_cleared fuel slot.

(** The world as the [k]-th iteration of a polling loop finds it: each
    earlier iteration has described the slot once and slept once. *)
Definition after_polls (slot : nat) (k : nat) (w : World) : World :=
  Nat.iter k (λ w, time_sleep 1 (fpga_describe_local_image slot w).2) w.

(** The slot is described without a signal at every sample; its
    [statusName] is [target] at sample [k] and at no earlier sample. *)
Definition first_reaches_at
    (target : string) (slot : nat) (w : World) (k : nat) : Prop :=
  (∀ j, j < k → ∃ img,
     (fpga_describe_local_image slot (after_polls slot j w)).1 = inr img
     ∧ statusName img ≠ target)
  ∧ ∃ img,
      (fpga_describe_local_image slot (after_polls slot k w)).1 = inr img
      ∧ statusName img = target.

(** The slot is described without a signal at every sample, and its
    [statusName] is never [target]. *)
Definition never_reaches (target : string) (slot : nat) (w : World) : Prop :=
  ∀ k, ∃ img,
    (fpga_describe_local_image slot (after_polls slot k w)).1 = inr img
    ∧ statusName img ≠ target.

End WithHost.
End TestFpgaTools.

(* ===================================================================== *)
(** ** Vitis/tests/test_find_vitis_examples.py                            *)
(* ===================================================================== *)

(** What [json.load] returns.  A JSON object is kept as its list of
    members; numbers are integers here, no embedded function looks inside
    one. *)
#[local] Unset Elimination Schemes.
Inductive Json :=
  | JNull
  | JBool (b : bool)
  | JNumber (z : Z)
  | JString (s : string)
  | JArray (items : list Json)
  | JObject (members : list (string * Json)).
#[local] Set Elimination Schemes.

Module PyJson.

(** [needle in s] for two strings. *)
Fixpoint is_substring (needle s : string) : bool :=
  String.prefix needle s
  || match s with
     | "" => false
     | String _ rest => is_substring needle rest
     end.

Definition is_str (needle : string) (j : Json) : bool :=
  match j with
  | JString s => bool_decide (s = needle)
  | _ => false
  end.

(** [needle in j] for a string [needle]: a key of a dict, an element of a
    list, a substring of a string; anything else is not iterable. *)
Definition contains (needle : string) (j : Json) : Signal + bool :=
  match j with
  | JObject members => inr (bool_decide (needle ∈ members.*1))
  | JArray items => inr (existsb (is_str needle) items)
  | JString s => inr (is_substring needle s)
  | _ => inl TypeError
  end.

Fixpoint assoc (key : string) (members : list (string * Json)) : option Json :=
  match members with
  | [] => None
  | (k, v) :: rest => if decide (k = key) then Some v else assoc key rest
  end.

(** [j[key]] for a string [key]. *)
Definition getitem (j : Json) (key : string) : Signal + Json :=
  match j with
  | JObject members =>
      match assoc key members with
      | Some v => inr v
      | None => inl KeyError
      end
  | _ => inl TypeError
  end.

(** [len(j)]. *)
Definition len (j : Json) : Signal + nat :=
  match j with
  | JObject members => inr (length members)
  | JArray items => inr (length items)
  | JString s => inr (String.length s)
  | _ => inl TypeError
  end.

End PyJson.

(** The file system and the library as the example-discovery test uses
    them.  [os_walk] gives the [root] of every triple [os.walk] yields, in
    order; [json_load] is [open(path, "r")] followed by [json.load];
    [json_dump] is [open(path, 'w')] followed by [json.dump].
    [str_capitalize] is [str.capitalize] on a string that has a character
    outside ASCII, where the case tables of Unicode decide; they are not
    part of the repository. *)
Class FileSystem (World : Type) := {
  os_walk : string → World → list string;
  os_path_exists : string → World → bool;
  os_listdir : string → World → list string;
  json_load : string → World → Signal + Json;
  json_dump : gmap string string → string → World → World;
  os_path_getsize : string → World → Z;
  os_path_relpath : string → string → string;
  str_capitalize : string → string
}.

Module TestFindVitisExamples.

(** [s.replace(c, by)] for a one-character [c]. *)
Fixpoint replace_char (c : ascii) (by_ : string) (s : string) : string :=
  match s with
  | "" => ""
  | String a rest =>
      if decide (a = c) then by_ +:+ replace_char c by_ rest
      else String a (replace_char c by_ rest)
  end.

Definition upper (a : ascii) : ascii :=
  let n := nat_of_ascii a in
  if (97 <=? n) && (n <=? 122) then ascii_of_nat (n - 32) else a.

Definition lower (a : ascii) : ascii :=
  let n := nat_of_ascii a in
  if (65 <=? n) && (n <=? 90) then ascii_of_nat (n + 32) else a.

Fixpoint lower_all (s : string) : string :=
  match s with
  | "" => ""
  | String a rest => String (lower a) (lower_all rest)
  end.

(** Whether every character of [s] is an ASCII character. *)
Fixpoint is_ascii (s : string) : bool :=
  match s with
  | "" => true
  | String a rest => (nat_of_ascii a <? 128) && is_ascii rest
  end.

(** [s.capitalize()] for an ASCII string: the first character in upper
    case, the others in lower case. *)
Definition capitalize_ascii (s : string) : string :=
  match s with
  | "" => ""
  | String a rest => String (upper a) (lower_all rest)
  end.

Section WithFileSystem.
Context {World : Type} {fs : FileSystem World}.

(** [s.capitalize()]. *)
Definition capitalize (s : string) : string :=
  if is_ascii s then capitalize_ascii s else str_capitalize s.

(** The loop that fills [xilinx_vitis_example_map]. *)
Definition example_map (xilinx_examples_makefiles : list string)
  : gmap string string :=
  foldl (λ m example_path,
           let example_test_class :=
             capitalize (replace_char "/" "__" example_path) in
           <[example_test_class := example_path]> m)
        ∅ xilinx_examples_makefiles.

(** Class attributes of [AwsFpgaTestBase]. *)
Variable git_repo_dir : string.

Definition WORKSPACE : string := git_repo_dir.
Definition xilinx_vitis_examples_dir : string :=
  git_repo_dir +:+ "/" +:+ "Vitis/examples/xilinx".
Definition xilinx_vitis_examples_list_file : string :=
  WORKSPACE +:+ "/vitis_examples_list.json".

(** [if key in description: if "aws" in description[key]:] as one test. *)
Definition names_aws (description : Json) (key : string) : M World bool :=
  present ← from_result (PyJson.contains key description) ;
  if present : bool then
    listed ← from_result (PyJson.getitem description key) ;
    from_result (PyJson.contains "aws" listed)
  else mret false.

(** One iteration of [for root, dirs, files in os.walk(...)]: the list
    [xilinx_examples_makefiles] after it.  Leaving through [continue] gives
    the list back as it was. *)
Definition visit (root : string) (xilinx_examples_makefiles : list string)
  : M World (list string) :=
  let continue := mret xilinx_examples_makefiles in
  let finish (ignore : bool) : M World (list string) :=
    if negb ignore then
      logger_log INFO ("Adding: " +:+ root) ;;
      mret (xilinx_examples_makefiles ++ [root])
    else continue in
  has_description ← read_world (os_path_exists (root +:+ "/description.json")) ;
  has_makefile ← read_world (os_path_exists (root +:+ "/Makefile")) ;
  if has_description && has_makefile then
    loaded ← read_world (json_load (root +:+ "/description.json")) ;
    description ← from_result loaded ;
    has_containers ← from_result (PyJson.contains "containers" description) ;
    if has_containers : bool then
      containers ← from_result (PyJson.getitem description "containers") ;
      n ← from_result (PyJson.len containers) ;
      ignore ← (if bool_decide (1 < n) then
                  logger_log INFO ("Ignoring " +:+ root +:+
                    " as >1 containers found in description.json.") ;;
                  mret true
                else mret false) ;
      in_ndevice ← names_aws description "ndevice" ;
      if in_ndevice : bool then
        logger_log INFO ("Ignoring " +:+ root +:+
                         " as F1 device found in ndevice.") ;;
        continue
      else
        in_blacklist ← names_aws description "platform_blacklist" ;
        if in_blacklist : bool then
          logger_log INFO ("Ignoring " +:+ root +:+
                           " as F1 device found in ndevice.") ;;
          continue
        else finish ignore
    else
      logger_log INFO ("Ignoring " +:+ root +:+
                       " as no containers found in description.json.") ;;
      continue
  else
    logger_log WARNING ("Ignoring: " +:+ root +:+
                        " as no Makefile/description.json exist") ;;
    finish true.

(** The whole [for] loop over the roots [os.walk] yields. *)
Fixpoint visit_all (roots : list string) (xilinx_examples_makefiles : list string)
  : M World (list string) :=
  match roots with
  | [] => mret xilinx_examples_makefiles
  | root :: roots =>
      xilinx_examples_makefiles ← visit root xilinx_examples_makefiles ;
      visit_all roots xilinx_examples_makefiles
  end.

(** [test_find_example_makefiles(self, xilinxVersion)]; the value is the
    map the test has dumped. *)
Definition test_find_example_makefiles (xilinxVersion : string)
  : M World (gmap string string) :=
  there ← read_world (os_path_exists xilinx_vitis_examples_dir) ;
  py_assert there
    ("The Xilinx Vitis example dir does not exist: " +:+
     xilinx_vitis_examples_dir) ;;
  entries ← read_world (os_listdir xilinx_vitis_examples_dir) ;
  py_assert (negb (bool_decide (entries = [])))
    "Xilinx Vitis example submodule not cloned or does not exist" ;;
  roots ← read_world (os_walk xilinx_vitis_examples_dir) ;
  xilinx_examples_makefiles ← visit_all roots [] ;
  py_assert (negb (bool_decide (xilinx_examples_makefiles = [])))
    ("Could not find any Xilinx Vitis example in " +:+
     xilinx_vitis_examples_dir) ;;
  let xilinx_examples_makefiles :=
    (λ full_path, os_path_relpath full_path WORKSPACE)
      <$> xilinx_examples_makefiles in
  let xilinx_vitis_example_map := example_map xilinx_examples_makefiles in
  lift_world (λ w, ((), json_dump xilinx_vitis_example_map
                          xilinx_vitis_examples_list_file w)) ;;
  lift_world (λ w, ((), json_dump xilinx_vitis_example_map
                          (xilinx_vitis_examples_list_file +:+ "." +:+
                           xilinxVersion) w)) ;;
  size ← read_world (os_path_getsize xilinx_vitis_examples_list_file) ;
  py_assert (0 <? size)%Z
    (xilinx_vitis_examples_list_file +:+
     " is a non zero file. We need to have some data in the file") ;;
  mret xilinx_vitis_example_map.

(** The two ignored kinds of example: a walked directory that has both
    files and whose description either lacks the key ["containers"] or
    carries more than one container. *)
Definition lacks_containers (description : Json) : Prop :=
  PyJson.contains "containers" description = inr false.

Definition several_containers (description : Json) : Prop :=
  PyJson.contains "containers" description = inr true
  ∧ ∃ containers n,
      PyJson.getitem description "containers" = inr containers
      ∧ PyJson.len containers = inr n ∧ 1 < n.

Definition has_both_files (root : string) (w : World) : Prop :=
  os_path_exists (root +:+ "/description.json") w = true
  ∧ os_path_exists (root +:+ "/Makefile") w = true.

End WithFileSystem.
End TestFindVitisExamples.

(* ===================================================================== *)
(** ** The management tools, as the specification describes them          *)
(* ===================================================================== *)

Module FpgaMgmt.

(** Modelled from the spec: the per-slot state machine that the management
    tools expose (the [fpga-*-local-image] programs are not among the
    embedded files).  A slot runs
    [cleared → loading → loaded → clearing → cleared]; [Loading] and
    [Clearing] are the transient phases. *)
Inductive Phase := Cleared | Loading | Loaded | Clearing.

Definition mid_transition (p : Phase) : bool :=
  match p with
  | Loading | Clearing => true
  | Cleared | Loaded => false
  end.

Inductive Request := LoadImage (agfi : string) | ClearImage.

Definition begun (r : Request) : Phase :=
  match r with
  | LoadImage _ => Loading
  | ClearImage => Clearing
  end.

(** Modelled from the spec: an asynchronous ([-A]) request to a slot, a
    step of the management tool that is missing from the embedded files.
    On a slot in mid-transition it exits with code 3, its first output
    line is [Error: (3) busy] ([detail] stands for what the tool prints
    after that line) and the slot is left alone.  Otherwise it returns at
    once with an empty success line and the slot starts its transition. *)
Definition async_request
    (detail : string) (r : Request) (slot : nat) (hw : nat → Phase)
  : Completed * (nat → Phase) :=
  if mid_transition (hw slot)
  then (mkCompleted 3
          (PyBytes.Bytes ("Error: (3) busy" +:+ PyStr.nl +:+ detail))
          (PyBytes.Bytes ""),
        hw)
  else (mkCompleted 0 (PyBytes.Bytes "") (PyBytes.Bytes ""),
        <[slot := begun r]> hw).

(** Modelled from the spec: the shell in front of that tool, which is
    missing from the embedded files as well.  [decode] says which
    asynchronous request a command line denotes, if any; [other] runs
    every other command line. *)
Definition shell
    (decode : string → option (Request * nat)) (detail : string)
    (other : string → (nat → Phase) → Completed * (nat → Phase))
  : Shell (nat → Phase) :=
  λ cmd hw,
    match decode cmd with
    | Some (r, slot) => async_request detail r slot hw
    | None => other cmd hw
    end.



Section Describe.
Variable shell_version : string.
Variable slot2device : nat → string.
Variable slot2mbox_device : nat → string.



End Describe.




End FpgaMgmt.

(* ===================================================================== *)
(** ** The slot record invariant                                          *)
(* ===================================================================== *)

Module SlotRecord.




End SlotRecord.

(* ===================================================================== *)
(** ** Small concrete hosts                                               *)
(* ===================================================================== *)

Module Lab.

(** A shell on which every command completes in the same way. *)
Definition fixed_shell {World : Type} (p : Completed) : Shell World :=
  λ _ w, (p, w).

(** A shell that also counts the processes it has run. *)
Definition counting {World : Type} (sh : Shell World) : Shell (World * nat) :=
  λ cmd '(w, n), let '(p, w') := sh cmd w in (p, (w', S n)).




(** A host whose slots report [status] for ever; the world counts the
    seconds slept. *)
Definition stuck_host (status code : string) : FpgaHost nat :=
  {| fpga_describe_local_image slot w :=
       (inr (mkImage (pretty slot) "none" status code "ok" "0" "0x04261818"), w);
     time_sleep n w := n + w |}.

(** A file system with three example directories under [/w]: [/w/a],
    whose description has no containers, [/w/b], whose description has
    two, and [/w/c], whose description has one. *)
Definition three_examples : FileSystem unit :=
  {| os_walk _ _ := ["/w/a"; "/w/b"; "/w/c"];
     os_path_exists _ _ := true;
     os_listdir _ _ := ["a"; "b"; "c"];
     json_load path _ :=
       if decide (path = "/w/a/description.json")
       then inr (JObject [("name", JString "a")])
       else if decide (path = "/w/b/description.json")
       then inr (JObject [("containers", JArray [JObject []; JObject []])])
       else inr (JObject [("containers", JArray [JObject []])]);
     json_dump _ _ w := w;
     os_path_getsize _ _ := 10%Z;
     os_path_relpath path start :=
       if String.prefix (start +:+ "/") path
       then String.substring (S (String.length start))
              (String.length path - S (String.length start)) path
       else path;
     str_capitalize s := s |}.

End Lab.

(* ===================================================================== *)
(** ** AwsFpgaTestBase: paths, the environment, artifacts                 *)
(* ===================================================================== *)

Module PyPath.

(** [s.endswith('/')]. *)
Fixpoint ends_with_slash (s : string) : bool :=
  match s with
  | "" => false
  | String a "" => bool_decide (a = "/"%char)
  | String _ rest => ends_with_slash rest
  end.

(** [os.path.join(a, b)] of [posixpath], for two components. *)
Definition join (a b : string) : string :=
  if String.prefix "/" b then b
  else if bool_decide (a = "") || ends_with_slash a then a +:+ b
  else a +:+ "/" +:+ b.

(** [os.path.basename(p)] of [posixpath]: what follows the last ['/']. *)
Definition basename (p : string) : string :=
  List.last (PyStr.split "/" p) "".

(** [re.sub('^' + prefix, by, s)] for a literal [prefix]: the prefix is
    replaced where [s] starts with it, and [s] is returned as it is
    otherwise. *)
Definition sub_prefix (prefix by_ s : string) : string :=
  if String.prefix prefix s
  then by_ +:+ String.substring (String.length prefix)
                 (String.length s - String.length prefix) s
  else s.

End PyPath.

Module TestBaseEnv.

(** A client handle of [boto3]: [None], or a client. *)
Inductive Handle := NoClient | Boto3Client.

(** The attributes that [setup_class] creates on the class
    [AwsFpgaTestBase]; [None] is an attribute that does not exist yet.
    [ec2_client] and [s3_client] are [__ec2_client] and [__s3_client]. *)
Record Attributes := mkAttributes {
  s3_bucket : option string;
  ec2_client : option Handle;
  s3_client : option Handle;
  test_dir : option string;
  xilinx_sdaccel_examples_prefix_path : option string;
  xilinx_sdaccel_examples_dir : option string;
  xilinx_sdaccel_examples_list_file : option string;
  xilinx_vitis_examples_prefix_path : option string;
  xilinx_vitis_examples_dir : option string;
  xilinx_vitis_examples_list_file : option string;
  instance_type : option string;
  num_slots : option nat
}.

(** The class before [setup_class] has run. *)
Definition no_attributes : Attributes :=
  mkAttributes None None None None None None None None None None None None.

(** The world of this part: [os.environ] and the class attributes. *)
Record Process := mkProcess {
  environ : gmap string string;
  attributes : Attributes
}.

Section WithRepo.

Implicit Types (st : State Process).

(** [git_repo_dir], and what the helpers of [aws_fpga_test_utils] and of
    [os.path] answer: they are not among the embedded files. *)
Variable git_repo_dir : string.
Variable dirname_realpath : string → string.
Variable get_instance_type : Signal + string.
Variable get_num_fpga_slots : string → Signal + nat.
Variable os_path_relpath : string → string → string.

Definition WORKSPACE : string := git_repo_dir.

(** [os.environ[key]]. *)
Definition environ_getitem (key : string) : M Process string :=
  λ st, match environ (world st) !! key with
        | Some value => (inr value, st)
        | None => (inl KeyError, st)
        end.

(** [os.environ[key] = value]. *)
Definition environ_setitem (key value : string) : M Process unit :=
  λ st, (inr (),
         mkState (mkProcess (<[key := value]> (environ (world st)))
                    (attributes (world st)))
           (logs st)).

(** [key in os.environ]. *)
Definition environ_contains (key : string) : M Process bool :=
  λ st, (inr (bool_decide (is_Some (environ (world st) !! key))), st).

(** [os.environ.get(key)]. *)
Definition environ_get (key : string) : M Process (option string) :=
  λ st, (inr (environ (world st) !! key), st).

(** Assignments to attributes of the class. *)
Definition set_attributes (f : Attributes → Attributes) : M Process unit :=
  λ st, (inr (),
         mkState (mkProcess (environ (world st)) (f (attributes (world st))))
           (logs st)).

(** [AwsFpgaTestBase.name], for an attribute that [setup_class] creates:
    [AttributeError] while it does not exist. *)
Definition getattr {A} (field : Attributes → option A) : M Process A :=
  λ st, match field (attributes (world st)) with
        | Some value => (inr value, st)
        | None => (inl AttributeError, st)
        end.

(** The assignments that open [setup_class], down to the Vitis
    locations. *)
Definition assign_locations (filename_of_test_class : string)
    (a : Attributes) : Attributes :=
  let sdaccel_prefix := "SDAccel/examples/xilinx" in
  let vitis_prefix := "Vitis/examples/xilinx" in
  mkAttributes
    (Some "aws-fpga-jenkins-testing")
    (Some NoClient)
    (Some NoClient)
    (Some (dirname_realpath filename_of_test_class))
    (Some sdaccel_prefix)
    (Some (git_repo_dir +:+ "/" +:+ sdaccel_prefix))
    (Some (WORKSPACE +:+ "/sdaccel_examples_list.json"))
    (Some vitis_prefix)
    (Some (git_repo_dir +:+ "/" +:+ vitis_prefix))
    (Some (WORKSPACE +:+ "/vitis_examples_list.json"))
    (instance_type a)
    (num_slots a).

Definition assign_instance_type (value : string) (a : Attributes)
  : Attributes :=
  mkAttributes (s3_bucket a) (ec2_client a) (s3_client a) (test_dir a)
    (xilinx_sdaccel_examples_prefix_path a) (xilinx_sdaccel_examples_dir a)
    (xilinx_sdaccel_examples_list_file a)
    (xilinx_vitis_examples_prefix_path a) (xilinx_vitis_examples_dir a)
    (xilinx_vitis_examples_list_file a)
    (Some value) (num_slots a).

Definition assign_num_slots (value : nat) (a : Attributes) : Attributes :=
  mkAttributes (s3_bucket a) (ec2_client a) (s3_client a) (test_dir a)
    (xilinx_sdaccel_examples_prefix_path a) (xilinx_sdaccel_examples_dir a)
    (xilinx_sdaccel_examples_list_file a)
    (xilinx_vitis_examples_prefix_path a) (xilinx_vitis_examples_dir a)
    (xilinx_vitis_examples_list_file a)
    (instance_type a) (Some value).

(** [setup_class(cls, derived_cls, filename_of_test_class)]. *)
Definition setup_class (filename_of_test_class : string) : M Process unit :=
  set_attributes (assign_locations filename_of_test_class) ;;
  has_workspace ← environ_contains "WORKSPACE" ;
  (if has_workspace : bool then
     workspace ← environ_getitem "WORKSPACE" ;
     py_assert (bool_decide (workspace = git_repo_dir)) "WORKSPACE incorrect"
   else environ_setitem "WORKSPACE" WORKSPACE) ;;
  has_build_tag ← environ_contains "BUILD_TAG" ;
  (if negb has_build_tag then
     environ_setitem "BUILD_TAG" "test" ;;
     build_tag ← environ_getitem "BUILD_TAG" ;
     logger_log INFO ("Set BUILD_TAG to " +:+ build_tag)
   else mret ()) ;;
  value ← from_result get_instance_type ;
  set_attributes (assign_instance_type value) ;;
  instance_type ← getattr instance_type ;
  value ← from_result (get_num_fpga_slots instance_type) ;
  set_attributes (assign_num_slots value).

(** The pair of assertions [assert key in os.environ, unset] and
    [assert os.environ[key] == expected, wrong]. *)
Definition assert_environ_is (key expected unset wrong : string)
  : M Process unit :=
  present ← environ_contains key ;
  py_assert present unset ;;
  value ← environ_getitem key ;
  py_assert (bool_decide (value = expected)) wrong.

(** [assert os.environ.get(key) != 'None', msg]. *)
Definition assert_environ_not_None (key msg : string)
  : M Process unit :=
  value ← environ_get key ;
  py_assert (negb (bool_decide (value = Some "None"))) msg.

(** [assert_hdk_setup()]. *)
Definition assert_hdk_setup : M Process unit :=
  let hint := " source " +:+ git_repo_dir +:+ "/hdk_setup.sh" in
  assert_environ_is "AWS_FPGA_REPO_DIR" git_repo_dir
    ("AWS_FPGA_REPO_DIR not set." +:+ hint)
    ("AWS_FPGA_REPO_DIR not set to the repo dir." +:+ hint) ;;
  assert_environ_is "HDK_DIR" (PyPath.join git_repo_dir "hdk")
    ("HDK_DIR not set." +:+ hint)
    ("HDK_DIR incorrect." +:+ hint).

(** [assert_sdk_setup()]. *)
Definition assert_sdk_setup : M Process unit :=
  let hint := " source " +:+ git_repo_dir +:+ "/sdk_setup.sh" in
  assert_environ_is "SDK_DIR" (PyPath.join git_repo_dir "sdk")
    ("SDK_DIR not set." +:+ hint)
    ("SDK_DIR incorrect." +:+ hint).

(** [assert_sdaccel_setup()]. *)
Definition assert_sdaccel_setup : M Process unit :=
  let hint := " source " +:+ git_repo_dir +:+ "/sdaccel_setup.sh" in
  assert_environ_is "AWS_FPGA_REPO_DIR" git_repo_dir
    ("AWS_FPGA_REPO_DIR not set." +:+ hint)
    ("AWS_FPGA_REPO_DIR not set to the repo dir." +:+ hint) ;;
  assert_environ_is "SDK_DIR" (PyPath.join git_repo_dir "sdk")
    ("SDK_DIR not set." +:+ hint)
    ("SDK_DIR incorrect." +:+ hint) ;;
  assert_environ_is "SDACCEL_DIR" (PyPath.join git_repo_dir "SDAccel")
    ("SDACCEL_DIR not set." +:+ hint)
    ("SDACCEL_DIR incorrect." +:+ hint) ;;
  assert_environ_not_None "AWS_PLATFORM"
    ("Environment Var AWS_PLATFORM not set." +:+ hint) ;;
  assert_environ_not_None "XILINX_SDX"
    "Environment Var XILINX_SDX not set. Please check the AMI.".

(** [assert_vitis_setup()]. *)
Definition assert_vitis_setup : M Process unit :=
  let hint := " source " +:+ git_repo_dir +:+ "/vitis_setup.sh" in
  assert_environ_is "AWS_FPGA_REPO_DIR" git_repo_dir
    ("AWS_FPGA_REPO_DIR not set." +:+ hint)
    ("AWS_FPGA_REPO_DIR not set to the repo dir." +:+ hint) ;;
  assert_environ_is "SDK_DIR" (PyPath.join git_repo_dir "sdk")
    ("SDK_DIR not set." +:+ hint)
    ("SDK_DIR incorrect." +:+ hint) ;;
  assert_environ_is "VITIS_DIR" (PyPath.join git_repo_dir "Vitis")
    ("VITIS_DIR not set." +:+ hint)
    ("VITIS_DIR incorrect." +:+ hint) ;;
  assert_environ_not_None "AWS_PLATFORM"
    ("Environment Var AWS_PLATFORM not set." +:+ hint) ;;
  assert_environ_not_None "XILINX_VITIS"
    "Environment Var XILINX_VITIS not set. Please check the AMI.".

(** [assert s != ''], an assertion without a message. *)
Definition assert_nonempty (s : string) : M Process unit :=
  py_assert (negb (bool_decide (s = ""))) "".

(** [get_cl_s3_dcp_tag(cl, option_tag, xilinxVersion)]. *)
Definition get_cl_s3_dcp_tag (cl option_tag xilinxVersion : string)
  : M Process string :=
  assert_nonempty option_tag ;;
  assert_nonempty xilinxVersion ;;
  build_tag ← environ_getitem "BUILD_TAG" ;
  mret ("jenkins/" +:+ build_tag +:+ "/cl/" +:+ xilinxVersion +:+ "/" +:+
        cl +:+ "/" +:+ option_tag +:+ "/dcp").

(** [get_cl_s3_afi_tag(cl, option_tag, xilinxVersion)]. *)
Definition get_cl_s3_afi_tag (cl option_tag xilinxVersion : string)
  : M Process string :=
  assert_nonempty option_tag ;;
  assert_nonempty xilinxVersion ;;
  build_tag ← environ_getitem "BUILD_TAG" ;
  mret ("jenkins/" +:+ build_tag +:+ "/cl/" +:+ xilinxVersion +:+ "/" +:+
        cl +:+ "/" +:+ option_tag +:+ "/create-afi/afi_ids.txt").

(** The four assertions that open every example tag function. *)
Definition assert_example_args (examplePath target rteName xilinxVersion : string)
  : M Process unit :=
  assert_nonempty target ;;
  assert_nonempty examplePath ;;
  assert_nonempty rteName ;;
  assert_nonempty xilinxVersion.

(** [get_sdaccel_example_s3_root_tag(examplePath, target, rteName,
    xilinxVersion)]. *)
Definition get_sdaccel_example_s3_root_tag
    (examplePath target rteName xilinxVersion : string)
  : M Process string :=
  assert_example_args examplePath target rteName xilinxVersion ;;
  prefix_path ← getattr xilinx_sdaccel_examples_prefix_path ;
  let example_relative_path := os_path_relpath examplePath prefix_path in
  build_tag ← environ_getitem "BUILD_TAG" ;
  mret ("jenkins/" +:+ build_tag +:+ "/SDAccel/" +:+ xilinxVersion +:+ "/" +:+
        rteName +:+ "/" +:+ example_relative_path +:+ "/" +:+ target).

(** [get_vitis_example_s3_root_tag(examplePath, target, rteName,
    xilinxVersion)]. *)
Definition get_vitis_example_s3_root_tag
    (examplePath target rteName xilinxVersion : string)
  : M Process string :=
  assert_example_args examplePath target rteName xilinxVersion ;;
  prefix_path ← getattr xilinx_vitis_examples_prefix_path ;
  let example_relative_path := os_path_relpath examplePath prefix_path in
  build_tag ← environ_getitem "BUILD_TAG" ;
  mret ("jenkins/" +:+ build_tag +:+ "/Vitis/" +:+ xilinxVersion +:+ "/" +:+
        rteName +:+ "/" +:+ example_relative_path +:+ "/" +:+ target).

(** The shape of the six tag functions below: the four assertions, the
    root tag, and a suffix. *)
Definition tag_under
    (root_tag : string → string → string → string →
                M Process string)
    (suffix examplePath target rteName xilinxVersion : string)
  : M Process string :=
  assert_example_args examplePath target rteName xilinxVersion ;;
  root ← root_tag examplePath target rteName xilinxVersion ;
  mret (root +:+ suffix).

(** [get_sdaccel_example_s3_xclbin_tag], [..._dcp_tag], [..._afi_tag]. *)
Definition get_sdaccel_example_s3_xclbin_tag :=
  tag_under get_sdaccel_example_s3_root_tag "/xclbin".
Definition get_sdaccel_example_s3_dcp_tag :=
  tag_under get_sdaccel_example_s3_root_tag "/dcp".
Definition get_sdaccel_example_s3_afi_tag :=
  tag_under get_sdaccel_example_s3_root_tag "/create-afi/afi-ids.txt".

(** [get_vitis_example_s3_xclbin_tag], [..._dcp_tag], [..._afi_tag]. *)
Definition get_vitis_example_s3_xclbin_tag :=
  tag_under get_vitis_example_s3_root_tag "/xclbin".
Definition get_vitis_example_s3_dcp_tag :=
  tag_under get_vitis_example_s3_root_tag "/dcp".
Definition get_vitis_example_s3_afi_tag :=
  tag_under get_vitis_example_s3_root_tag "/create-afi/afi-ids.txt".

End WithRepo.
End TestBaseEnv.

(** Small concrete processes. *)
Module LabEnv.

(** A process with the environment [env] in which [setup_class] has not
    run. *)
Definition fresh (env : gmap string string) : State TestBaseEnv.Process :=
  mkState (TestBaseEnv.mkProcess env TestBaseEnv.no_attributes) [].

(** A process with the environment [env] in which [setup_class] of the
    repository [/repo] has assigned the locations. *)
Definition located (env : gmap string string) : State TestBaseEnv.Process :=
  mkState
    (TestBaseEnv.mkProcess env
       (TestBaseEnv.assign_locations "/repo" (λ f, f) "test.py"
          TestBaseEnv.no_attributes))
    [].

End LabEnv.

(* ===================================================================== *)
(** ** AwsFpgaTestBase: files, example descriptions and run commands      *)
(* ===================================================================== *)

(** What the run-command functions do with the values [json.load] gives. *)
Module PyValue.

(** [bool(j)], as [if j:] takes it; of the numbers only [0] is false. *)
Definition truthy (j : Json) : bool :=
  match j with
  | JNull => false
  | JBool b => b
  | JNumber z => negb (z =? 0)%Z
  | JString s => match s with "" => false | _ => true end
  | JArray items => match items with [] => false | _ => true end
  | JObject members => match members with [] => false | _ => true end
  end.

(** [j is not None]. *)
Definition is_not_None (j : Json) : bool :=
  match j with
  | JNull => false
  | _ => true
  end.

(** [j.get(key, None)]: a method of [dict] only; a missing key and a
    [null] both give [None]. *)
Definition get (j : Json) (key : string) : Signal + Json :=
  match j with
  | JObject members => inr (default JNull (PyJson.assoc key members))
  | _ => inl AttributeError
  end.

(** [j[0]]. *)
Definition index0 (j : Json) : Signal + Json :=
  match j with
  | JArray items =>
      match items with
      | item :: _ => inr item
      | [] => inl IndexError
      end
  | JObject _ => inl KeyError
  | JString s =>
      match s with
      | String c _ => inr (JString (String c ""))
      | "" => inl IndexError
      end
  | _ => inl TypeError
  end.

(** [s.replace(old, new)] for a non-empty [old]: the occurrences of [old]
    are found from the left and do not overlap; [skip] counts the
    characters of an occurrence that are still to be passed over. *)
Fixpoint replace_go (old new : string) (skip : nat) (s : string) : string :=
  match s with
  | "" => ""
  | String a rest =>
      match skip with
      | S k => replace_go old new k rest
      | 0 =>
          if String.prefix old s
          then new +:+ replace_go old new (String.length old - 1) rest
          else String a (replace_go old new 0 rest)
      end
  end.

Definition replace (old new s : string) : string := replace_go old new 0 s.

(** [j.replace(old, new)]: a method of [str] only. *)
Definition str_replace (old new : string) (j : Json) : Signal + string :=
  match j with
  | JString s => inr (replace old new s)
  | _ => inl AttributeError
  end.

End PyValue.

(** The file system as [AwsFpgaTestBase] reads it: [glob.glob],
    [os.getcwd], [os.stat(f).st_size], [open(f)] followed by [json.load],
    and [os.readlink].  None of them changes anything. *)
Class ExampleFiles (World : Type) := {
  glob_glob : string → World → list string;
  os_getcwd : World → string;
  os_stat_st_size : string → World → Signal + Z;
  open_json_load : string → World → Signal + Json;
  os_readlink : string → World → Signal + string
}.

Module TestBaseFiles.
Section WithFiles.

Context {World : Type} `{!ExampleFiles World}.

(** [git_repo_dir]; [py_repr] is the [str] of a list of file names and
    [py_str] the [str] of a parsed value that is not itself a [str], as an
    f-string prints them. *)
Variable git_repo_dir : string.
Variable py_repr : list string → string.
Variable py_str : Json → string.

Definition WORKSPACE : string := TestBaseEnv.WORKSPACE git_repo_dir.

(** [f"{j}"]. *)
Definition format (j : Json) : string :=
  match j with
  | JString s => s
  | _ => py_str j
  end.

(** [get_shell_version()]. *)
Definition get_shell_version : M World string :=
  let shell_link := PyPath.join WORKSPACE "hdk/common/shell_stable" in
  target ← call_world (λ w, (os_readlink shell_link w, w)) ;
  let link := PyPath.basename target in
  mret (PyPath.sub_prefix "shell_v" "0x" link).

(** [[x for x in filenames if ".link." not in x]]. *)
Definition without_links (filenames : list string) : list string :=
  List.filter (λ x, negb (PyJson.is_substring ".link." x)) filenames.

(** [assert_non_zero_file(filter)]. *)
Definition assert_non_zero_file (filter : string) : M World string :=
  filenames ← read_world (glob_glob filter) ;
  let filenames := without_links filenames in
  cwd ← read_world os_getcwd ;
  py_assert (match filenames with [] => false | _ => true end)
    ("No " +:+ filter +:+ " file found in " +:+ cwd) ;;
  py_assert (length filenames =? 1)%nat
    ("More than 1 " +:+ filter +:+ " file found: "
     +:+ pretty (length filenames) +:+ PyStr.nl +:+ py_repr filenames) ;;
  match filenames with
  | [] => raise IndexError
  | filename :: _ =>
      size ← call_world (λ w, (os_stat_st_size filename w, w)) ;
      py_assert (negb (size =? 0)%Z) (filename +:+ " is 0 size") ;;
      mret filename
  end.

Definition get_sdaccel_example_fullpath (examplePath : string) : string :=
  WORKSPACE +:+ "/" +:+ examplePath +:+ "/".

Definition get_vitis_example_fullpath (examplePath : string) : string :=
  WORKSPACE +:+ "/" +:+ examplePath +:+ "/".

Definition get_vitis_example_base_dir (xilinxVersion : string) : string :=
  WORKSPACE +:+ "/Vitis/examples/xilinx_" +:+ xilinxVersion +:+ "/".

(** [get_sdaccel_example_description(examplePath)]. *)
Definition get_sdaccel_example_description (examplePath : string)
  : M World Json :=
  example_description ←
    assert_non_zero_file
      (PyPath.join (get_sdaccel_example_fullpath examplePath)
         "description.json") ;
  call_world (λ w, (open_json_load example_description w, w)).

(** [get_vitis_example_description(examplePath)]. *)
Definition get_vitis_example_description (examplePath : string)
  : M World Json :=
  example_description ←
    assert_non_zero_file
      (PyPath.join (get_vitis_example_fullpath examplePath)
         "description.json") ;
  call_world (λ w, (open_json_load example_description w, w)).

Definition dynamic_xclbin : string :=
  ".hw.xilinx_aws-vu9p-f1-04261818_dynamic_5_0.xclbin".
Definition dynamic_awsxclbin : string :=
  ".hw.xilinx_aws-vu9p-f1-04261818_dynamic_5_0.awsxclbin".
Definition vitis_build_dir : string :=
  "./build_dir.hw.xilinx_aws-vu9p-f1_shell-v04261818_201920_3".

(** The local [run_cmd] of the two functions below is [None] here while
    no assignment has bound it. *)
Definition run_cmd_message (examplePath : string) : string :=
  "Could not find run_cmd(em_cmd) or (host_exe) in the example description here "
  +:+ examplePath.

(** The [assert run_cmd is not None] and the [return] that end both
    functions. *)
Definition assert_and_return_run_cmd (examplePath : string)
    (run_cmd : option Json) : M World Json :=
  match run_cmd with
  | None => raise UnboundLocalError
  | Some v =>
      py_assert (PyValue.is_not_None v) (run_cmd_message examplePath) ;;
      mret v
  end.

(** [get_sdaccel_example_run_cmd(examplePath, xilinxVersion)]. *)
Definition get_sdaccel_example_run_cmd (examplePath xilinxVersion : string)
  : M World Json :=
  description ← get_sdaccel_example_description examplePath ;
  em_cmd ← from_result (PyValue.get description "em_cmd") ;
  run_cmd ←
    (if PyValue.truthy em_cmd then mret (Some em_cmd)
     else
       host_exe ← from_result (PyValue.get description "host_exe") ;
       if PyValue.truthy host_exe then
         let run_cmd : string := "./" +:+ format host_exe in
         cmd_args ← from_result (PyValue.get description "cmd_args") ;
         if PyValue.truthy cmd_args then
           has_project ← from_result (PyJson.contains "PROJECT" cmd_args) ;
           has_either ←
             (if has_project : bool then mret true
              else from_result (PyJson.contains "BUILD" cmd_args)) ;
           if has_either : bool then
             if negb (PyJson.is_substring "2019.1" xilinxVersion) then
               a ← from_result (PyValue.str_replace "PROJECT" "." cmd_args) ;
               let a := PyValue.replace "BUILD" "./xclbin" a in
               mret (Some (JString (run_cmd +:+ " " +:+ a)))
             else
               a ← from_result
                     (PyValue.str_replace ".xclbin" dynamic_awsxclbin
                        cmd_args) ;
               let a := PyValue.replace "PROJECT" "." a in
               let a := PyValue.replace "BUILD" "./xclbin" a in
               mret (Some (JString (run_cmd +:+ " " +:+ a)))
           else
             if negb (PyJson.is_substring "2019.1" xilinxVersion) then
               mret (Some (JString (run_cmd +:+ " " +:+ format cmd_args)))
             else
               a ← from_result
                     (PyValue.str_replace ".xclbin" dynamic_xclbin cmd_args) ;
               mret (Some (JString (run_cmd +:+ " " +:+ a)))
         else mret (Some (JString run_cmd))
       else mret None) ;
  assert_and_return_run_cmd examplePath run_cmd.

(** [get_vitis_example_run_cmd(examplePath, xilinxVersion)]. *)
Definition get_vitis_example_run_cmd (examplePath xilinxVersion : string)
  : M World Json :=
  description ← get_vitis_example_description examplePath ;
  host_description ← from_result (PyValue.get description "host") ;
  py_assert (PyValue.is_not_None host_description)
    ("Could not find host key in the description.json here "
     +:+ examplePath) ;;
  launch_description ← from_result (PyValue.get description "launch") ;
  py_assert (PyValue.is_not_None launch_description)
    ("Could not find launch/cmd_args key in the description.json here "
     +:+ examplePath) ;;
  host_exe ← from_result (PyValue.get host_description "host_exe") ;
  let run_cmd : option string :=
    if PyValue.truthy host_exe then Some ("./" +:+ format host_exe)
    else None in
  launch0 ← from_result (PyValue.index0 launch_description) ;
  cmd_args ← from_result (PyValue.get launch0 "cmd_args") ;
  run_cmd ←
    (if PyValue.truthy cmd_args then
       match run_cmd with
       | None => raise UnboundLocalError
       | Some r =>
           a ← from_result
                 (PyValue.str_replace ".xclbin" ".awsxclbin" cmd_args) ;
           let a := PyValue.replace "PROJECT" "." a in
           let a := PyValue.replace "BUILD" vitis_build_dir a in
           mret (Some (r +:+ PyValue.replace "REPO_DIR"
                                (get_vitis_example_base_dir xilinxVersion)
                                (" " +:+ a)))
       end
     else mret run_cmd) ;
  assert_and_return_run_cmd examplePath (JString <$> run_cmd).

End WithFiles.
End TestBaseFiles.

(** A disk for the examples of the statements about files. *)
Module LabFiles.

(** What [glob.glob] finds for a pattern, the size and the parsed content
    of every file, the target of every symbolic link. *)
Record Disk := mkDisk {
  matches : gmap string (list string);
  contents : gmap string (Z * Json);
  links : gmap string string
}.

#[global] Instance disk_files : ExampleFiles Disk := {|
  glob_glob pattern d := default [] (matches d !! pattern);
  os_getcwd _ := "/repo";
  os_stat_st_size f d :=
    match contents d !! f with
    | Some (size, _) => inr size
    | None => inl (PyError "FileNotFoundError")
    end;
  open_json_load f d :=
    match contents d !! f with
    | Some (_, j) => inr j
    | None => inl (PyError "FileNotFoundError")
    end;
  os_readlink f d :=
    match links d !! f with
    | Some target => inr target
    | None => inl (PyError "OSError")
    end
|}.

Definition vadd_json : string := "/repo/examples/vadd/description.json".
Definition copy_json : string := "/repo/examples/copy/description.json".
Definition host_json : string := "/repo/examples/host/description.json".

(** Three examples: [vadd] has a host program with arguments and a stray
    [.link.] file beside its description, [copy] has an emulation
    command, [host] has a host section and a launch section but no
    program in either; the stable shell is [shell_v04261818]. *)
Definition disk : Disk :=
  mkDisk
    {[ vadd_json := [vadd_json; "/repo/examples/vadd/description.link.json"];
       copy_json := [copy_json];
       host_json := [host_json] ]}
    {[ vadd_json :=
         (57%Z, JObject [("host_exe", JString "vadd");
                         ("cmd_args", JString "-n 4");
                         ("host", JObject [("host_exe", JString "vadd")]);
                         ("launch",
                          JArray [JObject [("cmd_args", JString "-n 4")]])]);
       copy_json :=
         (40%Z, JObject [("em_cmd", JString "./copy -e");
                         ("host_exe", JString "copy")]);
       host_json :=
         (31%Z, JObject [("host", JObject []);
                         ("launch", JArray [JObject []])]) ]}
    {[ "/repo/hdk/common/shell_stable" := "shell_v04261818" ]}.

Definition no_repr : list string → string := λ _, "".
Definition no_str : Json → string := λ _, "".

End LabFiles.

(* ===================================================================== *)
(** ** Vocabulary of the statements                                       *)
(* ===================================================================== *)

(** The records one call of [run_cmd] adds to the log: the one of
    [echo], written before the process is started. *)
Definition run_cmd_logs (cmd : string) (echo : bool) : list LogRecord :=
  if echo then [mkLog INFO ("Running: " +:+ cmd)] else [].


(** The value of a computation, when it returns one. *)
Definition returned {World A} (r : (Signal + A) * State World) : option A :=
  match r.1 with
  | inr a => Some a
  | inl _ => None
  end.

(** The signal of a computation, when it raises one. *)
Definition signalled {World A} (r : (Signal + A) * State World) : option Signal :=
  match r.1 with
  | inl e => Some e
  | inr _ => None
  end.

(** The command lines of the two slot commands. *)
Definition clear_image_cmd (slot : nat) (request_timeout sync_timeout : Z)
    (as_root : bool) : string :=
  AwsFpgaTestBase.exec_as_user as_root "fpga-clear-local-image" +:+
  " -S " +:+ pretty slot +:+
  " --request-timeout " +:+ pretty request_timeout +:+
  " --sync-timeout " +:+ pretty sync_timeout.

Definition load_image_cmd (agfi : string) (slot : nat)
    (request_timeout sync_timeout : Z) (as_root : bool) : string :=
  AwsFpgaTestBase.exec_as_user as_root "fpga-load-local-image" +:+
  " -S " +:+ pretty slot +:+ " -I " +:+ agfi +:+
  " --request-timeout " +:+ pretty request_timeout +:+
  " --sync-timeout " +:+ pretty sync_timeout.

(** The command lines of the two getters. *)
Definition get_virtual_led_cmd (slot : nat) (as_root : bool) : string :=
  AwsFpgaTestBase.exec_as_user as_root "fpga-get-virtual-led" +:+
  " -S " +:+ pretty slot.

Definition get_virtual_dip_switch_cmd (slot : nat) (as_root : bool) : string :=
  AwsFpgaTestBase.exec_as_user as_root "fpga-get-virtual-dip-switch" +:+
  " -S " +:+ pretty slot.

(** What [check_fpga_afi_loaded] answers for each record it may be handed:
    the first of its five assertions that fails decides. *)
Definition checked (agfi_ : string) (img : FpgaLocalImage)
  : Signal + FpgaLocalImage :=
  if negb (bool_decide (statusName img = "loaded")) then
    inl (AssertionError (agfi_ +:+ " FPGA StatusName != loaded: " +:+ statusName img))
  else if negb (bool_decide (statusCode img = "0")) then
    inl (AssertionError (agfi_ +:+ " status code != 0: " +:+ statusCode img))
  else if negb (bool_decide (errorName img = "ok")) then
    inl (AssertionError (agfi_ +:+ " FPGA ErrorName != ok: " +:+ errorName img))
  else if negb (bool_decide (errorCode img = "0")) then
    inl (AssertionError (agfi_ +:+ " ErrorCode != 0: " +:+ errorCode img))
  else if negb (bool_decide (agfi img = agfi_)) then
    inl (AssertionError ("Expected " +:+ agfi_ +:+ ", actual " +:+ agfi img))
  else inr img.

(** What the two tests [if key in description: if "aws" in description[key]]
    of the example discovery come to, for a key. *)
Definition aws_named (description : Json) (key : string) : Signal + bool :=
  match PyJson.contains key description with
  | inl e => inl e
  | inr false => inr false
  | inr true =>
      match PyJson.getitem description key with
      | inl e => inl e
      | inr listed => PyJson.contains "aws" listed
      end
  end.

(** The test-class name the example map files a path under. *)
Definition example_test_class {World : Type} {fs : FileSystem World}
    (example_path : string) : string :=
  TestFindVitisExamples.capitalize
    (TestFindVitisExamples.replace_char "/" "__" example_path).

(** The environment [setup_class] leaves when its [WORKSPACE] assertion
    holds: [WORKSPACE] is the repository, and [BUILD_TAG] keeps its value
    or becomes [test]. *)
Definition environ_after_setup (git_repo_dir : string)
    (env : gmap string string) : gmap string string :=
  <["BUILD_TAG" := default "test" (env !! "BUILD_TAG")]>
    (<["WORKSPACE" := git_repo_dir]> env).

(** The four tag functions of SDAccel examples, and the four of Vitis
    examples: the root tag and the three tags under it. *)
Definition sdaccel_tag_functions (relpath : string → string → string)
  : list (string → string → string → string → M TestBaseEnv.Process string) :=
  [TestBaseEnv.get_sdaccel_example_s3_root_tag relpath;
   TestBaseEnv.get_sdaccel_example_s3_xclbin_tag relpath;
   TestBaseEnv.get_sdaccel_example_s3_dcp_tag relpath;
   TestBaseEnv.get_sdaccel_example_s3_afi_tag relpath].

Definition vitis_tag_functions (relpath : string → string → string)
  : list (string → string → string → string → M TestBaseEnv.Process string) :=
  [TestBaseEnv.get_vitis_example_s3_root_tag relpath;
   TestBaseEnv.get_vitis_example_s3_xclbin_tag relpath;
   TestBaseEnv.get_vitis_example_s3_dcp_tag relpath;
   TestBaseEnv.get_vitis_example_s3_afi_tag relpath].

(** The two tag functions of custom logic builds. *)
Definition cl_tag_functions
  : list (string → string → string → M TestBaseEnv.Process string) :=
  [TestBaseEnv.get_cl_s3_dcp_tag; TestBaseEnv.get_cl_s3_afi_tag].

(** What the assertions of an example tag function require. *)
Definition example_args_ok (examplePath target rteName xilinxVersion : string)
  : bool :=
  negb (bool_decide (target = "")) && negb (bool_decide (examplePath = ""))
  && negb (bool_decide (rteName = ""))
  && negb (bool_decide (xilinxVersion = "")).

(** The root tag of an example, for a given [BUILD_TAG]. *)
Definition example_root_tag (sdaccel : bool)
    (relpath : string → string → string)
    (build_tag examplePath target rteName xilinxVersion : string) : string :=
  "jenkins/" +:+ build_tag +:+
  (if sdaccel then "/SDAccel/" else "/Vitis/") +:+
  xilinxVersion +:+ "/" +:+ rteName +:+ "/" +:+
  relpath examplePath
    (if sdaccel then "SDAccel/examples/xilinx" else "Vitis/examples/xilinx")
  +:+ "/" +:+ target.

(** What the four tag functions of a family put after the root tag. *)
Definition tag_suffixes : list string :=
  [""; "/xclbin"; "/dcp"; "/create-afi/afi-ids.txt"].

(** The root tag of an example, for a given prefix path of its family and
    a given [BUILD_TAG]. *)
Definition example_root_tag_at (sdaccel : bool)
    (relpath : string → string → string)
    (prefix_path build_tag examplePath target rteName xilinxVersion : string)
  : string :=
  "jenkins/" +:+ build_tag +:+
  (if sdaccel then "/SDAccel/" else "/Vitis/") +:+
  xilinxVersion +:+ "/" +:+ rteName +:+ "/" +:+
  relpath examplePath prefix_path +:+ "/" +:+ target.

(** The prefix path attribute that the tag functions of a family read. *)
Definition prefix_path_of (sdaccel : bool) (w : TestBaseEnv.Process)
  : option string :=
  if sdaccel
  then TestBaseEnv.xilinx_sdaccel_examples_prefix_path (TestBaseEnv.attributes w)
  else TestBaseEnv.xilinx_vitis_examples_prefix_path (TestBaseEnv.attributes w).

(** The answer of an example tag function of a family whose tag is
    [tag prefix_path build_tag], given the arguments, the class attributes
    and the environment: the assertions come first, then the attribute,
    then [BUILD_TAG]. *)
Definition tag_answer (sdaccel : bool) (w : TestBaseEnv.Process)
    (examplePath target rteName xilinxVersion : string)
    (tag : string → string → string) : Signal + string :=
  if example_args_ok examplePath target rteName xilinxVersion then
    match prefix_path_of sdaccel w with
    | None => inl AttributeError
    | Some prefix_path =>
        match TestBaseEnv.environ w !! "BUILD_TAG" with
        | None => inl KeyError
        | Some build_tag => inr (tag prefix_path build_tag)
        end
    end
  else inl (AssertionError "").

(** The class attributes once [setup_class] has run to its end on an
    instance of type [instance_type] with [num_slots] slots. *)
Definition attributes_after_setup (git_repo_dir : string)
    (dirname_realpath : string → string) (filename_of_test_class : string)
    (instance_type : string) (num_slots : nat)
    (a : TestBaseEnv.Attributes) : TestBaseEnv.Attributes :=
  TestBaseEnv.assign_num_slots num_slots
    (TestBaseEnv.assign_instance_type instance_type
       (TestBaseEnv.assign_locations git_repo_dir dirname_realpath
          filename_of_test_class a)).
(* ===================================================================== *)
(** ** Strings: splitting, characters                                     *)
(* ===================================================================== *)

Section SplitFacts.
Implicit Types (s t : string) (c sep : ascii).

Lemma app_cons c s t : String c s +:+ t = String c (s +:+ t).
Proof. reflexivity. Qed.

Lemma app_empty_l t : "" +:+ t = t.
Proof. reflexivity. Qed.

Lemma app_empty_r s : s +:+ "" = s.
Proof. induction s as [|c s IH]; [done|]. by rewrite !app_cons, IH. Qed.

Lemma app_assoc_str s t u : (s +:+ t) +:+ u = s +:+ (t +:+ u).
Proof. induction s as [|c s IH]; [done|]. by rewrite !app_cons, IH. Qed.

Lemma split_nonempty sep s : PyStr.split sep s ≠ [].
Proof.
  destruct s as [|c s]; simpl; [done|].
  destruct (decide (c = sep)); [done|].
  by destruct (PyStr.split sep s).
Qed.

Lemma split_head sep s : ∃ piece pieces, PyStr.split sep s = piece :: pieces.
Proof.
  destruct (PyStr.split sep s) as [|p ps] eqn:E; [|by eauto].
  by destruct (split_nonempty sep s).
Qed.


Lemma split_no_sep sep s :
  PyStr.has_char sep s = false → PyStr.split sep s = [s].
Proof.
  induction s as [|c s IH]; simpl; [done|]. intros Hs.
  destruct (decide (c = sep)); [done|]. by rewrite IH.
Qed.

Lemma has_char_app c s t :
  PyStr.has_char c (s +:+ t) = PyStr.has_char c s || PyStr.has_char c t.
Proof.
  induction s as [|a s IH]; [done|].
  simpl. by destruct (decide (a = c)).
Qed.

Lemma remove_char_gone c s :
  PyStr.has_char c (PyStr.remove_char c s) = false.
Proof.
  induction s as [|a s IH]; simpl; [done|].
  destruct (decide (a = c)); [done|]. simpl. by rewrite decide_False.
Qed.

Lemma remove_char_id c s :
  PyStr.has_char c s = false → PyStr.remove_char c s = s.
Proof.
  induction s as [|a s IH]; simpl; [done|].
  destruct (decide (a = c)); [done|]. intros ?. by rewrite IH.
Qed.

Lemma remove_char_idemp c s :
  PyStr.remove_char c (PyStr.remove_char c s) = PyStr.remove_char c s.
Proof. apply remove_char_id, remove_char_gone. Qed.

End SplitFacts.

(* ===================================================================== *)
(** ** run_cmd                                                            *)
(* ===================================================================== *)

Section RunCmdFacts.
Context {World : Type} {shell : Shell World}.

(** What one call of [run_cmd] does: the record of [echo], one process,
    and then the [TypeError] of the first [split]; nothing after that
    line is reached. *)
Lemma run_cmd_eval cmd echo check (st : State World) :
  AwsFpgaTestBase.run_cmd cmd echo check st =
  (inl TypeError,
   mkState (popen cmd (world st)).2 (logs st ++ run_cmd_logs cmd echo)).
Proof.
  unfold AwsFpgaTestBase.run_cmd, run_cmd_logs, mbind, M_bind, mret, M_ret,
    lift_world, logger_log, from_result, PyBytes.split_str.
  destruct st as [w lg]; simpl.
  destruct (popen cmd w) as [p w'] eqn:E.
  destruct echo; simpl; rewrite E; simpl; rewrite ?app_nil_r; reflexivity.
Qed.

Lemma run_cmd_returned cmd echo check (st : State World) :
  returned (AwsFpgaTestBase.run_cmd cmd echo check st) = None.
Proof. by rewrite run_cmd_eval. Qed.

Lemma run_cmd_signalled cmd echo check (st : State World) :
  signalled (AwsFpgaTestBase.run_cmd cmd echo check st) = Some TypeError.
Proof. by rewrite run_cmd_eval. Qed.

(** Whatever follows a call of [run_cmd] is not reached. *)
Lemma run_cmd_then {B} cmd echo check
    (k : Z * list PyBytes.bytes * list PyBytes.bytes → M World B)
    (st : State World) :
  (AwsFpgaTestBase.run_cmd cmd echo check ≫= k) st
  = (inl TypeError,
     mkState (popen cmd (world st)).2 (logs st ++ run_cmd_logs cmd echo)).
Proof. unfold mbind, M_bind. by rewrite run_cmd_eval. Qed.

End RunCmdFacts.

(* ===================================================================== *)
(** ** The polling loops                                                  *)
(* ===================================================================== *)

Section PollFacts.
Context {World : Type} {shell : Shell World} {host : FpgaHost World}.

Lemma after_polls_succ slot k (w : World) :
  TestFpgaTools.after_polls slot (S k) w
  = TestFpgaTools.after_polls slot k
      (time_sleep 1 (fpga_describe_local_image slot w).2).
Proof. unfold TestFpgaTools.after_polls. by rewrite Nat.iter_succ_r. Qed.

Lemma never_reaches_next target slot (w : World) :
  TestFpgaTools.never_reaches target slot w →
  TestFpgaTools.never_reaches target slot
    (time_sleep 1 (fpga_describe_local_image slot w).2).
Proof.
  intros Hnever k. specialize (Hnever (S k)).
  by rewrite after_polls_succ in Hnever.
Qed.

(** However far the loop is unrolled, it is still looping: every
    iteration has described the slot, logged the status, slept one second
    and gone round again. *)
Lemma poll_while_true_still_looping target slot on_target fuel :
  ∀ (w : World) lg,
    TestFpgaTools.never_reaches target slot w →
    ∃ lg',
      TestFpgaTools.poll_while_true fuel target slot on_target (mkState w lg)
      = (inr TestFpgaTools.StillLooping,
         mkState (TestFpgaTools.after_polls slot fuel w) lg')
      ∧ length lg' = length lg + fuel.
Proof.
  induction fuel as [|fuel IH]; intros w lg Hnever.
  - exists lg. split; [done|]. lia.
  - destruct (Hnever 0) as (img & Himg & Hstatus). simpl in Himg.
    destruct (IH (time_sleep 1 (fpga_describe_local_image slot w).2)
                (lg ++ [mkLog INFO ("status=" +:+ statusName img)])
                (never_reaches_next _ _ _ Hnever)) as (lg' & Hrun & Hlen).
    exists lg'. rewrite after_polls_succ. split.
    + rewrite <-Hrun. simpl.
      unfold mbind, M_bind, call_world, logger_log, lift_world. simpl.
      destruct (fpga_describe_local_image slot w) as [r w1]. simpl in *.
      subst r. simpl. by rewrite bool_decide_true.
    + rewrite Hlen, length_app. simpl. lia.
Qed.

End PollFacts.

(* ===================================================================== *)
(** ** The busy answer of the management tool                             *)
(* ===================================================================== *)

Section BusyFacts.
Variable decode : string → option (FpgaMgmt.Request * nat).
Variable detail : string.
Variable other :
    string → (nat → FpgaMgmt.Phase) → Completed * (nat → FpgaMgmt.Phase).


(** Whatever an asynchronous request finds, it leaves the slot in
    mid-transition: a slot at rest starts moving, a moving slot is left
    alone. *)
Lemma async_request_leaves_slot_in_transition r slot hw :
  FpgaMgmt.mid_transition
    ((FpgaMgmt.async_request detail r slot hw).2 slot) = true.
Proof.
  unfold FpgaMgmt.async_request.
  destruct (FpgaMgmt.mid_transition (hw slot)) eqn:E; simpl; [done|].
  rewrite fn_lookup_insert. by destruct r.
Qed.


End BusyFacts.

(* ===================================================================== *)
(** ** Decimal numerals and the rows of describe output                   *)
(* ===================================================================== *)

Section NumeralFacts.
Variable c : ascii.
Hypothesis not_digit : ∀ d, pretty_N_char d ≠ c.




End NumeralFacts.



Section RowFacts.
Variable shell_version : string.
Variable slot2device : nat → string.
Hypothesis shell_version_one_line :
    PyStr.has_char PyStr.newline shell_version = false.
Hypothesis slot2device_one_line :
    ∀ slot, PyStr.has_char PyStr.newline (slot2device slot) = false.



End RowFacts.

Section UnlinesFacts.





End UnlinesFacts.

(* ===================================================================== *)
(** ** Tokens of a row                                                    *)
(* ===================================================================== *)

Section WordsFacts.
Implicit Types (s t tok acc : string).










End WordsFacts.

(* ===================================================================== *)
(** ** Observed slot records                                              *)
(* ===================================================================== *)

Section ObservedFacts.
Context {World : Type} {host : FpgaHost World}.



End ObservedFacts.

(* ===================================================================== *)
(** ** Example discovery                                                  *)
(* ===================================================================== *)

Section DiscoveryFacts.
Context {World : Type} {fs : FileSystem World}.
Implicit Types (st : State World) (acc : list string).

Ltac run_monad :=
  unfold mbind, M_bind, read_world, from_result, logger_log, mret, M_ret
    in *; simpl in *.

Lemma names_aws_logs description key st :
  (TestFindVitisExamples.names_aws (World := World) description key st).2 = st.
Proof.
  unfold TestFindVitisExamples.names_aws. run_monad.
  destruct (PyJson.contains key description) as [?|[]]; simpl; [done| |done].
  by destruct (PyJson.getitem description key).
Qed.

(** One iteration leaves the world alone, and the list either as it was
    or longer by the directory visited. *)
Lemma visit_shape root acc st acc' st' :
  TestFindVitisExamples.visit root acc st = (inr acc', st') →
  world st' = world st ∧ (acc' = acc ∨ acc' = acc ++ [root]).
Proof.
  unfold TestFindVitisExamples.visit. run_monad.
  destruct (os_path_exists _ _ && os_path_exists _ _); simpl;
    [|intros [= <- <-]; auto].
  destruct (json_load _ _) as [?|description]; simpl; [done|].
  destruct (PyJson.contains "containers" description) as [?|[]]; simpl;
    [done| |intros [= <- <-]; auto].
  destruct (PyJson.getitem description "containers") as [?|cs]; simpl; [done|].
  destruct (PyJson.len cs) as [?|n]; simpl; [done|].
  destruct (bool_decide (1 < n)); simpl.
  all: match goal with
       | |- context [TestFindVitisExamples.names_aws ?d ?k ?s] =>
           pose proof (names_aws_logs d k s) as Hst;
           destruct (TestFindVitisExamples.names_aws d k s)
             as [[?|[]] st1]; simpl in *; subst st1
       end; try done; try (intros [= <- <-]; by auto).
  all: match goal with
       | |- context [TestFindVitisExamples.names_aws ?d ?k ?s] =>
           pose proof (names_aws_logs d k s) as Hst;
           destruct (TestFindVitisExamples.names_aws d k s)
             as [[?|[]] st1]; simpl in *; subst st1
       end; try done; try (intros [= <- <-]; by auto).
Qed.

(** The first ignored case: no ["containers"] key.  The iteration logs
    the fact and goes on to the next directory. *)
Lemma visit_lacks_containers root description acc st :
  TestFindVitisExamples.has_both_files root (world st) →
  json_load (root +:+ "/description.json") (world st) = inr description →
  TestFindVitisExamples.lacks_containers description →
  TestFindVitisExamples.visit root acc st
  = (inr acc,
     mkState (world st)
       (logs st ++ [mkLog INFO ("Ignoring " +:+ root +:+
          " as no containers found in description.json.")])).
Proof.
  intros [Hd Hm] Hload Hlacks.
  unfold TestFindVitisExamples.visit, TestFindVitisExamples.lacks_containers
    in *.
  run_monad. rewrite Hd, Hm. simpl. rewrite Hload, Hlacks. done.
Qed.

(** The second ignored case: more than one container.  Whatever the two
    later tests say, the iteration does not add the directory. *)
Lemma visit_several_containers root description acc st acc' st' :
  TestFindVitisExamples.has_both_files root (world st) →
  json_load (root +:+ "/description.json") (world st) = inr description →
  TestFindVitisExamples.several_containers description →
  TestFindVitisExamples.visit root acc st = (inr acc', st') →
  acc' = acc.
Proof.
  intros [Hd Hm] Hload (Hhas & cs & n & Hcs & Hn & Hlt).
  unfold TestFindVitisExamples.visit. run_monad.
  rewrite Hd, Hm. simpl. rewrite Hload, Hhas. simpl. rewrite Hcs, Hn.
  rewrite bool_decide_true by done. simpl.
  repeat match goal with
       | |- context [TestFindVitisExamples.names_aws ?d ?k ?s] =>
           destruct (TestFindVitisExamples.names_aws d k s)
             as [[?|[]] ?]; simpl
       end; try done; by intros [= <- _].
Qed.

(** A directory of one of the two ignored kinds is in the list after an
    iteration only if it was in it before. *)
Lemma visit_ignored root description acc st acc' st' :
  TestFindVitisExamples.has_both_files root (world st) →
  json_load (root +:+ "/description.json") (world st) = inr description →
  TestFindVitisExamples.lacks_containers description
  ∨ TestFindVitisExamples.several_containers description →
  TestFindVitisExamples.visit root acc st = (inr acc', st') →
  acc' = acc.
Proof.
  intros Hboth Hload [Hlacks|Hseveral] Hvisit.
  - rewrite (visit_lacks_containers _ _ _ _ Hboth Hload Hlacks) in Hvisit.
    by simplify_eq.
  - by eapply visit_several_containers.
Qed.

(** The whole walk: what it collects are walked directories, and never a
    directory of one of the two ignored kinds. *)
Lemma visit_all_excludes root description roots :
  ∀ acc st res st',
    TestFindVitisExamples.has_both_files root (world st) →
    json_load (root +:+ "/description.json") (world st) = inr description →
    TestFindVitisExamples.lacks_containers description
    ∨ TestFindVitisExamples.several_containers description →
    root ∉ acc →
    TestFindVitisExamples.visit_all roots acc st = (inr res, st') →
    (root ∉ res) ∧ res ⊆ (acc ++ roots) ∧ world st' = world st.
Proof.
  induction roots as [|r roots IH];
    intros acc st res st' Hboth Hload Hkind Hnotin Hrun.
  - simpl in Hrun. unfold mret, M_ret in Hrun. simplify_eq.
    split; [done|]. split; [|done]. by rewrite app_nil_r.
  - simpl in Hrun. unfold mbind, M_bind in Hrun.
    destruct (TestFindVitisExamples.visit r acc st) as [[e|acc1] st1] eqn:Hv;
      [done|].
    destruct (visit_shape _ _ _ _ _ Hv) as [Hw Hacc1].
    assert (root ∉ acc1) as Hnotin1.
    { destruct (decide (r = root)) as [->|Hne].
      - by rewrite (visit_ignored _ _ _ _ _ _ Hboth Hload Hkind Hv).
      - destruct Hacc1 as [->| ->]; [done|].
        apply not_elem_of_app. split; [done|].
        apply not_elem_of_cons. split; [done|apply not_elem_of_nil]. }
    rewrite <-Hw in Hboth, Hload.
    destruct (IH acc1 st1 res st' Hboth Hload Hkind Hnotin1 Hrun)
      as (Hres & Hsub & Hw').
    split; [done|]. split; [|by rewrite Hw', Hw].
    intros x Hx. apply Hsub in Hx.
    apply elem_of_app in Hx as [Hx|Hx].
    + destruct Hacc1 as [->| ->].
      * apply elem_of_app. by left.
      * apply elem_of_app in Hx as [Hx|Hx%list_elem_of_singleton].
        -- apply elem_of_app. by left.
        -- subst x. apply elem_of_app. right. by left.
    + apply elem_of_app. right. by right.
Qed.

Lemma example_map_fold_lookup paths :
  ∀ (m : gmap string string) k v,
    foldl (λ m example_path,
             <[TestFindVitisExamples.capitalize
                 (TestFindVitisExamples.replace_char "/" "__" example_path)
               := example_path]> m) m paths !! k = Some v →
    m !! k = Some v ∨ v ∈ paths.
Proof.
  induction paths as [|p paths IH]; intros m k v Hk; simpl in *; [by left|].
  apply IH in Hk as [Hk|Hk]; [|right; by right].
  apply lookup_insert_Some in Hk as [[_ <-]|[_ Hk]]; [right; by left|by left].
Qed.

(** Every value of the example map is one of the paths it was built
    from. *)
Lemma example_map_values paths k v :
  TestFindVitisExamples.example_map paths !! k = Some v → v ∈ paths.
Proof.
  unfold TestFindVitisExamples.example_map. intros Hk.
  apply example_map_fold_lookup in Hk as [Hk|Hk]; [|done].
  by rewrite lookup_empty in Hk.
Qed.

(** What the test has dumped when it returns: the example map of the
    directories the walk has collected. *)
Lemma test_find_example_makefiles_returns git_repo_dir xilinxVersion st m st' :
  TestFindVitisExamples.test_find_example_makefiles
    git_repo_dir xilinxVersion st = (inr m, st') →
  ∃ res st1,
    TestFindVitisExamples.visit_all
      (os_walk (TestFindVitisExamples.xilinx_vitis_examples_dir git_repo_dir)
               (world st)) [] st
    = (inr res, st1)
    ∧ m = TestFindVitisExamples.example_map
            ((λ full_path, os_path_relpath full_path git_repo_dir) <$> res).
Proof.
  destruct st as [w lg].
  unfold TestFindVitisExamples.test_find_example_makefiles.
  unfold mbind, M_bind, read_world, py_assert, raise, lift_world, mret, M_ret.
  simpl. destruct (os_path_exists _ _); simpl; [|done].
  destruct (negb _); simpl; [|done].
  destruct (TestFindVitisExamples.visit_all _ _ _) as [[e|res] st1] eqn:Hwalk;
    [done|].
  destruct (negb _); simpl; [|done].
  destruct (_ <? _)%Z; simpl; [|done].
  intros [= <- _]. by exists res, st1.
Qed.

End DiscoveryFacts.

(* ===================================================================== *)
(** ** Binding a call that has been evaluated                             *)
(* ===================================================================== *)

Section BindFacts.
Context {World : Type} {shell : Shell World}.

Lemma bind_inr {A B} (m : M World A) (f : A → M World B) st a st' :
  m st = (inr a, st') → (m ≫= f) st = f a st'.
Proof. unfold mbind, M_bind. by intros ->. Qed.

Lemma bind_inl {A B} (m : M World A) (f : A → M World B) st e st' :
  m st = (inl e, st') → (m ≫= f) st = (inl e, st').
Proof. unfold mbind, M_bind. by intros ->. Qed.

Lemma bind_cases {A B} (m : M World A) (f : A → M World B) st r st' :
  m st = (r, st') →
  (m ≫= f) st = match r with inl e => (inl e, st') | inr a => f a st' end.
Proof. unfold mbind, M_bind. by intros ->. Qed.

End BindFacts.

(* ===================================================================== *)
(** ** The virtual LEDs and DIP switches                                  *)
(* ===================================================================== *)

Section VirtualFacts.
Context {World : Type} {shell : Shell World}.

Lemma fpga_get_virtual_led_eval slot remove_dashes as_root (st : State World) :
  AwsFpgaTestBase.fpga_get_virtual_led slot remove_dashes as_root st
  = (inl TypeError,
     mkState (popen (get_virtual_led_cmd slot as_root) (world st)).2
       (logs st)).
Proof.
  unfold AwsFpgaTestBase.fpga_get_virtual_led.
  rewrite run_cmd_then. unfold run_cmd_logs. by rewrite app_nil_r.
Qed.

Lemma fpga_get_virtual_dip_switch_eval
    slot remove_dashes as_root (st : State World) :
  AwsFpgaTestBase.fpga_get_virtual_dip_switch slot remove_dashes as_root st
  = (inl TypeError,
     mkState (popen (get_virtual_dip_switch_cmd slot as_root) (world st)).2
       (logs st)).
Proof.
  unfold AwsFpgaTestBase.fpga_get_virtual_dip_switch.
  rewrite run_cmd_then. unfold run_cmd_logs. by rewrite app_nil_r.
Qed.

Lemma fpga_set_virtual_dip_switch_eval value slot as_root (st : State World) :
  AwsFpgaTestBase.fpga_set_virtual_dip_switch value slot as_root st
  = (inl TypeError,
     mkState
       (popen (AwsFpgaTestBase.set_virtual_dip_switch_cmd
                 (PyStr.remove_char PyStr.dash value) slot as_root)
          (world st)).2
       (logs st)).
Proof.
  unfold AwsFpgaTestBase.fpga_set_virtual_dip_switch. cbv zeta.
  rewrite run_cmd_then. unfold run_cmd_logs. by rewrite app_nil_r.
Qed.

End VirtualFacts.

(* ===================================================================== *)
(** ** Clearing, loading and checking a slot                              *)
(* ===================================================================== *)

Section SlotCommandFacts.
Context {World : Type} {shell : Shell World} {host : FpgaHost World}.

Lemma fpga_clear_local_image_eval slot rt sy as_root (st : State World) :
  AwsFpgaTestBase.fpga_clear_local_image slot rt sy as_root st
  = (inl TypeError,
     mkState (popen (clear_image_cmd slot rt sy as_root) (world st)).2
       (logs st ++ [mkLog INFO ("Clearing FPGA slot " +:+ pretty slot)])).
Proof.
  destruct st as [w lg].
  unfold AwsFpgaTestBase.fpga_clear_local_image.
  erewrite bind_inr by reflexivity. fold (clear_image_cmd slot rt sy as_root).
  rewrite run_cmd_then. unfold run_cmd_logs. by rewrite app_nil_r.
Qed.

Lemma fpga_load_local_image_eval agfi slot rt sy as_root (st : State World) :
  AwsFpgaTestBase.fpga_load_local_image agfi slot rt sy as_root st
  = (inl TypeError,
     mkState (popen (load_image_cmd agfi slot rt sy as_root) (world st)).2
       (logs st
        ++ [mkLog INFO ("Loading " +:+ agfi +:+ " into slot " +:+ pretty slot)])).
Proof.
  destruct st as [w lg].
  unfold AwsFpgaTestBase.fpga_load_local_image.
  erewrite bind_inr by reflexivity.
  fold (load_image_cmd agfi slot rt sy as_root).
  rewrite run_cmd_then. unfold run_cmd_logs. by rewrite app_nil_r.
Qed.

Lemma check_fpga_afi_loaded_eval agfi_ slot_ (st : State World) :
  AwsFpgaTestBase.check_fpga_afi_loaded agfi_ slot_ st
  = let d := fpga_describe_local_image slot_ (world st) in
    (match d.1 with
     | inl e => inl e
     | inr img => checked agfi_ img
     end,
     mkState d.2 (logs st)).
Proof.
  unfold AwsFpgaTestBase.check_fpga_afi_loaded, checked, mbind, M_bind,
    call_world, py_assert, raise, mret, M_ret.
  destruct (fpga_describe_local_image slot_ (world st)) as [[e|img] w];
    [done|]. simpl.
  repeat (case_bool_decide; simpl; [|done]). done.
Qed.

End SlotCommandFacts.

(* ===================================================================== *)
(** ** The MSI-X workaround and polling that ends                         *)
(* ===================================================================== *)

Section WorkaroundFacts.
Context {World : Type} {shell : Shell World} {host : FpgaHost World}.

Lemma checked_inr agfi_ img r :
  checked agfi_ img = inr r ↔
  r = img ∧ statusName img = "loaded" ∧ statusCode img = "0"
  ∧ errorName img = "ok" ∧ errorCode img = "0" ∧ agfi img = agfi_.
Proof.
  unfold checked. split.
  - repeat (case_bool_decide; simpl; [|done]). by intros [= <-].
  - intros (-> & Hsn & Hsc & Hen & Hec & Hag).
    by rewrite !bool_decide_true.
Qed.

(** The workaround stops at its first command. *)
Lemma load_msix_workaround_eval slot (st : State World) :
  AwsFpgaTestBase.load_msix_workaround slot st
  = (inl TypeError,
     mkState (popen (clear_image_cmd slot 6000 180 true) (world st)).2
       (logs st ++ [mkLog INFO ("Clearing FPGA slot " +:+ pretty slot)])).
Proof.
  unfold AwsFpgaTestBase.load_msix_workaround.
  erewrite bind_inl; [reflexivity|]. apply fpga_clear_local_image_eval.
Qed.

Lemma poll_while_true_first_hit target slot on_target k :
  ∀ (w : World) lg extra,
    TestFpgaTools.first_reaches_at target slot w k →
    ∃ lg',
      TestFpgaTools.poll_while_true (S (k + extra)) target slot on_target
        (mkState w lg)
      = (on_target ;; mret TestFpgaTools.LeftLoop)
          (mkState
             (fpga_describe_local_image slot
                (TestFpgaTools.after_polls slot k w)).2 lg')
      ∧ length lg' = length lg + S k.
Proof.
  induction k as [|k IH]; intros w lg extra [Hbefore (img & Himg & Hhit)].
  - simpl in Himg. eexists. split.
    + simpl. unfold mbind at 1, M_bind at 1, call_world. simpl.
      destruct (fpga_describe_local_image slot w) as [r w1].
      simpl in *. subst r.
      unfold mbind at 1, M_bind at 1, logger_log at 1. simpl.
      rewrite bool_decide_false by (by intros ?). reflexivity.
    + rewrite length_app. simpl. lia.
  - destruct (Hbefore 0 ltac:(lia)) as (img0 & Himg0 & Hmiss). simpl in Himg0.
    edestruct (IH (time_sleep 1 (fpga_describe_local_image slot w).2)
                 (lg ++ [mkLog INFO ("status=" +:+ statusName img0)]) extra)
      as (lg' & Hrun & Hlen).
    { split.
      - intros j Hj. specialize (Hbefore (S j) ltac:(lia)).
        by rewrite after_polls_succ in Hbefore.
      - exists img. by rewrite <-after_polls_succ. }
    exists lg'. split.
    + rewrite after_polls_succ, <-Hrun.
      change (S (S k + extra)) with (S (S (k + extra))).
      remember (S (k + extra)) as fuel. simpl.
      unfold mbind at 1, M_bind at 1, call_world. simpl.
      destruct (fpga_describe_local_image slot w) as [r w1].
      simpl in *. subst r.
      unfold mbind at 1, M_bind at 1, logger_log at 1. simpl.
      rewrite bool_decide_true by done.
      unfold mbind at 1, M_bind at 1, lift_world. simpl. reflexivity.
    + rewrite Hlen, length_app. simpl. lia.
Qed.

End WorkaroundFacts.

(* ===================================================================== *)
(** ** Example discovery: what is added, and the map                      *)
(* ===================================================================== *)

Section DiscoveryMoreFacts.
Context {World : Type} {fs : FileSystem World}.
Implicit Types (st : State World) (acc : list string).

Lemma names_aws_eval description key st :
  TestFindVitisExamples.names_aws (World := World) description key st
  = (aws_named description key, st).
Proof.
  unfold TestFindVitisExamples.names_aws, aws_named, mbind, M_bind,
    from_result, mret, M_ret.
  destruct (PyJson.contains key description) as [?|[]]; simpl; [done| |done].
  by destruct (PyJson.getitem description key).
Qed.

(** A directory without one of the two files: a warning, and no entry. *)
Lemma visit_missing_file root acc st :
  os_path_exists (root +:+ "/description.json") (world st)
  && os_path_exists (root +:+ "/Makefile") (world st) = false →
  TestFindVitisExamples.visit root acc st
  = (inr acc,
     mkState (world st)
       (logs st ++ [mkLog WARNING ("Ignoring: " +:+ root +:+
          " as no Makefile/description.json exist")])).
Proof.
  intros Hmiss. unfold TestFindVitisExamples.visit.
  unfold mbind, M_bind, read_world, logger_log, mret, M_ret. simpl.
  by rewrite Hmiss.
Qed.

(** A directory with both files and a description with containers: what
    happens depends on the number of containers and on the two keys that
    may name the platform. *)
Lemma visit_with_containers root description containers n acc st :
  TestFindVitisExamples.has_both_files root (world st) →
  json_load (root +:+ "/description.json") (world st) = inr description →
  PyJson.contains "containers" description = inr true →
  PyJson.getitem description "containers" = inr containers →
  PyJson.len containers = inr n →
  TestFindVitisExamples.visit root acc st
  = let several := bool_decide (1 < n) in
    let lg1 :=
      logs st ++ (if several
                  then [mkLog INFO ("Ignoring " +:+ root +:+
                          " as >1 containers found in description.json.")]
                  else []) in
    let f1 := mkLog INFO ("Ignoring " +:+ root +:+
                          " as F1 device found in ndevice.") in
    match aws_named description "ndevice" with
    | inl e => (inl e, mkState (world st) lg1)
    | inr true => (inr acc, mkState (world st) (lg1 ++ [f1]))
    | inr false =>
        match aws_named description "platform_blacklist" with
        | inl e => (inl e, mkState (world st) lg1)
        | inr true => (inr acc, mkState (world st) (lg1 ++ [f1]))
        | inr false =>
            if several then (inr acc, mkState (world st) lg1)
            else (inr (acc ++ [root]),
                  mkState (world st)
                    (lg1 ++ [mkLog INFO ("Adding: " +:+ root)]))
        end
    end.
Proof.
  intros [Hd Hm] Hload Hhas Hcs Hn. destruct st as [w lg]. simpl in *.
  unfold TestFindVitisExamples.visit.
  unfold mbind at 1, M_bind at 1, read_world at 1. simpl. rewrite Hd.
  unfold mbind at 1, M_bind at 1, read_world at 1. simpl. rewrite Hm. simpl.
  unfold mbind at 1, M_bind at 1, read_world at 1. simpl. rewrite Hload.
  unfold mbind at 1, M_bind at 1, from_result at 1. simpl.
  unfold mbind at 1, M_bind at 1, from_result at 1. simpl. rewrite Hhas.
  unfold mbind at 1, M_bind at 1, from_result at 1. simpl. rewrite Hcs.
  unfold mbind at 1, M_bind at 1, from_result at 1. simpl. rewrite Hn.
  unfold mbind at 1, M_bind at 1.
  destruct (bool_decide (1 < n)); simpl.
  - unfold mbind at 1, M_bind at 1, logger_log at 1, mret at 1, M_ret at 1.
    simpl. unfold mbind at 1, M_bind at 1. rewrite names_aws_eval.
    destruct (aws_named description "ndevice") as [?|[]]; simpl; [done|done|].
    unfold mbind at 1, M_bind at 1. rewrite names_aws_eval.
    by destruct (aws_named description "platform_blacklist") as [?|[]].
  - unfold mret at 1, M_ret at 1. simpl.
    unfold mbind at 1, M_bind at 1. rewrite names_aws_eval.
    rewrite app_nil_r.
    destruct (aws_named description "ndevice") as [?|[]]; simpl; [done|done|].
    unfold mbind at 1, M_bind at 1. rewrite names_aws_eval.
    by destruct (aws_named description "platform_blacklist") as [?|[]].
Qed.

(** What the walk collects is the list it started from, followed by some
    of the walked directories in walking order. *)
Lemma visit_all_sublist roots :
  ∀ acc st res st',
    TestFindVitisExamples.visit_all roots acc st = (inr res, st') →
    ∃ added, res = acc ++ added ∧ sublist added roots.
Proof.
  induction roots as [|r roots IH]; intros acc st res st' Hrun.
  - simpl in Hrun. unfold mret, M_ret in Hrun. simplify_eq.
    exists []. by rewrite app_nil_r.
  - simpl in Hrun. unfold mbind, M_bind in Hrun.
    destruct (TestFindVitisExamples.visit r acc st) as [[e|acc1] st1] eqn:Hv;
      [done|].
    destruct (visit_shape _ _ _ _ _ Hv) as [_ Hacc1].
    destruct (IH acc1 st1 res st' Hrun) as (added & -> & Hsub).
    destruct Hacc1 as [->| ->].
    + exists added. split; [done|]. by apply sublist_cons.
    + exists (r :: added). rewrite <-(assoc_L (++)). split; [done|].
      by apply sublist_skip.
Qed.

End DiscoveryMoreFacts.

Section ExampleMapFacts.
Context {World : Type} {fs : FileSystem World}.

Lemma lower_not_slash a : TestFindVitisExamples.lower a = "/"%char → a = "/"%char.
Proof. destruct a as [[][][][][][][][]]; vm_compute; congruence. Qed.

Lemma upper_not_slash a : TestFindVitisExamples.upper a = "/"%char → a = "/"%char.
Proof. destruct a as [[][][][][][][][]]; vm_compute; congruence. Qed.

Lemma lower_all_no_slash s :
  PyStr.has_char "/" s = false →
  PyStr.has_char "/" (TestFindVitisExamples.lower_all s) = false.
Proof.
  induction s as [|a s IH]; [done|]. simpl.
  destruct (decide (a = "/"%char)); [done|]. intros Hs.
  rewrite decide_False by (intros E; by apply lower_not_slash in E).
  by apply IH.
Qed.

Lemma capitalize_ascii_no_slash s :
  PyStr.has_char "/" s = false →
  PyStr.has_char "/" (TestFindVitisExamples.capitalize_ascii s) = false.
Proof.
  destruct s as [|a s]; [done|]. simpl.
  destruct (decide (a = "/"%char)); [done|]. intros Hs.
  rewrite decide_False by (intros E; by apply upper_not_slash in E).
  by apply lower_all_no_slash.
Qed.

Lemma is_ascii_app s t :
  TestFindVitisExamples.is_ascii (s +:+ t)
  = TestFindVitisExamples.is_ascii s && TestFindVitisExamples.is_ascii t.
Proof.
  induction s as [|a s IH]; [done|]. simpl. rewrite IH.
  by rewrite andb_assoc.
Qed.

Lemma replace_slash_is_ascii s :
  TestFindVitisExamples.is_ascii (TestFindVitisExamples.replace_char "/" "__" s)
  = TestFindVitisExamples.is_ascii s.
Proof.
  induction s as [|a s IH]; [done|].
  cbn [TestFindVitisExamples.replace_char].
  destruct (decide (a = "/"%char)) as [->|Ha].
  - rewrite is_ascii_app, IH. reflexivity.
  - cbn [TestFindVitisExamples.is_ascii]. by rewrite IH.
Qed.

(** On a path of ASCII characters the test-class name is worked out by
    the ASCII case mapping. *)
Lemma example_test_class_ascii p :
  TestFindVitisExamples.is_ascii p = true →
  example_test_class p
  = TestFindVitisExamples.capitalize_ascii
      (TestFindVitisExamples.replace_char "/" "__" p).
Proof.
  intros Hp. unfold example_test_class, TestFindVitisExamples.capitalize.
  by rewrite replace_slash_is_ascii, Hp.
Qed.

Lemma replace_slash_no_slash s :
  PyStr.has_char "/" (TestFindVitisExamples.replace_char "/" "__" s) = false.
Proof.
  induction s as [|a s IH]; [done|]. simpl.
  destruct (decide (a = "/"%char)); simpl; [done|].
  by rewrite decide_False.
Qed.

Lemma example_test_class_no_slash p :
  TestFindVitisExamples.is_ascii p = true →
  PyStr.has_char "/" (example_test_class p) = false.
Proof.
  intros Hp. rewrite example_test_class_ascii by done.
  apply capitalize_ascii_no_slash, replace_slash_no_slash.
Qed.

Lemma example_map_unfold paths :
  TestFindVitisExamples.example_map paths
  = foldl (λ m p, <[example_test_class p := p]> m) ∅ paths.
Proof. reflexivity. Qed.

Lemma example_fold_lookup paths :
  ∀ (m : gmap string string) k v,
    foldl (λ m p, <[example_test_class p := p]> m) m paths !! k = Some v →
    m !! k = Some v ∨ (v ∈ paths ∧ k = example_test_class v).
Proof.
  induction paths as [|p paths IH]; intros m k v Hk; simpl in *; [by left|].
  apply IH in Hk as [Hk|[Hin Hkey]].
  - apply lookup_insert_Some in Hk as [[<- <-]|[_ Hk]]; [right|by left].
    split; [by left|done].
  - right. split; [by right|done].
Qed.

Lemma example_fold_keeps paths :
  ∀ (m : gmap string string) k,
    is_Some (m !! k) →
    is_Some (foldl (λ m p, <[example_test_class p := p]> m) m paths !! k).
Proof.
  induction paths as [|p paths IH]; intros m k Hk; simpl; [done|].
  apply IH. destruct (decide (example_test_class p = k)) as [<-|Hne].
  - rewrite lookup_insert_eq. by eexists.
  - by rewrite lookup_insert_ne.
Qed.

Lemma example_fold_present paths :
  ∀ (m : gmap string string) p,
    p ∈ paths →
    is_Some (foldl (λ m p, <[example_test_class p := p]> m) m paths
             !! example_test_class p).
Proof.
  induction paths as [|q paths IH]; intros m p Hin; simpl.
  - by apply elem_of_nil in Hin.
  - apply elem_of_cons in Hin as [->|Hin]; [|by apply IH].
    apply example_fold_keeps. rewrite lookup_insert_eq. by eexists.
Qed.

Lemma example_fold_untouched paths :
  ∀ (m : gmap string string) k,
    (∀ x, x ∈ paths → example_test_class x ≠ k) →
    foldl (λ m p, <[example_test_class p := p]> m) m paths !! k = m !! k.
Proof.
  induction paths as [|q paths IH]; intros m k Hother; simpl; [done|].
  rewrite IH by (intros x Hx; apply Hother; by right).
  apply lookup_insert_ne, Hother. by left.
Qed.

(** The last path filed under a test class is the one the map holds. *)
Lemma example_map_last_wins before q after :
  (∀ x, x ∈ after → example_test_class x ≠ example_test_class q) →
  TestFindVitisExamples.example_map (before ++ q :: after)
    !! example_test_class q = Some q.
Proof.
  intros Hafter. rewrite example_map_unfold, foldl_app. simpl.
  rewrite example_fold_untouched by done. apply lookup_insert_eq.
Qed.

End ExampleMapFacts.

Section TestFindFacts.
Context {World : Type} {fs : FileSystem World}.

(** The test, step by step: the three guards, the walk, the two dumps and
    the last guard. *)
Lemma test_find_example_makefiles_eval git_repo_dir xilinxVersion
    (st : State World) :
  TestFindVitisExamples.test_find_example_makefiles
    git_repo_dir xilinxVersion st
  = let dir := TestFindVitisExamples.xilinx_vitis_examples_dir git_repo_dir in
    let list_file :=
      TestFindVitisExamples.xilinx_vitis_examples_list_file git_repo_dir in
    if negb (os_path_exists dir (world st)) then
      (inl (AssertionError
              ("The Xilinx Vitis example dir does not exist: " +:+ dir)), st)
    else if bool_decide (os_listdir dir (world st) = []) then
      (inl (AssertionError
              "Xilinx Vitis example submodule not cloned or does not exist"),
       st)
    else
      match TestFindVitisExamples.visit_all
              (os_walk dir (world st)) [] st with
      | (inl e, st1) => (inl e, st1)
      | (inr collected, st1) =>
          if bool_decide (collected = []) then
            (inl (AssertionError
                    ("Could not find any Xilinx Vitis example in " +:+ dir)),
             st1)
          else
            let m :=
              TestFindVitisExamples.example_map
                ((λ full_path, os_path_relpath full_path git_repo_dir)
                   <$> collected) in
            let w2 :=
              json_dump m (list_file +:+ "." +:+ xilinxVersion)
                (json_dump m list_file (world st1)) in
            ((if (0 <? os_path_getsize list_file w2)%Z then inr m
              else inl (AssertionError
                          (list_file +:+
                           " is a non zero file. We need to have some data in the file"))),
             mkState w2 (logs st1))
      end.
Proof.
  destruct st as [w lg].
  unfold TestFindVitisExamples.test_find_example_makefiles.
  unfold mbind, M_bind, read_world, py_assert, raise, lift_world, mret, M_ret.
  simpl. destruct (os_path_exists _ _); simpl; [|done].
  destruct (bool_decide (os_listdir _ _ = [])); simpl; [done|].
  destruct (TestFindVitisExamples.visit_all _ _ _) as [[e|res] st1];
    [done|].
  destruct (bool_decide (res = [])); simpl; [done|].
  by destruct (_ <? _)%Z.
Qed.

End TestFindFacts.

Section WalkWorldFacts.
Context {World : Type} {fs : FileSystem World}.

Lemma visit_all_world roots :
  ∀ acc (st : State World) res st',
    TestFindVitisExamples.visit_all roots acc st = (inr res, st') →
    world st' = world st.
Proof.
  induction roots as [|r roots IH]; intros acc st res st' Hrun.
  - simpl in Hrun. unfold mret, M_ret in Hrun. by simplify_eq.
  - simpl in Hrun. unfold mbind, M_bind in Hrun.
    destruct (TestFindVitisExamples.visit r acc st) as [[e|acc1] st1] eqn:Hv;
      [done|].
    destruct (visit_shape _ _ _ _ _ Hv) as [Hw _].
    rewrite <-Hw. by eapply IH.
Qed.

Lemma example_map_nonempty paths :
  paths ≠ [] → TestFindVitisExamples.example_map paths ≠ ∅.
Proof.
  destruct paths as [|p paths]; [done|]. intros _ Hempty.
  pose proof (example_fold_present (p :: paths) ∅ p ltac:(by left)) as [v Hv].
  rewrite <-example_map_unfold, Hempty in Hv. by rewrite lookup_empty in Hv.
Qed.

End WalkWorldFacts.

(* ===================================================================== *)
(** ** The environment checks and the S3 tags                             *)
(* ===================================================================== *)

Section EnvironFacts.
Implicit Types (st : State TestBaseEnv.Process).

Lemma assert_environ_is_eval key expected unset wrong st :
  TestBaseEnv.assert_environ_is key expected unset wrong st
  = (match TestBaseEnv.environ (world st) !! key with
     | None => inl (AssertionError unset)
     | Some value =>
         if bool_decide (value = expected) then inr ()
         else inl (AssertionError wrong)
     end, st).
Proof.
  unfold TestBaseEnv.assert_environ_is, mbind, M_bind,
    TestBaseEnv.environ_contains, TestBaseEnv.environ_getitem, py_assert,
    raise, mret, M_ret.
  destruct (TestBaseEnv.environ (world st) !! key) as [value|] eqn:E; simpl.
  - rewrite E. by case_bool_decide.
  - done.
Qed.

Lemma assert_environ_not_None_eval key msg st :
  TestBaseEnv.assert_environ_not_None key msg st
  = ((if bool_decide (TestBaseEnv.environ (world st) !! key = Some "None")
      then inl (AssertionError msg) else inr ()), st).
Proof.
  unfold TestBaseEnv.assert_environ_not_None, mbind, M_bind,
    TestBaseEnv.environ_get, py_assert, raise, mret, M_ret.
  by case_bool_decide.
Qed.

Lemma assert_environ_is_returned key expected unset wrong st u st' :
  TestBaseEnv.assert_environ_is key expected unset wrong st = (inr u, st') ↔
  TestBaseEnv.environ (world st) !! key = Some expected ∧ st' = st.
Proof.
  rewrite assert_environ_is_eval. destruct u. split.
  - destruct (TestBaseEnv.environ (world st) !! key) as [value|]; [case_bool_decide|];
      intros [= <-]; by subst.
  - intros [-> ->]. by rewrite bool_decide_true.
Qed.

Lemma assert_environ_not_None_returned key msg st u st' :
  TestBaseEnv.assert_environ_not_None key msg st = (inr u, st') ↔
  TestBaseEnv.environ (world st) !! key ≠ Some "None" ∧ st' = st.
Proof.
  rewrite assert_environ_not_None_eval. destruct u. split.
  - case_bool_decide; intros [= <-]; by subst.
  - intros [Hne ->]. by rewrite bool_decide_false.
Qed.

Lemma assert_nonempty_eval s st :
  TestBaseEnv.assert_nonempty s st
  = ((if bool_decide (s = "") then inl (AssertionError "") else inr ()), st).
Proof. unfold TestBaseEnv.assert_nonempty, py_assert. by case_bool_decide. Qed.

End EnvironFacts.

Section SetupCheckFacts.
Variable git_repo_dir : string.
Implicit Types (st : State TestBaseEnv.Process).

Ltac step_checks :=
  unfold mbind, M_bind;
  repeat (rewrite ?assert_environ_is_eval, ?assert_environ_not_None_eval;
          cbn [fst snd]).

(** Each check, as a cascade over the environment. *)
Lemma assert_hdk_setup_returned st :
  (TestBaseEnv.assert_hdk_setup git_repo_dir st).2 = st
  ∧ (returned (TestBaseEnv.assert_hdk_setup git_repo_dir st) = Some () ↔
     TestBaseEnv.environ (world st) !! "AWS_FPGA_REPO_DIR" = Some git_repo_dir
     ∧ TestBaseEnv.environ (world st) !! "HDK_DIR" = Some (PyPath.join git_repo_dir "hdk")).
Proof.
  unfold TestBaseEnv.assert_hdk_setup, returned. step_checks.
  destruct (TestBaseEnv.environ (world st) !! "AWS_FPGA_REPO_DIR") as [v1|];
    [case_bool_decide; [subst v1|]|]; step_checks;
    try (split; [done|]; split; [done|]; intros [? _]; congruence).
  destruct (TestBaseEnv.environ (world st) !! "HDK_DIR") as [v2|];
    [case_bool_decide; [subst v2|]|]; simpl;
    try (split; [done|]; split; [done|]; intros [_ ?]; congruence).
Qed.

Lemma assert_sdk_setup_returned st :
  (TestBaseEnv.assert_sdk_setup git_repo_dir st).2 = st
  ∧ (returned (TestBaseEnv.assert_sdk_setup git_repo_dir st) = Some () ↔
     TestBaseEnv.environ (world st) !! "SDK_DIR" = Some (PyPath.join git_repo_dir "sdk")).
Proof.
  unfold TestBaseEnv.assert_sdk_setup, returned. step_checks.
  destruct (TestBaseEnv.environ (world st) !! "SDK_DIR") as [v|];
    [case_bool_decide; [subst v|]|]; simpl;
    try (split; [done|]; split; [done|]; intros ?; congruence).
Qed.

(** The shape shared by the SDAccel and the Vitis check: the repository,
    the SDK, the tool's own directory, and two variables that must not be
    the string [None]. *)
Lemma tool_setup_cascade hint dir_key dir_name tool_key tool_msg st :
  let check :=
    TestBaseEnv.assert_environ_is "AWS_FPGA_REPO_DIR" git_repo_dir
      ("AWS_FPGA_REPO_DIR not set." +:+ hint)
      ("AWS_FPGA_REPO_DIR not set to the repo dir." +:+ hint) ;;
    TestBaseEnv.assert_environ_is "SDK_DIR" (PyPath.join git_repo_dir "sdk")
      ("SDK_DIR not set." +:+ hint) ("SDK_DIR incorrect." +:+ hint) ;;
    TestBaseEnv.assert_environ_is dir_key (PyPath.join git_repo_dir dir_name)
      (dir_key +:+ " not set." +:+ hint) (dir_key +:+ " incorrect." +:+ hint) ;;
    TestBaseEnv.assert_environ_not_None "AWS_PLATFORM"
      ("Environment Var AWS_PLATFORM not set." +:+ hint) ;;
    TestBaseEnv.assert_environ_not_None tool_key tool_msg in
  (check st).2 = st
  ∧ (returned (check st) = Some () ↔
     TestBaseEnv.environ (world st) !! "AWS_FPGA_REPO_DIR" = Some git_repo_dir
     ∧ TestBaseEnv.environ (world st) !! "SDK_DIR" = Some (PyPath.join git_repo_dir "sdk")
     ∧ TestBaseEnv.environ (world st) !! dir_key = Some (PyPath.join git_repo_dir dir_name)
     ∧ TestBaseEnv.environ (world st) !! "AWS_PLATFORM" ≠ Some "None"
     ∧ TestBaseEnv.environ (world st) !! tool_key ≠ Some "None").
Proof.
  intros check. unfold check, returned. step_checks.
  destruct (TestBaseEnv.environ (world st) !! "AWS_FPGA_REPO_DIR") as [v1|];
    [case_bool_decide; [subst v1|]|]; step_checks;
    try (split; [done|]; split; [done|]; intros (? & _); congruence).
  destruct (TestBaseEnv.environ (world st) !! "SDK_DIR") as [v2|];
    [case_bool_decide; [subst v2|]|]; step_checks;
    try (split; [done|]; split; [done|]; intros (_ & ? & _); congruence).
  destruct (TestBaseEnv.environ (world st) !! dir_key) as [v3|];
    [case_bool_decide; [subst v3|]|]; step_checks;
    try (split; [done|]; split; [done|]; intros (_ & _ & ? & _); congruence).
  case_bool_decide; step_checks;
    [split; [done|]; split; [done|]; by intros (_ & _ & _ & ? & _)|].
  case_bool_decide; simpl;
    [split; [done|]; split; [done|]; by intros (_ & _ & _ & _ & ?)|].
  done.
Qed.

End SetupCheckFacts.

Section SetupClassFacts.
Variable git_repo_dir : string.
Variable dirname_realpath : string → string.
Variable get_instance_type : Signal + string.
Variable get_num_fpga_slots : string → Signal + nat.
Implicit Types (st : State TestBaseEnv.Process).

(** A refused [setup_class]: the locations have been assigned by then. *)
Lemma setup_class_wrong_workspace file st workspace :
  TestBaseEnv.environ (world st) !! "WORKSPACE" = Some workspace →
  workspace ≠ git_repo_dir →
  TestBaseEnv.setup_class git_repo_dir dirname_realpath get_instance_type
    get_num_fpga_slots file st
  = (inl (AssertionError "WORKSPACE incorrect"),
     mkState
       (TestBaseEnv.mkProcess (TestBaseEnv.environ (world st))
          (TestBaseEnv.assign_locations git_repo_dir dirname_realpath file
             (TestBaseEnv.attributes (world st))))
       (logs st)).
Proof.
  intros Hws Hne. unfold TestBaseEnv.setup_class.
  unfold mbind, M_bind, TestBaseEnv.set_attributes,
    TestBaseEnv.environ_contains, TestBaseEnv.environ_getitem, py_assert,
    raise.
  cbn [world logs TestBaseEnv.environ TestBaseEnv.attributes].
  rewrite Hws. cbn [world logs TestBaseEnv.environ TestBaseEnv.attributes].
  rewrite bool_decide_true by (by eexists).
  cbn [world logs TestBaseEnv.environ TestBaseEnv.attributes].
  rewrite Hws. by rewrite bool_decide_false.
Qed.

(** An accepted [setup_class], step by step. *)
Lemma setup_class_eval file st :
  TestBaseEnv.environ (world st) !! "WORKSPACE" = None
  ∨ TestBaseEnv.environ (world st) !! "WORKSPACE" = Some git_repo_dir →
  TestBaseEnv.setup_class git_repo_dir dirname_realpath get_instance_type
    get_num_fpga_slots file st
  = let env := TestBaseEnv.environ (world st) in
    let env' := environ_after_setup git_repo_dir env in
    let lg' :=
      logs st ++ match env !! "BUILD_TAG" with
                 | None => [mkLog INFO "Set BUILD_TAG to test"]
                 | Some _ => []
                 end in
    let a0 :=
      TestBaseEnv.assign_locations git_repo_dir dirname_realpath file
        (TestBaseEnv.attributes (world st)) in
    match get_instance_type with
    | inl e => (inl e, mkState (TestBaseEnv.mkProcess env' a0) lg')
    | inr ty =>
        match get_num_fpga_slots ty with
        | inl e =>
            (inl e,
             mkState
               (TestBaseEnv.mkProcess env'
                  (TestBaseEnv.assign_instance_type ty a0)) lg')
        | inr n =>
            (inr (),
             mkState
               (TestBaseEnv.mkProcess env'
                  (attributes_after_setup git_repo_dir dirname_realpath file
                     ty n (TestBaseEnv.attributes (world st)))) lg')
        end
    end.
Proof.
  destruct st as [[env attrs] lg]. cbn [world logs TestBaseEnv.environ].
  intros Hws.
  unfold TestBaseEnv.setup_class, environ_after_setup, attributes_after_setup.
  unfold mbind, M_bind, TestBaseEnv.set_attributes,
    TestBaseEnv.environ_contains, TestBaseEnv.environ_getitem,
    TestBaseEnv.environ_setitem, TestBaseEnv.getattr, py_assert,
    raise, from_result, logger_log, mret, M_ret, TestBaseEnv.WORKSPACE.
  cbn [world logs TestBaseEnv.environ TestBaseEnv.attributes fst snd].
  destruct Hws as [Hws|Hws]; rewrite Hws;
    cbn [world logs TestBaseEnv.environ TestBaseEnv.attributes fst snd].
  - rewrite bool_decide_false by (by intros [? ?]).
    cbn [world logs TestBaseEnv.environ TestBaseEnv.attributes fst snd].
    rewrite lookup_insert_ne by done.
    destruct (env !! "BUILD_TAG") as [tag|] eqn:Htag.
    + rewrite bool_decide_true by (by eexists). cbn [negb].
      rewrite (insert_id (<["WORKSPACE":=git_repo_dir]> env) "BUILD_TAG" tag)
        by (by rewrite lookup_insert_ne).
      rewrite app_nil_r. cbn [default from_option id].
      destruct get_instance_type as [e|ty]; [done|].
      cbn [world logs TestBaseEnv.environ TestBaseEnv.attributes
           TestBaseEnv.instance_type TestBaseEnv.assign_instance_type].
      by destruct (get_num_fpga_slots ty).
    + rewrite bool_decide_false by (by intros [? ?]). cbn [negb].
      cbn [world logs TestBaseEnv.environ TestBaseEnv.attributes fst snd].
      rewrite lookup_insert_eq.
      cbn [world logs TestBaseEnv.environ TestBaseEnv.attributes fst snd].
      destruct get_instance_type as [e|ty]; [done|].
      cbn [world logs TestBaseEnv.environ TestBaseEnv.attributes
           TestBaseEnv.instance_type TestBaseEnv.assign_instance_type].
      by destruct (get_num_fpga_slots ty).
  - rewrite bool_decide_true by (by eexists).
    cbn [world logs TestBaseEnv.environ TestBaseEnv.attributes fst snd].
    rewrite Hws. rewrite bool_decide_true by done.
    cbn [world logs TestBaseEnv.environ TestBaseEnv.attributes fst snd].
    rewrite (insert_id env "WORKSPACE" git_repo_dir) by done.
    destruct (env !! "BUILD_TAG") as [tag|] eqn:Htag.
    + rewrite bool_decide_true by (by eexists). cbn [negb].
      rewrite (insert_id env "BUILD_TAG" tag) by done.
      rewrite app_nil_r.
      destruct get_instance_type as [e|ty]; [done|].
      cbn [world logs TestBaseEnv.environ TestBaseEnv.attributes
           TestBaseEnv.instance_type TestBaseEnv.assign_instance_type].
      by destruct (get_num_fpga_slots ty).
    + rewrite bool_decide_false by (by intros [? ?]). cbn [negb].
      cbn [world logs TestBaseEnv.environ TestBaseEnv.attributes fst snd].
      rewrite lookup_insert_eq.
      cbn [world logs TestBaseEnv.environ TestBaseEnv.attributes fst snd].
      destruct get_instance_type as [e|ty]; [done|].
      cbn [world logs TestBaseEnv.environ TestBaseEnv.attributes
           TestBaseEnv.instance_type TestBaseEnv.assign_instance_type].
      by destruct (get_num_fpga_slots ty).
Qed.

(** The environment and the log after an accepted [setup_class]. *)
Lemma setup_class_environ file st :
  TestBaseEnv.environ (world st) !! "WORKSPACE" = None
  ∨ TestBaseEnv.environ (world st) !! "WORKSPACE" = Some git_repo_dir →
  let after :=
    (TestBaseEnv.setup_class git_repo_dir dirname_realpath get_instance_type
       get_num_fpga_slots file st).2 in
  TestBaseEnv.environ (world after)
  = environ_after_setup git_repo_dir (TestBaseEnv.environ (world st))
  ∧ logs after
    = logs st ++ match TestBaseEnv.environ (world st) !! "BUILD_TAG" with
                 | None => [mkLog INFO "Set BUILD_TAG to test"]
                 | Some _ => []
                 end.
Proof.
  intros Hws after. unfold after. rewrite setup_class_eval by done.
  cbv zeta. destruct get_instance_type as [e|ty]; [done|].
  by destruct (get_num_fpga_slots ty).
Qed.

(** The two prefix paths exist once [setup_class] has got past its first
    lines, whether it is refused later or not. *)
Lemma setup_class_prefix_paths file st (sdaccel : bool) :
  prefix_path_of sdaccel
    (world (TestBaseEnv.setup_class git_repo_dir dirname_realpath
              get_instance_type get_num_fpga_slots file st).2)
  = Some (if sdaccel then "SDAccel/examples/xilinx"
          else "Vitis/examples/xilinx").
Proof.
  destruct (TestBaseEnv.environ (world st) !! "WORKSPACE") as [workspace|]
    eqn:Hws.
  - destruct (decide (workspace = git_repo_dir)) as [->|Hne].
    + rewrite setup_class_eval by (by right). cbv zeta.
      destruct get_instance_type as [e|ty]; [by destruct sdaccel|].
      destruct (get_num_fpga_slots ty); by destruct sdaccel.
    + erewrite setup_class_wrong_workspace by done. by destruct sdaccel.
  - rewrite setup_class_eval by (by left). cbv zeta.
    destruct get_instance_type as [e|ty]; [by destruct sdaccel|].
    destruct (get_num_fpga_slots ty); by destruct sdaccel.
Qed.

End SetupClassFacts.

Section SetupAfterFacts.

Lemma environ_after_setup_workspace repo (env : gmap string string) :
  environ_after_setup repo env !! "WORKSPACE" = Some repo.
Proof.
  unfold environ_after_setup.
  rewrite lookup_insert_ne by done. apply lookup_insert_eq.
Qed.

Lemma environ_after_setup_build_tag repo (env : gmap string string) :
  environ_after_setup repo env !! "BUILD_TAG"
  = Some (default "test" (env !! "BUILD_TAG")).
Proof. unfold environ_after_setup. apply lookup_insert_eq. Qed.

Lemma environ_after_setup_other repo (env : gmap string string) k :
  k ≠ "WORKSPACE" → k ≠ "BUILD_TAG" →
  environ_after_setup repo env !! k = env !! k.
Proof.
  intros Hws Hbt. unfold environ_after_setup.
  by rewrite !lookup_insert_ne.
Qed.

Lemma environ_after_setup_idemp repo (env : gmap string string) :
  environ_after_setup repo (environ_after_setup repo env)
  = environ_after_setup repo env.
Proof.
  unfold environ_after_setup at 1.
  rewrite environ_after_setup_build_tag. simpl.
  rewrite (insert_id _ "WORKSPACE" repo)
    by apply environ_after_setup_workspace.
  apply insert_id, environ_after_setup_build_tag.
Qed.

End SetupAfterFacts.

Section TagFacts.
Variable relpath : string → string → string.
Implicit Types (st : State TestBaseEnv.Process).

Lemma assert_example_args_eval examplePath target rteName xilinxVersion st :
  TestBaseEnv.assert_example_args examplePath target rteName xilinxVersion st
  = ((if example_args_ok examplePath target rteName xilinxVersion
      then inr () else inl (AssertionError "")), st).
Proof.
  unfold TestBaseEnv.assert_example_args, example_args_ok, mbind, M_bind.
  rewrite assert_nonempty_eval.
  case_bool_decide; simpl; [done|]. rewrite assert_nonempty_eval.
  case_bool_decide; simpl; [done|]. rewrite assert_nonempty_eval.
  case_bool_decide; simpl; [done|]. rewrite assert_nonempty_eval.
  by case_bool_decide.
Qed.

(** A root tag function: the assertions, then the prefix path attribute,
    then [BUILD_TAG], then the tag. *)
Lemma root_tag_eval (sdaccel : bool) examplePath target rteName xilinxVersion st :
  (if sdaccel then TestBaseEnv.get_sdaccel_example_s3_root_tag relpath
   else TestBaseEnv.get_vitis_example_s3_root_tag relpath)
    examplePath target rteName xilinxVersion st
  = (tag_answer sdaccel (world st) examplePath target rteName xilinxVersion
       (λ prefix_path build_tag,
          example_root_tag_at sdaccel relpath prefix_path build_tag
            examplePath target rteName xilinxVersion), st).
Proof.
  unfold tag_answer, prefix_path_of, example_root_tag_at.
  destruct sdaccel;
    unfold TestBaseEnv.get_sdaccel_example_s3_root_tag,
      TestBaseEnv.get_vitis_example_s3_root_tag;
    (erewrite bind_cases by apply assert_example_args_eval);
    destruct (example_args_ok _ _ _ _); try done;
    unfold mbind, M_bind, TestBaseEnv.getattr, TestBaseEnv.environ_getitem,
      mret, M_ret.
  - destruct (TestBaseEnv.xilinx_sdaccel_examples_prefix_path _); [|done].
    by destruct (TestBaseEnv.environ (world st) !! "BUILD_TAG").
  - destruct (TestBaseEnv.xilinx_vitis_examples_prefix_path _); [|done].
    by destruct (TestBaseEnv.environ (world st) !! "BUILD_TAG").
Qed.

Lemma tag_under_eval (sdaccel : bool) suffix
    examplePath target rteName xilinxVersion st :
  TestBaseEnv.tag_under
    (if sdaccel then TestBaseEnv.get_sdaccel_example_s3_root_tag relpath
     else TestBaseEnv.get_vitis_example_s3_root_tag relpath)
    suffix examplePath target rteName xilinxVersion st
  = (tag_answer sdaccel (world st) examplePath target rteName xilinxVersion
       (λ prefix_path build_tag,
          example_root_tag_at sdaccel relpath prefix_path build_tag
            examplePath target rteName xilinxVersion +:+ suffix), st).
Proof.
  unfold TestBaseEnv.tag_under.
  erewrite bind_cases by apply assert_example_args_eval.
  unfold tag_answer.
  destruct (example_args_ok examplePath target rteName xilinxVersion)
    eqn:Hargs; [|done].
  erewrite bind_cases by apply root_tag_eval.
  unfold tag_answer. rewrite Hargs.
  destruct (prefix_path_of sdaccel (world st)); [|done].
  by destruct (TestBaseEnv.environ (world st) !! "BUILD_TAG").
Qed.

End TagFacts.

Section TagShapeFacts.
Variable relpath : string → string → string.
Implicit Types (st : State TestBaseEnv.Process).

(** Every tag function of a family answers with the root tag followed by
    its suffix. *)
Lemma family_tag_eval (sdaccel : bool) i f :
  (if sdaccel then sdaccel_tag_functions relpath
   else vitis_tag_functions relpath) !! i = Some f →
  ∃ suffix,
    tag_suffixes !! i = Some suffix
    ∧ ∀ examplePath target rteName xilinxVersion st,
        f examplePath target rteName xilinxVersion st
        = (tag_answer sdaccel (world st)
             examplePath target rteName xilinxVersion
             (λ prefix_path build_tag,
                example_root_tag_at sdaccel relpath prefix_path build_tag
                  examplePath target rteName xilinxVersion +:+ suffix),
           st).
Proof.
  intros Hf.
  destruct i as [|[|[|[|i]]]];
    [exists "" | exists "/xclbin" | exists "/dcp"
     | exists "/create-afi/afi-ids.txt" | by destruct sdaccel];
    (split; [done|]); intros; destruct sdaccel; simpl in Hf;
    injection Hf as <-.
  - rewrite (root_tag_eval relpath true). unfold tag_answer.
    destruct (example_args_ok _ _ _ _); [|done].
    destruct (prefix_path_of _ _); [|done].
    destruct (_ !! "BUILD_TAG"); [|done]. by rewrite app_empty_r.
  - rewrite (root_tag_eval relpath false). unfold tag_answer.
    destruct (example_args_ok _ _ _ _); [|done].
    destruct (prefix_path_of _ _); [|done].
    destruct (_ !! "BUILD_TAG"); [|done]. by rewrite app_empty_r.
  - apply (tag_under_eval relpath true "/xclbin").
  - apply (tag_under_eval relpath false "/xclbin").
  - apply (tag_under_eval relpath true "/dcp").
  - apply (tag_under_eval relpath false "/dcp").
  - apply (tag_under_eval relpath true "/create-afi/afi-ids.txt").
  - apply (tag_under_eval relpath false "/create-afi/afi-ids.txt").
Qed.

Lemma cl_tag_eval i f :
  cl_tag_functions !! i = Some f →
  ∃ suffix,
    ["/dcp"; "/create-afi/afi_ids.txt"] !! i = Some suffix
    ∧ ∀ cl option_tag xilinxVersion st,
        f cl option_tag xilinxVersion st
        = ((if negb (bool_decide (option_tag = ""))
               && negb (bool_decide (xilinxVersion = "")) then
              match TestBaseEnv.environ (world st) !! "BUILD_TAG" with
              | None => inl KeyError
              | Some build_tag =>
                  inr ("jenkins/" +:+ build_tag +:+ "/cl/" +:+
                       xilinxVersion +:+ "/" +:+ cl +:+ "/" +:+ option_tag
                       +:+ suffix)
              end
            else inl (AssertionError "")), st).
Proof.
  intros Hf.
  destruct i as [|[|i]]; [exists "/dcp" | exists "/create-afi/afi_ids.txt"
                         | done];
    (split; [done|]); injection Hf as <-; intros;
    unfold TestBaseEnv.get_cl_s3_dcp_tag, TestBaseEnv.get_cl_s3_afi_tag;
    (erewrite bind_cases by apply assert_nonempty_eval);
    (case_bool_decide; [done|]);
    (erewrite bind_cases by apply assert_nonempty_eval);
    (case_bool_decide; [done|]); simpl;
    unfold mbind, M_bind, TestBaseEnv.environ_getitem, mret, M_ret;
    by destruct (TestBaseEnv.environ (world st) !! "BUILD_TAG").
Qed.

Lemma app_suffix_inj (s t u : string) : s +:+ t = s +:+ u → t = u.
Proof. apply (inj (String.app s)). Qed.

End TagShapeFacts.

Section TagDistinctFacts.

Lemma tag_suffixes_distinct i j s1 s2 :
  i ≠ j → tag_suffixes !! i = Some s1 → tag_suffixes !! j = Some s2 → s1 ≠ s2.
Proof.
  intros Hij H1 H2.
  destruct i as [|[|[|[|i]]]]; destruct j as [|[|[|[|j]]]];
    simplify_eq/=; done.
Qed.

Lemma tag_answer_inr sdaccel w examplePath target rteName xilinxVersion tag t :
  tag_answer sdaccel w examplePath target rteName xilinxVersion tag = inr t →
  example_args_ok examplePath target rteName xilinxVersion = true
  ∧ ∃ prefix_path build_tag,
      prefix_path_of sdaccel w = Some prefix_path
      ∧ TestBaseEnv.environ w !! "BUILD_TAG" = Some build_tag
      ∧ t = tag prefix_path build_tag.
Proof.
  unfold tag_answer. destruct (example_args_ok _ _ _ _); [|done].
  destruct (prefix_path_of sdaccel w) as [prefix_path|]; [|done].
  destruct (TestBaseEnv.environ w !! "BUILD_TAG") as [build_tag|]; [|done].
  intros [= <-]. split; [done|]. by exists prefix_path, build_tag.
Qed.

(** Tags of the two example families part after [jenkins/BUILD_TAG]. *)
Lemma root_tags_differ relpath p1 p2 build_tag a1 a2 a3 a4 b1 b2 b3 b4 s1 s2 :
  example_root_tag_at true relpath p1 build_tag a1 a2 a3 a4 +:+ s1
  ≠ example_root_tag_at false relpath p2 build_tag b1 b2 b3 b4 +:+ s2.
Proof.
  unfold example_root_tag_at. rewrite !app_assoc_str.
  intros E. apply app_suffix_inj, app_suffix_inj in E. discriminate.
Qed.

Lemma root_tag_not_cl sdaccel relpath p build_tag a1 a2 a3 a4 s1 rest :
  example_root_tag_at sdaccel relpath p build_tag a1 a2 a3 a4 +:+ s1
  ≠ "jenkins/" +:+ build_tag +:+ "/cl/" +:+ rest.
Proof.
  unfold example_root_tag_at. rewrite !app_assoc_str.
  intros E. apply app_suffix_inj, app_suffix_inj in E.
  destruct sdaccel; discriminate.
Qed.

End TagDistinctFacts.

(* ===================================================================== *)
(** ** Files, descriptions and run commands                               *)
(* ===================================================================== *)

Section ReplaceFacts.

Lemma is_substring_false_inv needle a rest :
  PyJson.is_substring needle (String a rest) = false →
  String.prefix needle (String a rest) = false
  ∧ PyJson.is_substring needle rest = false.
Proof.
  change (PyJson.is_substring needle (String a rest))
    with (String.prefix needle (String a rest)
          || PyJson.is_substring needle rest).
  by intros [? ?]%orb_false_iff.
Qed.

(** [s.replace(old, new)] is [s] when [old] does not occur in [s]. *)
Lemma replace_absent old new s :
  PyJson.is_substring old s = false → PyValue.replace old new s = s.
Proof.
  unfold PyValue.replace. induction s as [|a rest IH]; [done|].
  intros [Hp Hr]%is_substring_false_inv.
  cbn [PyValue.replace_go]. rewrite Hp. by rewrite IH.
Qed.

Lemma is_substring_cons_false needle a rest :
  String.prefix needle (String a rest) = false →
  PyJson.is_substring needle rest = false →
  PyJson.is_substring needle (String a rest) = false.
Proof.
  intros Hp Hr.
  change (PyJson.is_substring needle (String a rest))
    with (String.prefix needle (String a rest)
          || PyJson.is_substring needle rest).
  by rewrite Hp, Hr.
Qed.

End ReplaceFacts.

Section FilesFacts.
Context {World : Type} `{!ExampleFiles World}.
Variable git_repo_dir : string.
Variable py_repr : list string → string.
Variable py_str : Json → string.
Implicit Types (st : State World).

Lemma bind_from_result {A B} (r : Signal + A) (k : A → M World B) st :
  (from_result r ≫= k) st
  = match r with inl e => (inl e, st) | inr a => k a st end.
Proof. unfold mbind, M_bind, from_result. by destruct r. Qed.

Lemma bind_py_assert {B} (cond : bool) msg (k : M World B) st :
  (py_assert cond msg ;; k) st
  = if cond then k st else (inl (AssertionError msg), st).
Proof. unfold mbind, M_bind, py_assert. by destruct cond. Qed.

Lemma assert_non_zero_file_eval filter st :
  TestBaseFiles.assert_non_zero_file py_repr filter st
  = (match TestBaseFiles.without_links (glob_glob filter (world st)) with
     | [] =>
         inl (AssertionError
                ("No " +:+ filter +:+ " file found in "
                 +:+ os_getcwd (world st)))
     | [filename] =>
         match os_stat_st_size filename (world st) with
         | inl e => inl e
         | inr size =>
             if (size =? 0)%Z
             then inl (AssertionError (filename +:+ " is 0 size"))
             else inr filename
         end
     | filenames =>
         inl (AssertionError
                ("More than 1 " +:+ filter +:+ " file found: "
                 +:+ pretty (length filenames) +:+ PyStr.nl
                 +:+ py_repr filenames))
     end, st).
Proof.
  destruct st as [w lg]. unfold TestBaseFiles.assert_non_zero_file.
  unfold mbind, M_bind, read_world, py_assert, call_world, raise, mret, M_ret.
  cbn [world logs].
  destruct (TestBaseFiles.without_links (glob_glob filter w))
    as [|filename [|other more]]; [done| |done].
  cbn. destruct (os_stat_st_size filename w) as [e|size]; [done|].
  by destruct (size =? 0)%Z.
Qed.

Lemma assert_non_zero_file_state filter st :
  (TestBaseFiles.assert_non_zero_file py_repr filter st).2 = st.
Proof. by rewrite assert_non_zero_file_eval. Qed.

Lemma description_state (load : string → M World string) path st :
  (∀ st, (load path st).2 = st) →
  ((example_description ← load path ;
    call_world (λ w, (open_json_load example_description w, w))) st).2 = st.
Proof.
  intros Hload. unfold mbind, M_bind.
  specialize (Hload st). destruct (load path st) as [[e|f] st']; simpl in *;
    subst st'; [done|].
  by destruct st.
Qed.

Lemma get_sdaccel_example_description_state examplePath st :
  (TestBaseFiles.get_sdaccel_example_description git_repo_dir py_repr
     examplePath st).2 = st.
Proof.
  unfold TestBaseFiles.get_sdaccel_example_description.
  apply (description_state (TestBaseFiles.assert_non_zero_file py_repr)).
  intros st'. apply assert_non_zero_file_state.
Qed.

Lemma get_vitis_example_description_state examplePath st :
  (TestBaseFiles.get_vitis_example_description git_repo_dir py_repr
     examplePath st).2 = st.
Proof.
  unfold TestBaseFiles.get_vitis_example_description.
  apply (description_state (TestBaseFiles.assert_non_zero_file py_repr)).
  intros st'. apply assert_non_zero_file_state.
Qed.

Lemma get_signal d key e :
  PyValue.get d key = inl e → e = AttributeError.
Proof. destruct d; simpl; congruence. Qed.

Lemma contains_signal needle j e :
  PyJson.contains needle j = inl e → e = TypeError.
Proof. destruct j; simpl; congruence. Qed.

Lemma str_replace_signal old new j e :
  PyValue.str_replace old new j = inl e → e = AttributeError.
Proof. destruct j; simpl; congruence. Qed.

Lemma index0_signal j e :
  PyValue.index0 j = inl e → ∃ name, e = PyError name.
Proof.
  destruct j as [| | |s|items|]; simpl; try (intros [= <-]; by eexists).
  - destruct s; intros [= <-]; by eexists.
  - destruct items; intros [= <-]; by eexists.
Qed.

Lemma truthy_is_not_None j :
  PyValue.truthy j = true → PyValue.is_not_None j = true.
Proof. by destruct j. Qed.

Lemma description_cases {A} (m : M World A) st :
  m st = ((m st).1, (m st).2).
Proof. by destruct (m st). Qed.

(** Past its description step, [get_sdaccel_example_run_cmd] signals
    interpreter errors only. *)
Lemma get_sdaccel_example_run_cmd_signals
    examplePath xilinxVersion st description e :
  (TestBaseFiles.get_sdaccel_example_description git_repo_dir py_repr
     examplePath st).1 = inr description →
  (TestBaseFiles.get_sdaccel_example_run_cmd git_repo_dir py_repr py_str
     examplePath xilinxVersion st).1 = inl e →
  ∃ name, e = PyError name.
Proof.
  intros Hd. unfold TestBaseFiles.get_sdaccel_example_run_cmd.
  erewrite bind_inr.
  2:{ rewrite description_cases, Hd. reflexivity. }
  unfold TestBaseFiles.assert_and_return_run_cmd.
  unfold mbind, M_bind, from_result, mret, M_ret, py_assert, raise.
  repeat case_match; simplify_eq/=; intros; simplify_eq;
    try (by eexists);
    try (match goal with
         | H : PyValue.get _ _ = inl _ |- _ =>
             apply get_signal in H; subst; by eexists
         | H : PyJson.contains _ _ = inl _ |- _ =>
             apply contains_signal in H; subst; by eexists
         | H : PyValue.str_replace _ _ _ = inl _ |- _ =>
             apply str_replace_signal in H; subst; by eexists
         end).
  all: try (match goal with
            | H : PyValue.truthy ?j = true, H' : PyValue.is_not_None ?j = false
              |- _ => apply truthy_is_not_None in H; congruence
            end).
Qed.

Lemma description_returned {A} (m : M World A) st d :
  (m st).1 = inr d → (m st).2 = st → m st = (inr d, st).
Proof. destruct (m st); simpl; congruence. Qed.

Lemma sdaccel_description_returned examplePath st d :
  (TestBaseFiles.get_sdaccel_example_description git_repo_dir py_repr
     examplePath st).1 = inr d →
  TestBaseFiles.get_sdaccel_example_description git_repo_dir py_repr
    examplePath st = (inr d, st).
Proof.
  intros Hd. apply description_returned; [done|].
  apply get_sdaccel_example_description_state.
Qed.

Lemma vitis_description_returned examplePath st d :
  (TestBaseFiles.get_vitis_example_description git_repo_dir py_repr
     examplePath st).1 = inr d →
  TestBaseFiles.get_vitis_example_description git_repo_dir py_repr
    examplePath st = (inr d, st).
Proof.
  intros Hd. apply description_returned; [done|].
  apply get_vitis_example_description_state.
Qed.

(** Neither [em_cmd] nor [host_exe]: the local [run_cmd] is read before
    anything was assigned to it. *)
Lemma get_sdaccel_example_run_cmd_unbound
    examplePath xilinxVersion st members :
  (TestBaseFiles.get_sdaccel_example_description git_repo_dir py_repr
     examplePath st).1 = inr (JObject members) →
  PyValue.truthy (default JNull (PyJson.assoc "em_cmd" members)) = false →
  PyValue.truthy (default JNull (PyJson.assoc "host_exe" members)) = false →
  TestBaseFiles.get_sdaccel_example_run_cmd git_repo_dir py_repr py_str
    examplePath xilinxVersion st
  = (inl UnboundLocalError, st).
Proof.
  intros Hd Hem Hexe. unfold TestBaseFiles.get_sdaccel_example_run_cmd.
  erewrite bind_inr by (by apply sdaccel_description_returned).
  unfold mbind, M_bind, from_result, mret, M_ret. cbn [PyValue.get].
  by rewrite Hem, Hexe.
Qed.

(** A usable [em_cmd] is the answer, whatever else the description holds. *)
Lemma get_sdaccel_example_run_cmd_em_cmd
    examplePath xilinxVersion st members em_cmd :
  (TestBaseFiles.get_sdaccel_example_description git_repo_dir py_repr
     examplePath st).1 = inr (JObject members) →
  PyJson.assoc "em_cmd" members = Some em_cmd →
  PyValue.truthy em_cmd = true →
  TestBaseFiles.get_sdaccel_example_run_cmd git_repo_dir py_repr py_str
    examplePath xilinxVersion st
  = (inr em_cmd, st).
Proof.
  intros Hd Hem Ht. unfold TestBaseFiles.get_sdaccel_example_run_cmd.
  erewrite bind_inr by (by apply sdaccel_description_returned).
  unfold mbind, M_bind, from_result, mret, M_ret. cbn [PyValue.get].
  rewrite Hem. change (default JNull (Some em_cmd)) with em_cmd. rewrite Ht.
  unfold TestBaseFiles.assert_and_return_run_cmd, py_assert.
  by rewrite (truthy_is_not_None _ Ht).
Qed.

Lemma truthy_string s : s ≠ "" → PyValue.truthy (JString s) = true.
Proof. by destruct s. Qed.

(** Arguments that name no placeholder are passed on as they are, for
    every tool version. *)
Lemma get_sdaccel_example_run_cmd_plain
    examplePath xilinxVersion st members host_exe cmd_args :
  (TestBaseFiles.get_sdaccel_example_description git_repo_dir py_repr
     examplePath st).1 = inr (JObject members) →
  PyValue.truthy (default JNull (PyJson.assoc "em_cmd" members)) = false →
  PyJson.assoc "host_exe" members = Some (JString host_exe) →
  host_exe ≠ "" →
  PyJson.assoc "cmd_args" members = Some (JString cmd_args) →
  cmd_args ≠ "" →
  PyJson.is_substring "PROJECT" cmd_args = false →
  PyJson.is_substring "BUILD" cmd_args = false →
  PyJson.is_substring ".xclbin" cmd_args = false →
  TestBaseFiles.get_sdaccel_example_run_cmd git_repo_dir py_repr py_str
    examplePath xilinxVersion st
  = (inr (JString ("./" +:+ host_exe +:+ " " +:+ cmd_args)), st).
Proof.
  intros Hd Hem Hexe Hne Hargs Hane Hp Hb Hx.
  unfold TestBaseFiles.get_sdaccel_example_run_cmd.
  erewrite bind_inr by (by apply sdaccel_description_returned).
  unfold mbind, M_bind, from_result, mret, M_ret.
  cbn [PyValue.get].
  rewrite Hem, Hexe, Hargs.
  change (default JNull (Some (JString host_exe))) with (JString host_exe).
  change (default JNull (Some (JString cmd_args))) with (JString cmd_args).
  rewrite !truthy_string by done. cbn [PyJson.contains]. rewrite Hp, Hb.
  cbn [negb TestBaseFiles.format PyValue.str_replace].
  rewrite (replace_absent _ _ _ Hx).
  by destruct (PyJson.is_substring "2019.1" xilinxVersion).
Qed.

(** Past its description step, [get_vitis_example_run_cmd] signals an
    interpreter error or one of its first two assertions. *)
Lemma get_vitis_example_run_cmd_signals
    examplePath xilinxVersion st description e :
  (TestBaseFiles.get_vitis_example_description git_repo_dir py_repr
     examplePath st).1 = inr description →
  (TestBaseFiles.get_vitis_example_run_cmd git_repo_dir py_repr py_str
     examplePath xilinxVersion st).1 = inl e →
  (∃ name, e = PyError name)
  ∨ e = AssertionError
          ("Could not find host key in the description.json here "
           +:+ examplePath)
  ∨ e = AssertionError
          ("Could not find launch/cmd_args key in the description.json here "
           +:+ examplePath).
Proof.
  intros Hd. unfold TestBaseFiles.get_vitis_example_run_cmd.
  erewrite bind_inr by (by apply vitis_description_returned).
  unfold TestBaseFiles.assert_and_return_run_cmd.
  unfold mbind, M_bind, from_result, mret, M_ret, py_assert, raise.
  repeat case_match; simplify_eq/=; intros; simplify_eq;
    try (left; by eexists); try (right; left; done);
    try (right; right; done);
    try (match goal with
         | H : PyValue.get _ _ = inl _ |- _ =>
             apply get_signal in H; subst; left; by eexists
         | H : PyValue.index0 _ = inl _ |- _ =>
             apply index0_signal in H; by left
         | H : PyValue.str_replace _ _ _ = inl _ |- _ =>
             apply str_replace_signal in H; subst; left; by eexists
         end).
Qed.

(** [get_vitis_example_run_cmd] returns only for a usable [host_exe], and
    what it returns starts with it. *)
Lemma get_vitis_example_run_cmd_returns
    examplePath xilinxVersion st description v :
  (TestBaseFiles.get_vitis_example_description git_repo_dir py_repr
     examplePath st).1 = inr description →
  (TestBaseFiles.get_vitis_example_run_cmd git_repo_dir py_repr py_str
     examplePath xilinxVersion st).1 = inr v →
  ∃ host host_exe rest,
    PyValue.get description "host" = inr host
    ∧ PyValue.get host "host_exe" = inr host_exe
    ∧ PyValue.truthy host_exe = true
    ∧ v = JString ("./" +:+ TestBaseFiles.format py_str host_exe +:+ rest).
Proof.
  intros Hd. unfold TestBaseFiles.get_vitis_example_run_cmd.
  erewrite bind_inr by (by apply vitis_description_returned).
  unfold TestBaseFiles.assert_and_return_run_cmd.
  unfold mbind, M_bind, from_result, mret, M_ret, py_assert, raise.
  repeat case_match; simplify_eq/=; intros; simplify_eq.
  - exists j, j1. eexists. split; [done|]. split; [done|]. split; [done|].
    by rewrite app_assoc_str.
  - exists j, j1, "". split; [done|]. split; [done|]. split; [done|].
    by rewrite app_empty_r.
Qed.

Lemma get_vitis_example_run_cmd_plain
    examplePath xilinxVersion st members host launches launch more
    host_exe cmd_args :
  (TestBaseFiles.get_vitis_example_description git_repo_dir py_repr
     examplePath st).1 = inr (JObject members) →
  PyJson.assoc "host" members = Some (JObject host) →
  PyJson.assoc "launch" members = Some (JArray launches) →
  launches = JObject launch :: more →
  PyJson.assoc "host_exe" host = Some (JString host_exe) →
  host_exe ≠ "" →
  PyJson.assoc "cmd_args" launch = Some (JString cmd_args) →
  cmd_args ≠ "" →
  PyJson.is_substring ".xclbin" cmd_args = false →
  PyJson.is_substring "PROJECT" cmd_args = false →
  PyJson.is_substring "BUILD" cmd_args = false →
  PyJson.is_substring "REPO_DIR" cmd_args = false →
  TestBaseFiles.get_vitis_example_run_cmd git_repo_dir py_repr py_str
    examplePath xilinxVersion st
  = (inr (JString ("./" +:+ host_exe +:+ " " +:+ cmd_args)), st).
Proof.
  intros Hd Hhost Hlaunch -> Hexe Hne Hargs Hane Hx Hp Hb Hr.
  unfold TestBaseFiles.get_vitis_example_run_cmd.
  erewrite bind_inr by (by apply vitis_description_returned).
  unfold mbind, M_bind, from_result, mret, M_ret.
  cbn [PyValue.get]. rewrite Hhost, Hlaunch.
  change (default JNull (Some ?x)) with x.
  cbn [PyValue.is_not_None py_assert mret M_ret PyValue.get PyValue.index0].
  rewrite Hexe, Hargs.
  change (default JNull (Some (JString host_exe))) with (JString host_exe).
  change (default JNull (Some (JString cmd_args))) with (JString cmd_args).
  rewrite !truthy_string by done.
  cbn [PyValue.str_replace TestBaseFiles.format fmap option_fmap option_map
       TestBaseFiles.assert_and_return_run_cmd PyValue.is_not_None py_assert
       mret M_ret].
  rewrite (replace_absent _ _ _ Hx), (replace_absent _ _ _ Hp),
    (replace_absent _ _ _ Hb).
  rewrite replace_absent by (by apply is_substring_cons_false).
  by rewrite app_assoc_str.
Qed.

End FilesFacts.

Section ShellVersionFacts.
Context {World : Type} `{!ExampleFiles World}.
Variable git_repo_dir : string.
Implicit Types (st : State World).

Lemma split_pieces_no_sep sep s :
  Forall (λ piece, PyStr.has_char sep piece = false) (PyStr.split sep s).
Proof.
  induction s as [|c s IH]; simpl.
  - by constructor.
  - destruct (decide (c = sep)) as [->|Hc].
    + by constructor.
    + destruct (PyStr.split sep s) as [|piece pieces].
      * constructor; [|done]. simpl. by rewrite decide_False.
      * inversion IH; subst. constructor; [|done].
        simpl. by rewrite decide_False.
Qed.

Lemma split_app_sep sep d t :
  PyStr.split sep (d +:+ String sep t) = PyStr.split sep d ++ PyStr.split sep t.
Proof.
  induction d as [|c d IH]; simpl.
  - by rewrite decide_True.
  - destruct (decide (c = sep)); rewrite IH; [done|].
    by destruct (split_head sep d) as (p & ps & ->).
Qed.

(** [basename] never keeps a ['/']. *)
Lemma basename_no_slash p : PyStr.has_char "/" (PyPath.basename p) = false.
Proof.
  unfold PyPath.basename.
  pose proof (split_pieces_no_sep "/" p) as Hall.
  induction Hall as [|piece pieces Hpiece Hall IH]; [done|].
  destruct pieces; [done|]. apply IH.
Qed.

Lemma basename_of_path dir name :
  PyStr.has_char "/" name = false →
  PyPath.basename (dir +:+ String "/" name) = name.
Proof.
  intros Hname. unfold PyPath.basename.
  rewrite split_app_sep, (split_no_sep _ _ Hname).
  apply List.last_last.
Qed.

Lemma substring_all s : String.substring 0 (String.length s) s = s.
Proof. induction s as [|c s IH]; simpl; [done|]. by rewrite IH. Qed.

Lemma sub_prefix_hit prefix by_ rest :
  PyPath.sub_prefix prefix by_ (prefix +:+ rest) = by_ +:+ rest.
Proof.
  unfold PyPath.sub_prefix.
  assert (String.prefix prefix (prefix +:+ rest) = true) as ->.
  { induction prefix as [|a p IH]; simpl; [by destruct rest|].
    by destruct (Ascii.ascii_dec a a). }
  f_equal. induction prefix as [|a p IH]; simpl.
  - rewrite Nat.sub_0_r. apply substring_all.
  - apply IH.
Qed.

Lemma prefix_inv prefix s :
  String.prefix prefix s = true → ∃ rest, s = prefix +:+ rest.
Proof.
  revert s. induction prefix as [|a p IH]; intros s.
  - intros _. by exists s.
  - destruct s as [|b s]; [done|]. simpl.
    destruct (Ascii.ascii_dec a b) as [->|]; [|done].
    intros [rest ->]%IH. by exists rest.
Qed.

Lemma sub_prefix_no_char c prefix by_ s :
  PyStr.has_char c by_ = false → PyStr.has_char c s = false →
  PyStr.has_char c (PyPath.sub_prefix prefix by_ s) = false.
Proof.
  intros Hby Hs.
  destruct (String.prefix prefix s) eqn:Hp.
  - apply prefix_inv in Hp as [rest ->]. rewrite sub_prefix_hit.
    rewrite has_char_app in Hs. apply orb_false_iff in Hs as [_ Hrest].
    by rewrite has_char_app, Hby, Hrest.
  - unfold PyPath.sub_prefix. by rewrite Hp.
Qed.

Lemma get_shell_version_eval st :
  TestBaseFiles.get_shell_version git_repo_dir st
  = (match os_readlink
             (PyPath.join (TestBaseEnv.WORKSPACE git_repo_dir)
                "hdk/common/shell_stable") (world st) with
     | inl e => inl e
     | inr target =>
         inr (PyPath.sub_prefix "shell_v" "0x" (PyPath.basename target))
     end, st).
Proof.
  destruct st as [w lg]. unfold TestBaseFiles.get_shell_version.
  unfold mbind, M_bind, call_world, mret, M_ret, TestBaseFiles.WORKSPACE.
  cbn [world logs]. by destruct (os_readlink _ w).
Qed.

End ShellVersionFacts.

Section RunCmdStateFacts.
Context {World : Type} `{!ExampleFiles World}.
Variable git_repo_dir : string.
Variable py_repr : list string → string.
Variable py_str : Json → string.
Implicit Types (st : State World).

Lemma get_sdaccel_example_run_cmd_state examplePath xilinxVersion st :
  (TestBaseFiles.get_sdaccel_example_run_cmd git_repo_dir py_repr py_str
     examplePath xilinxVersion st).2 = st.
Proof.
  unfold TestBaseFiles.get_sdaccel_example_run_cmd.
  pose proof (get_sdaccel_example_description_state git_repo_dir py_repr
                examplePath st) as Hst.
  unfold mbind at 1. unfold M_bind at 1.
  destruct (TestBaseFiles.get_sdaccel_example_description _ _ _ _)
    as [[e|description] st']; simpl in Hst; subst st'; [done|].
  unfold TestBaseFiles.assert_and_return_run_cmd.
  unfold mbind, M_bind, from_result, mret, M_ret, py_assert, raise.
  repeat case_match; simplify_eq/=; try done;
    unfold mret, M_ret in *; by simplify_eq.
Qed.

Lemma get_vitis_example_run_cmd_state examplePath xilinxVersion st :
  (TestBaseFiles.get_vitis_example_run_cmd git_repo_dir py_repr py_str
     examplePath xilinxVersion st).2 = st.
Proof.
  unfold TestBaseFiles.get_vitis_example_run_cmd.
  pose proof (get_vitis_example_description_state git_repo_dir py_repr
                examplePath st) as Hst.
  unfold mbind at 1. unfold M_bind at 1.
  destruct (TestBaseFiles.get_vitis_example_description _ _ _ _)
    as [[e|description] st']; simpl in Hst; subst st'; [done|].
  unfold TestBaseFiles.assert_and_return_run_cmd.
  unfold mbind, M_bind, from_result, mret, M_ret, py_assert, raise.
  repeat case_match; simplify_eq/=; try done;
    unfold mret, M_ret in *; by simplify_eq.
Qed.

Lemma get_sdaccel_example_run_cmd_description_signal
    examplePath xilinxVersion st e :
  (TestBaseFiles.get_sdaccel_example_description git_repo_dir py_repr
     examplePath st).1 = inl e →
  (TestBaseFiles.get_sdaccel_example_run_cmd git_repo_dir py_repr py_str
     examplePath xilinxVersion st).1 = inl e.
Proof.
  intros Hd. unfold TestBaseFiles.get_sdaccel_example_run_cmd.
  unfold mbind at 1. unfold M_bind at 1.
  by destruct (TestBaseFiles.get_sdaccel_example_description _ _ _ _)
    as [[e'|description] st']; simpl in Hd; simplify_eq.
Qed.

Lemma get_vitis_example_run_cmd_description_signal
    examplePath xilinxVersion st e :
  (TestBaseFiles.get_vitis_example_description git_repo_dir py_repr
     examplePath st).1 = inl e →
  (TestBaseFiles.get_vitis_example_run_cmd git_repo_dir py_repr py_str
     examplePath xilinxVersion st).1 = inl e.
Proof.
  intros Hd. unfold TestBaseFiles.get_vitis_example_run_cmd.
  unfold mbind at 1. unfold M_bind at 1.
  by destruct (TestBaseFiles.get_vitis_example_description _ _ _ _)
    as [[e'|description] st']; simpl in Hd; simplify_eq.
Qed.

End RunCmdStateFacts.

Section DashFacts.


(** [remove_char] keeps the other characters, in their order. *)
Lemma remove_char_chars c s :
  String.list_ascii_of_string (PyStr.remove_char c s)
  = filter (λ a, a ≠ c) (String.list_ascii_of_string s).
Proof.
  induction s as [|a s IH]; [done|]. simpl.
  destruct (decide (a = c)) as [->|Hne].
  - by rewrite filter_cons_False by (by intros ?).
  - rewrite filter_cons_True by done. simpl. by rewrite IH.
Qed.

Lemma remove_char_same_chars c s t :
  filter (λ a, a ≠ c) (String.list_ascii_of_string s)
  = filter (λ a, a ≠ c) (String.list_ascii_of_string t) →
  PyStr.remove_char c s = PyStr.remove_char c t.
Proof.
  rewrite <-!remove_char_chars. intros E.
  rewrite <-(String.string_of_list_ascii_of_string (PyStr.remove_char c s)),
    <-(String.string_of_list_ascii_of_string (PyStr.remove_char c t)).
  by rewrite E.
Qed.

End DashFacts.

Section AcceptedFacts.
Context {World : Type} {host : FpgaHost World}.


End AcceptedFacts.

Section BasenameFacts.

(** A name without ['/'] is its own [basename]. *)
Lemma basename_of_name name :
  PyStr.has_char "/" name = false → PyPath.basename name = name.
Proof.
  intros Hname. unfold PyPath.basename. by rewrite (split_no_sep _ _ Hname).
Qed.

End BasenameFacts.

(* ===================================================================== *)
(** ** The properties of the specification                                *)
(* ===================================================================== *)

(** *** The command wrapper *)




(** C3, where the code parts from it: [run_cmd] hands the [str] ['\n'] to
    the [split] of a [bytes] stream, so every call ends in the
    [TypeError] of the first [split] and returns no line list.  For a
    process that exits with code 0 after writing [a] and a newline to
    stdout and nothing to stderr, the lists the claim describes are
    [["a"; ""]] and [[""]]; [run_cmd] returns neither. *)
Theorem run_cmd_split_raises_type_error :
  (∀ {World : Type} {shell : Shell World} cmd echo check (st : State World),
     let p := (popen cmd (world st)).1 in
     PyBytes.split_str (stdout_data p) PyStr.nl = inl TypeError
     ∧ signalled (AwsFpgaTestBase.run_cmd cmd echo check st) = Some TypeError
     ∧ returned (AwsFpgaTestBase.run_cmd cmd echo check st) = None)
  ∧ (let p :=
       mkCompleted 0 (PyBytes.Bytes ("a" +:+ PyStr.nl)) (PyBytes.Bytes "") in
     PyBytes.lines (stdout_data p) = ["a"; ""]
     ∧ PyBytes.lines (stderr_data p) = [""]
     ∧ AwsFpgaTestBase.run_cmd (shell := Lab.fixed_shell p)
         "echo a" false true (mkState () [])
       = (inl TypeError, mkState () [])).
Proof.
  split.
  - intros World shell cmd echo check st p.
    split; [done|]. split; [apply run_cmd_signalled | apply run_cmd_returned].
  - split; [reflexivity|]. split; reflexivity.
Qed.



(** C10: [fpga_set_virtual_dip_switch] drops every ['-'] of [value], and
    nothing else, before it builds the command: the characters of the
    [-D] argument are those of [value] that are not ['-'], in their
    order.  One process is started, with the command
    [... -S slot -D dashfree], and the call ends there, in the
    [TypeError] of [run_cmd].  So the call with [value], the call with
    its dash-free form and the call with any other value that has the same
    dash-free form are the same call, result, world and log. *)
Theorem fpga_set_virtual_dip_switch_ignores_dashes
    {World : Type} {shell : Shell World}
    (value : string) (slot : nat) (as_root : bool) (st : State World) :
  let dashfree := PyStr.remove_char PyStr.dash value in
  let cmd : string :=
    (if as_root : bool then "sudo " else "") +:+ "fpga-set-virtual-dip-switch" +:+
    " -S " +:+ pretty slot +:+ " -D " +:+ dashfree in
  String.list_ascii_of_string dashfree
  = filter (λ c, c ≠ PyStr.dash) (String.list_ascii_of_string value)
  ∧ AwsFpgaTestBase.fpga_set_virtual_dip_switch value slot as_root st
    = (inl TypeError, mkState (popen cmd (world st)).2 (logs st))
  ∧ AwsFpgaTestBase.fpga_set_virtual_dip_switch value slot as_root st
    = AwsFpgaTestBase.fpga_set_virtual_dip_switch dashfree slot as_root st
  ∧ ∀ value',
      filter (λ c, c ≠ PyStr.dash) (String.list_ascii_of_string value')
      = filter (λ c, c ≠ PyStr.dash) (String.list_ascii_of_string value) →
      AwsFpgaTestBase.fpga_set_virtual_dip_switch value' slot as_root st
      = AwsFpgaTestBase.fpga_set_virtual_dip_switch value slot as_root st.
Proof.
  intros dashfree cmd.
  assert (AwsFpgaTestBase.set_virtual_dip_switch_cmd dashfree slot as_root = cmd)
    as Hcmd by (by destruct as_root).
  split; [apply remove_char_chars|]. split; [|split].
  - rewrite fpga_set_virtual_dip_switch_eval. fold dashfree. by rewrite Hcmd.
  - rewrite !fpga_set_virtual_dip_switch_eval. unfold dashfree.
    by rewrite remove_char_idemp.
  - intros value' Hsame. rewrite !fpga_set_virtual_dip_switch_eval.
    by rewrite (remove_char_same_chars _ value' value Hsame).
Qed.

Lemma fpga_set_virtual_dip_switch_witness :
  AwsFpgaTestBase.fpga_set_virtual_dip_switch
    (shell := Lab.counting
                (Lab.fixed_shell
                   (mkCompleted 0 (PyBytes.Bytes "") (PyBytes.Bytes ""))))
    "1-0-1-0" 0 true (mkState ((), 0) [])
  = AwsFpgaTestBase.fpga_set_virtual_dip_switch
      (shell := Lab.counting
                  (Lab.fixed_shell
                     (mkCompleted 0 (PyBytes.Bytes "") (PyBytes.Bytes ""))))
      "10-10" 0 true (mkState ((), 0) []).
Proof.
  exact (proj2 (proj2 (proj2
           (fpga_set_virtual_dip_switch_ignores_dashes
              (shell := Lab.counting
                          (Lab.fixed_shell
                             (mkCompleted 0 (PyBytes.Bytes "")
                                (PyBytes.Bytes ""))))
              "10-10" 0 true (mkState ((), 0) []))))
           "1-0-1-0" eq_refl).
Defined.

(** *** The polling loops *)

(** C2, as the code has it: the two polling loops of [test_load_local_image]
    and [test_clear_local_image] are [while True] loops without an iteration
    cap.  On a slot whose observed [statusName] never becomes the target
    value, the loop is still looping after any number [n] of iterations,
    having described the slot and slept one second [n] times; it raises
    nothing, a [PollTimeout] included, and it hands no record to the code
    after the loop. *)
Theorem poll_loops_without_cap_keep_polling
    {World : Type} {shell : Shell World} {host : FpgaHost World}
    (cl_hello_world_agfi shell_version : string) (slot2device : nat → string)
    (slot : nat) (st : State World) (n : nat) :
  (TestFpgaTools.never_reaches "loaded" slot (world st) →
   ∃ st',
     TestFpgaTools.poll_for_loaded
       cl_hello_world_agfi shell_version slot2device n slot st
     = (inr TestFpgaTools.StillLooping, st')
     ∧ world st' = TestFpgaTools.after_polls slot n (world st)
     ∧ length (logs st') = length (logs st) + n)
  ∧ (TestFpgaTools.never_reaches "cleared" slot (world st) →
     ∃ st',
       TestFpgaTools.poll_for_cleared shell_version slot2device n slot st
       = (inr TestFpgaTools.StillLooping, st')
       ∧ world st' = TestFpgaTools.after_polls slot n (world st)
       ∧ length (logs st') = length (logs st) + n).
Proof.
  destruct st as [w lg].
  split; intros Hnever;
    (edestruct poll_while_true_still_looping as (lg' & Hrun & Hlen);
     [exact Hnever|]);
    eexists; (split; [exact Hrun|]); done.
Qed.

Lemma poll_loops_without_cap_witness :
  (∃ st',
     TestFpgaTools.poll_for_loaded
       (shell := Lab.fixed_shell (mkCompleted 0 (PyBytes.Bytes "") (PyBytes.Bytes "")))
       (host := Lab.stuck_host "busy" "2")
       "agfi-09c2a21805a8b9257" "0x04261818" (λ _, "0000:00:1d.0")
       3 0 (mkState 0 [])
     = (inr TestFpgaTools.StillLooping, st')
     ∧ world st' = 3
     ∧ length (logs st') = 3)
  ∧ (∃ st',
       TestFpgaTools.poll_for_cleared
         (shell := Lab.fixed_shell (mkCompleted 0 (PyBytes.Bytes "") (PyBytes.Bytes "")))
         (host := Lab.stuck_host "busy" "2")
         "0x04261818" (λ _, "0000:00:1d.0") 3 0 (mkState 0 [])
       = (inr TestFpgaTools.StillLooping, st')
       ∧ world st' = 3
       ∧ length (logs st') = 3).
Proof.
  pose proof (poll_loops_without_cap_keep_polling
                (shell := Lab.fixed_shell (mkCompleted 0 (PyBytes.Bytes "") (PyBytes.Bytes "")))
                (host := Lab.stuck_host "busy" "2")
                "agfi-09c2a21805a8b9257" "0x04261818" (λ _, "0000:00:1d.0")
                0 (mkState 0 []) 3) as [Hloaded Hcleared].
  split.
  - apply Hloaded. intros k. eexists. split; [reflexivity | discriminate].
  - apply Hcleared. intros k. eexists. split; [reflexivity | discriminate].
Defined.

(** C2 as the specification words it fails: on a slot that reports [busy]
    for ever there is no number of iterations after which the loop of
    [test_load_local_image] has stopped with a [PollTimeout]. *)
Lemma poll_for_loaded_never_times_out :
  ¬ ∃ N st',
      TestFpgaTools.poll_for_loaded
        (shell := Lab.fixed_shell (mkCompleted 0 (PyBytes.Bytes "") (PyBytes.Bytes "")))
        (host := Lab.stuck_host "busy" "2")
        "agfi-09c2a21805a8b9257" "0x04261818" (λ _, "0000:00:1d.0")
        N 0 (mkState 0 [])
      = (inl PollTimeout, st').
Proof.
  intros (N & st' & Hrun).
  edestruct (poll_while_true_still_looping
               (host := Lab.stuck_host "busy" "2")
               "loaded" 0) as (lg' & Hstill & _);
    [|unfold TestFpgaTools.poll_for_loaded in Hrun;
      rewrite Hstill in Hrun; discriminate].
  intros k. eexists. split; [reflexivity | discriminate].
Qed.

(** *** The busy condition *)



(** *** Headers in describe output *)



(** *** Slot records *)




(** *** Example discovery *)

(** C7: a walked directory that has both a Makefile and a description.json
    is left out in the same way when the description has no ["containers"]
    key and when its ["containers"] has more than one element: the
    iteration that visits it returns the list of examples unchanged (in the
    first case at once, after logging), and when the test returns, the map
    it has dumped is built from walked directories other than this one. *)
Theorem uncontained_and_multi_container_examples_are_left_out
    {World : Type} {fs : FileSystem World}
    (git_repo_dir xilinxVersion root : string) (description : Json)
    (st : State World) :
  TestFindVitisExamples.has_both_files root (world st) →
  json_load (root +:+ "/description.json") (world st) = inr description →
  TestFindVitisExamples.lacks_containers description
  ∨ TestFindVitisExamples.several_containers description →
  (∀ acc acc' st',
     TestFindVitisExamples.visit root acc st = (inr acc', st') → acc' = acc)
  ∧ (∀ m st',
       TestFindVitisExamples.test_find_example_makefiles
         git_repo_dir xilinxVersion st = (inr m, st') →
       ∃ collected,
         (root ∉ collected)
         ∧ collected ⊆ os_walk
             (TestFindVitisExamples.xilinx_vitis_examples_dir git_repo_dir)
             (world st)
         ∧ m = TestFindVitisExamples.example_map
                 ((λ full_path, os_path_relpath full_path git_repo_dir)
                    <$> collected)
         ∧ ∀ example_test_class example_path,
             m !! example_test_class = Some example_path →
             ∃ full_path,
               full_path ∈ collected ∧ full_path ≠ root
               ∧ example_path = os_path_relpath full_path git_repo_dir).
Proof.
  intros Hboth Hload Hkind. split.
  - intros acc acc' st'. by apply (visit_ignored root description).
  - intros m st' Hrun.
    apply test_find_example_makefiles_returns in Hrun
      as (collected & st1 & Hwalk & ->).
    destruct (visit_all_excludes root description _ _ _ _ _
                Hboth Hload Hkind (not_elem_of_nil root) Hwalk)
      as (Hnotin & Hsub & _).
    exists collected. split; [done|]. split; [done|]. split; [done|].
    intros k v Hk. apply example_map_values in Hk.
    apply list_elem_of_fmap in Hk as (full_path & -> & Hin).
    exists full_path. split; [done|]. split; [|done].
    intros ->. done.
Qed.

Lemma uncontained_examples_witness :
  let run :=
    TestFindVitisExamples.test_find_example_makefiles
      (fs := Lab.three_examples) "/w" "2021.2"
      (mkState () []) in
  (∀ acc acc' st',
     TestFindVitisExamples.visit (fs := Lab.three_examples)
       "/w/b" acc (mkState () []) = (inr acc', st') → acc' = acc)
  ∧ ∃ m,
      returned run = Some m
      ∧ ∃ collected,
          ("/w/b" ∉ collected)
          ∧ m = TestFindVitisExamples.example_map (fs := Lab.three_examples)
                  ((λ full_path,
                      os_path_relpath (FileSystem := Lab.three_examples)
                        full_path "/w")
                     <$> collected).
Proof.
  intros run.
  destruct (uncontained_and_multi_container_examples_are_left_out
              (fs := Lab.three_examples)
              "/w" "2021.2" "/w/b"
              (JObject [("containers", JArray [JObject []; JObject []])])
              (mkState () [])
              ltac:(split; reflexivity) ltac:(reflexivity)
              ltac:(right; split; [reflexivity|];
                    exists (JArray [JObject []; JObject []]), 2;
                    split; [reflexivity|]; split; [reflexivity | lia]))
    as [Hvisit Hmap].
  split; [exact Hvisit|].
  destruct run as [[e|m] st'] eqn:Hrun; [vm_compute in Hrun; discriminate|].
  exists m. split; [reflexivity|].
  destruct (Hmap m st' Hrun) as (collected & Hnotin & _ & Hm & _).
  exists collected. split; [exact Hnotin | exact Hm].
Defined.

(* ===================================================================== *)
(** ** Further properties of the embedded code                            *)
(* ===================================================================== *)

(** *** Slot commands of the test base *)

(** X1: [fpga_clear_local_image] and [fpga_load_local_image] each log
    one INFO line and start exactly one process, the management tool under
    [sudo] when [as_root], with the slot and the two timeouts.  There they
    end, in the [TypeError] of [run_cmd], whatever the exit code: the
    assertion on the exit code is not reached and nothing more is
    logged. *)
Theorem slot_commands_end_in_run_cmd
    {World : Type} {shell : Shell World}
    (agfi : string) (slot : nat) (request_timeout sync_timeout : Z)
    (as_root : bool) (st : State World) :
  let sudo : string := if as_root then "sudo " else "" in
  let timeouts :=
    " --request-timeout " +:+ pretty request_timeout +:+
    " --sync-timeout " +:+ pretty sync_timeout in
  let clear_cmd :=
    sudo +:+ "fpga-clear-local-image" +:+ " -S " +:+ pretty slot +:+ timeouts in
  let load_cmd :=
    sudo +:+ "fpga-load-local-image" +:+ " -S " +:+ pretty slot +:+
    " -I " +:+ agfi +:+ timeouts in
  AwsFpgaTestBase.fpga_clear_local_image
    slot request_timeout sync_timeout as_root st
  = (inl TypeError,
     mkState (popen clear_cmd (world st)).2
       (logs st ++ [mkLog INFO ("Clearing FPGA slot " +:+ pretty slot)]))
  ∧ AwsFpgaTestBase.fpga_load_local_image
      agfi slot request_timeout sync_timeout as_root st
    = (inl TypeError,
       mkState (popen load_cmd (world st)).2
         (logs st
          ++ [mkLog INFO ("Loading " +:+ agfi +:+ " into slot " +:+
                          pretty slot)])).
Proof.
  intros sudo timeouts clear_cmd load_cmd. split.
  - by rewrite fpga_clear_local_image_eval; destruct as_root.
  - by rewrite fpga_load_local_image_eval; destruct as_root.
Qed.

(** X2: [fpga_get_virtual_led] and [fpga_get_virtual_dip_switch] start
    exactly one process, the tool of their name under [sudo] when
    [as_root], and end there in the [TypeError] of [run_cmd], with or
    without [remove_dashes]: no value is returned, no line of stdout is
    read, and neither the [AssertionError] about the slot nor an
    [IndexError] can leave them. *)
Theorem virtual_getters_end_in_run_cmd
    {World : Type} {shell : Shell World}
    (slot : nat) (remove_dashes as_root : bool) (st : State World) :
  let led_cmd :=
    AwsFpgaTestBase.exec_as_user as_root "fpga-get-virtual-led" +:+
    " -S " +:+ pretty slot in
  let dip_cmd :=
    AwsFpgaTestBase.exec_as_user as_root "fpga-get-virtual-dip-switch" +:+
    " -S " +:+ pretty slot in
  let led := AwsFpgaTestBase.fpga_get_virtual_led slot remove_dashes as_root st in
  let dip :=
    AwsFpgaTestBase.fpga_get_virtual_dip_switch slot remove_dashes as_root st in
  led = (inl TypeError, mkState (popen led_cmd (world st)).2 (logs st))
  ∧ dip = (inl TypeError, mkState (popen dip_cmd (world st)).2 (logs st))
  ∧ returned led = None ∧ returned dip = None
  ∧ (∀ msg, signalled led ≠ Some (AssertionError msg)
            ∧ signalled dip ≠ Some (AssertionError msg))
  ∧ signalled led ≠ Some IndexError ∧ signalled dip ≠ Some IndexError.
Proof.
  intros led_cmd dip_cmd led dip. unfold led, dip.
  rewrite fpga_get_virtual_led_eval, fpga_get_virtual_dip_switch_eval.
  fold (get_virtual_led_cmd slot as_root).
  repeat split; done.
Qed.

(** X4: [check_fpga_afi_loaded] describes the slot once and logs nothing.
    It returns the described record exactly when the record says [loaded],
    status code [0], [ok], error code [0] and carries the expected AGFI;
    a record that is not [loaded] is refused for its status name whatever
    its other fields say, and a record that only carries another AGFI is
    refused with both AGFI ids in the message. *)
Theorem check_fpga_afi_loaded_accepts_exactly_loaded_ok
    {World : Type} {host : FpgaHost World}
    (agfi_ : string) (slot_ : nat) (st : State World) (img : FpgaLocalImage) :
  let run := AwsFpgaTestBase.check_fpga_afi_loaded agfi_ slot_ st in
  let described := fpga_describe_local_image slot_ (world st) in
  run.2 = mkState described.2 (logs st)
  ∧ (returned run = Some img ↔
     described.1 = inr img
     ∧ statusName img = "loaded" ∧ statusCode img = "0"
     ∧ errorName img = "ok" ∧ errorCode img = "0" ∧ agfi img = agfi_)
  ∧ (described.1 = inr img → statusName img ≠ "loaded" →
     signalled run
     = Some (AssertionError (agfi_ +:+ " FPGA StatusName != loaded: " +:+
                             statusName img)))
  ∧ (described.1 = inr img →
     statusName img = "loaded" → statusCode img = "0" →
     errorName img = "ok" → errorCode img = "0" → agfi img ≠ agfi_ →
     signalled run
     = Some (AssertionError ("Expected " +:+ agfi_ +:+ ", actual " +:+
                             agfi img))).
Proof.
  intros run described. unfold run.
  rewrite check_fpga_afi_loaded_eval. fold described. cbv zeta.
  unfold returned, signalled. simpl.
  split; [done|]. split; [|split].
  - destruct described.1 as [e|img'] eqn:Hd.
    + split; [done|]. by intros [? _].
    + destruct (checked agfi_ img') as [e|r] eqn:Hc.
      * split; [done|]. intros ([= ->] & Hrest).
        assert (checked agfi_ img = inr img) as Hok
          by (by apply checked_inr).
        congruence.
      * apply checked_inr in Hc as (-> & Hrest).
        split; [by intros [= <-] | by intros ([= ->] & _)].
  - intros -> Hsn. unfold checked. by rewrite bool_decide_false.
  - intros -> Hsn Hsc Hen Hec Hag. unfold checked.
    rewrite !bool_decide_true by done.
    by rewrite bool_decide_false.
Qed.

Lemma check_fpga_afi_loaded_witness :
  signalled (AwsFpgaTestBase.check_fpga_afi_loaded
               (host := Lab.stuck_host "cleared" "1")
               "agfi-09c2a21805a8b9257" 0 (mkState 0 []))
  = Some (AssertionError
            "agfi-09c2a21805a8b9257 FPGA StatusName != loaded: cleared").
Proof.
  exact (proj1 (proj2 (proj2 (check_fpga_afi_loaded_accepts_exactly_loaded_ok
           (host := Lab.stuck_host "cleared" "1")
           "agfi-09c2a21805a8b9257" 0 (mkState 0 [])
           (mkImage "0" "none" "cleared" "1" "ok" "0" "0x04261818"))))
           eq_refl ltac:(discriminate)).
Defined.

(** X5: [load_msix_workaround] stops at its first step: the first
    [fpga_clear_local_image] ends in the [TypeError] of [run_cmd], so that
    exactly one process has been started, the clear of the slot, and the
    only record logged is the one that announces it.  The workaround image
    is never loaded and the slot is never checked. *)
Theorem load_msix_workaround_stops_at_first_clear
    {World : Type} {shell : Shell World} {host : FpgaHost World}
    (slot : nat) (st : State World) :
  let clear_cmd :=
    "sudo fpga-clear-local-image -S " +:+ pretty slot +:+
    " --request-timeout 6000 --sync-timeout 180" in
  AwsFpgaTestBase.load_msix_workaround slot st
  = (inl TypeError,
     mkState (popen clear_cmd (world st)).2
       (logs st ++ [mkLog INFO ("Clearing FPGA slot " +:+ pretty slot)]))
  ∧ AwsFpgaTestBase.load_msix_workaround slot st
    = AwsFpgaTestBase.fpga_clear_local_image slot 6000 180 true st.
Proof.
  intros clear_cmd.
  rewrite load_msix_workaround_eval, fpga_clear_local_image_eval.
  split; [|done]. unfold clear_image_cmd, clear_cmd. simpl.
  by rewrite !app_assoc_str.
Qed.

(** *** Polling that ends, and the end of [run_cmd] *)

(** X7: when the slot's status name is the target for the first time at
    sample [k], a polling loop ([poll_for_loaded] and [poll_for_cleared]
    are this loop for [loaded] and [cleared]) leaves after [k] sleeps and
    [k+1] describes and status records, and goes on with the code under the
    loop; this is so for every unrolling bound above [k]. *)
Theorem poll_while_true_leaves_at_first_hit
    {World : Type} {host : FpgaHost World}
    (target : string) (slot : nat) (on_target : M World unit)
    (k extra : nat) (st : State World) :
  TestFpgaTools.first_reaches_at target slot (world st) k →
  ∃ st_hit,
    TestFpgaTools.poll_while_true (S (k + extra)) target slot on_target st
    = (on_target ;; mret TestFpgaTools.LeftLoop) st_hit
    ∧ world st_hit
      = (fpga_describe_local_image slot
           (TestFpgaTools.after_polls slot k (world st))).2
    ∧ length (logs st_hit) = length (logs st) + S k.
Proof.
  destruct st as [w lg]. intros Hhit.
  destruct (poll_while_true_first_hit target slot on_target k w lg extra Hhit)
    as (lg' & Hrun & Hlen).
  by eexists (mkState _ lg').
Qed.

Lemma poll_while_true_leaves_witness :
  ∃ st_hit,
    TestFpgaTools.poll_while_true
      (host := {| fpga_describe_local_image slot w :=
                    (inr (mkImage (pretty slot) "none"
                            (if decide (w < 2) then "busy" else "cleared")
                            "1" "ok" "0" "0x04261818"), w);
                  time_sleep n w := n + w |})
      (S (2 + 5)) "cleared" 0 (mret ()) (mkState 0 [])
    = (inr TestFpgaTools.LeftLoop, st_hit)
    ∧ world st_hit = 2
    ∧ length (logs st_hit) = 3.
Proof.
  destruct (poll_while_true_leaves_at_first_hit
              (host := {| fpga_describe_local_image slot w :=
                            (inr (mkImage (pretty slot) "none"
                                    (if decide (w < 2) then "busy"
                                     else "cleared")
                                    "1" "ok" "0" "0x04261818"), w);
                          time_sleep n w := n + w |})
              "cleared" 0 (mret ()) 2 5 (mkState 0 []))
    as (st_hit & Hrun & Hworld & Hlogs).
  - split.
    + intros j Hj. eexists. split; [reflexivity|].
      destruct j as [|[|j]]; [discriminate | discriminate | lia].
    + eexists. split; [reflexivity | reflexivity].
  - exists st_hit. split; [exact Hrun|]. split; [exact Hworld | exact Hlogs].
Defined.

(** X8: one call of [run_cmd] logs the [Running:] record when [echo] is
    set, starts the process once, and ends in the [TypeError] of its first
    [split]: neither the ERROR record of a failed check nor the closing
    INFO record is ever written, and [check] has no effect at all. *)
Theorem run_cmd_ends_at_the_first_split
    {World : Type} {shell : Shell World} cmd echo check (st : State World) :
  AwsFpgaTestBase.run_cmd cmd echo check st
  = (inl TypeError,
     mkState (popen cmd (world st)).2
       (logs st ++ if echo then [mkLog INFO ("Running: " +:+ cmd)] else []))
  ∧ AwsFpgaTestBase.run_cmd cmd echo check st
    = AwsFpgaTestBase.run_cmd cmd echo (negb check) st
  ∧ ∀ record,
      record ∈ logs (AwsFpgaTestBase.run_cmd cmd echo check st).2 →
      record ∈ logs st ∨ record = mkLog INFO ("Running: " +:+ cmd).
Proof.
  rewrite !run_cmd_eval. unfold run_cmd_logs. split; [done|]. split; [done|].
  intros record. cbn [logs snd]. rewrite elem_of_app.
  intros [Hin|Hin]; [by left|]. destruct echo.
  - apply list_elem_of_singleton in Hin. by right.
  - by apply elem_of_nil in Hin.
Qed.

(** *** Example discovery *)

(** X9: a walked directory with both files whose description has a
    ["containers"] entry of at most one element (an empty list counts) and
    names ["aws"] neither under ["ndevice"] nor under
    ["platform_blacklist"] is added: the iteration appends it at the end
    of the list and logs [Adding: root]. *)
Theorem visit_adds_single_container_example
    {World : Type} {fs : FileSystem World}
    (root : string) (description containers : Json) (n : nat)
    (acc : list string) (st : State World) :
  TestFindVitisExamples.has_both_files root (world st) →
  json_load (root +:+ "/description.json") (world st) = inr description →
  PyJson.contains "containers" description = inr true →
  PyJson.getitem description "containers" = inr containers →
  PyJson.len containers = inr n →
  n ≤ 1 →
  aws_named description "ndevice" = inr false →
  aws_named description "platform_blacklist" = inr false →
  TestFindVitisExamples.visit root acc st
  = (inr (acc ++ [root]),
     mkState (world st) (logs st ++ [mkLog INFO ("Adding: " +:+ root)])).
Proof.
  intros Hboth Hload Hhas Hcs Hn Hle Hnd Hbl.
  rewrite (visit_with_containers _ _ _ _ _ _ Hboth Hload Hhas Hcs Hn).
  cbv zeta. rewrite Hnd, Hbl, bool_decide_false by lia.
  by rewrite app_nil_r.
Qed.

Lemma visit_adds_witness :
  TestFindVitisExamples.visit (fs := Lab.three_examples)
    "/w/c" ["/w/z"] (mkState () [])
  = (inr ["/w/z"; "/w/c"], mkState () [mkLog INFO "Adding: /w/c"]).
Proof.
  exact (visit_adds_single_container_example (fs := Lab.three_examples)
           "/w/c" (JObject [("containers", JArray [JObject []])])
           (JArray [JObject []]) 1 ["/w/z"] (mkState () [])
           ltac:(split; reflexivity) eq_refl eq_refl eq_refl eq_refl
           ltac:(lia) eq_refl eq_refl).
Defined.

(** X10: three more ways in which a walked directory is left out, each
    with the list unchanged: one of the two files is missing (a warning is
    logged); the description names ["aws"] under ["ndevice"]; or it does
    not, but names ["aws"] under ["platform_blacklist"].  In the last two
    cases the number of containers does not matter. *)
Theorem visit_leaves_out_incomplete_and_aws_examples
    {World : Type} {fs : FileSystem World}
    (root : string) (description containers : Json) (n : nat)
    (acc : list string) (st : State World) :
  (os_path_exists (root +:+ "/description.json") (world st)
   && os_path_exists (root +:+ "/Makefile") (world st) = false →
   TestFindVitisExamples.visit root acc st
   = (inr acc,
      mkState (world st)
        (logs st ++ [mkLog WARNING ("Ignoring: " +:+ root +:+
           " as no Makefile/description.json exist")])))
  ∧ (TestFindVitisExamples.has_both_files root (world st) →
     json_load (root +:+ "/description.json") (world st) = inr description →
     PyJson.contains "containers" description = inr true →
     PyJson.getitem description "containers" = inr containers →
     PyJson.len containers = inr n →
     aws_named description "ndevice" = inr true
     ∨ (aws_named description "ndevice" = inr false
        ∧ aws_named description "platform_blacklist" = inr true) →
     returned (TestFindVitisExamples.visit root acc st) = Some acc
     ∧ world (TestFindVitisExamples.visit root acc st).2 = world st).
Proof.
  split; [apply visit_missing_file|].
  intros Hboth Hload Hhas Hcs Hn Haws.
  rewrite (visit_with_containers _ _ _ _ _ _ Hboth Hload Hhas Hcs Hn).
  cbv zeta. destruct Haws as [->|[-> ->]]; done.
Qed.

Lemma visit_leaves_out_witness :
  returned (TestFindVitisExamples.visit
                (fs := {| os_walk _ _ := ["/w/d"];
                          os_path_exists _ _ := true;
                          os_listdir _ _ := ["d"];
                          json_load _ _ :=
                            inr (JObject
                                   [("containers", JArray [JObject []]);
                                    ("ndevice", JArray [JString "aws"])]);
                          json_dump _ _ w := w;
                          os_path_getsize _ _ := 2%Z;
                          os_path_relpath path _ := path;
                     str_capitalize s := s |})
                "/w/d" ["/w/z"] (mkState () []))
    = Some ["/w/z"].
Proof.
  exact (proj1 (proj2 (visit_leaves_out_incomplete_and_aws_examples
           (fs := {| os_walk _ _ := ["/w/d"];
                     os_path_exists _ _ := true;
                     os_listdir _ _ := ["d"];
                     json_load _ _ :=
                       inr (JObject
                              [("containers", JArray [JObject []]);
                               ("ndevice", JArray [JString "aws"])]);
                     json_dump _ _ w := w;
                     os_path_getsize _ _ := 2%Z;
                     os_path_relpath path _ := path;
                     str_capitalize s := s |})
           "/w/d"
           (JObject [("containers", JArray [JObject []]);
                     ("ndevice", JArray [JString "aws"])])
           (JArray [JObject []]) 1 ["/w/z"] (mkState () []))
           ltac:(split; reflexivity) eq_refl eq_refl eq_refl eq_refl
           ltac:(left; reflexivity))).
Defined.

(** X11: the walk keeps the order of [os.walk] and invents nothing: when
    it returns, the list it has collected is the list it started from
    followed by a subsequence of the walked directories, and the file
    system is as it was. *)
Theorem visit_all_collects_a_subsequence
    {World : Type} {fs : FileSystem World}
    (roots acc res : list string) (st st' : State World) :
  TestFindVitisExamples.visit_all roots acc st = (inr res, st') →
  (∃ added, res = acc ++ added ∧ sublist added roots)
  ∧ world st' = world st.
Proof.
  intros Hrun. split.
  - by eapply visit_all_sublist.
  - by eapply visit_all_world.
Qed.

Lemma visit_all_collects_witness :
  ∃ added st',
    TestFindVitisExamples.visit_all (fs := Lab.three_examples)
      ["/w/a"; "/w/b"; "/w/c"] [] (mkState () []) = (inr added, st')
    ∧ sublist added ["/w/a"; "/w/b"; "/w/c"].
Proof.
  destruct (TestFindVitisExamples.visit_all (fs := Lab.three_examples)
              ["/w/a"; "/w/b"; "/w/c"] [] (mkState () []))
    as [[e|res] st'] eqn:Hrun; [vm_compute in Hrun; discriminate|].
  destruct (visit_all_collects_a_subsequence (fs := Lab.three_examples)
              _ _ _ _ _ Hrun) as [(added & Hres & Hsub) _].
  exists res, st'. split; [reflexivity|]. by rewrite Hres.
Defined.

(** X12: the example map files every path under its test-class name, the
    path with ['/'] replaced by ["__"] and then capitalised.  Every value
    is one of the paths and every key is the test-class name of its value;
    for a path of ASCII characters that name is the path with ["__"] for
    ['/'], its first letter in upper case and its other letters in lower
    case, and contains no ['/'].  Every path has an entry under its name,
    and when two paths share a name the later one is the one the map
    holds. *)
Theorem example_map_keys_and_values
    {World : Type} {fs : FileSystem World} (paths : list string) :
  let m := TestFindVitisExamples.example_map paths in
  (∀ k v, m !! k = Some v →
     v ∈ paths ∧ k = example_test_class v
     ∧ (TestFindVitisExamples.is_ascii v = true →
        k = TestFindVitisExamples.capitalize_ascii
              (TestFindVitisExamples.replace_char "/" "__" v)
        ∧ PyStr.has_char "/" k = false))
  ∧ (∀ p, p ∈ paths → is_Some (m !! example_test_class p))
  ∧ (∀ before q after,
       paths = before ++ q :: after →
       (∀ x, x ∈ after → example_test_class x ≠ example_test_class q) →
       m !! example_test_class q = Some q).
Proof.
  intros m. split; [|split].
  - intros k v Hk. unfold m in Hk. rewrite example_map_unfold in Hk.
    apply example_fold_lookup in Hk as [Hk|[Hin ->]].
    + by rewrite lookup_empty in Hk.
    + split; [done|]. split; [done|]. intros Hascii.
      split; [by apply example_test_class_ascii
             | by apply example_test_class_no_slash].
  - intros p Hin. unfold m. rewrite example_map_unfold.
    by apply example_fold_present.
  - intros before q after -> Hafter. by apply example_map_last_wins.
Qed.

Lemma example_map_witness :
  TestFindVitisExamples.example_map (fs := Lab.three_examples)
    ["Vitis/examples/xilinx/Hello"; "vitis/examples/xilinx/hello"]
  !! "Vitis__examples__xilinx__hello"
  = Some "vitis/examples/xilinx/hello".
Proof.
  exact (proj2 (proj2 (example_map_keys_and_values (fs := Lab.three_examples)
           ["Vitis/examples/xilinx/Hello"; "vitis/examples/xilinx/hello"]))
           ["Vitis/examples/xilinx/Hello"] "vitis/examples/xilinx/hello" []
           eq_refl
           ltac:(intros x Hx; by apply elem_of_nil in Hx)).
Defined.

(** X13: when [test_find_example_makefiles] returns, the walk has collected
    at least one directory, the map is not empty, it is the example map of
    the collected directories taken relative to the workspace, and exactly
    that map has been written to the list file and then to the archive
    file named after the tool version; nothing else has changed the file
    system. *)
Theorem test_find_example_makefiles_dumps_one_map_twice
    {World : Type} {fs : FileSystem World}
    (git_repo_dir xilinxVersion : string) (st st' : State World)
    (m : gmap string string) :
  let dir := TestFindVitisExamples.xilinx_vitis_examples_dir git_repo_dir in
  let list_file := git_repo_dir +:+ "/vitis_examples_list.json" in
  TestFindVitisExamples.test_find_example_makefiles
    git_repo_dir xilinxVersion st = (inr m, st') →
  ∃ collected,
    collected ≠ []
    ∧ sublist collected (os_walk dir (world st))
    ∧ m = TestFindVitisExamples.example_map
            ((λ full_path, os_path_relpath full_path git_repo_dir)
               <$> collected)
    ∧ m ≠ ∅
    ∧ world st'
      = json_dump m (list_file +:+ "." +:+ xilinxVersion)
          (json_dump m list_file (world st))
    ∧ (0 < os_path_getsize list_file (world st'))%Z.
Proof.
  intros dir list_file. rewrite test_find_example_makefiles_eval.
  cbv zeta. fold dir.
  change (TestFindVitisExamples.xilinx_vitis_examples_list_file git_repo_dir)
    with list_file.
  destruct (negb _); [done|]. destruct (bool_decide (_ = [])); [done|].
  destruct (TestFindVitisExamples.visit_all _ _ _) as [[e|collected] st1]
    eqn:Hwalk; [done|].
  case_bool_decide as Hne; [done|].
  destruct (_ <? _)%Z eqn:Hsize; [|done].
  intros [= <- <-]. exists collected.
  destruct (visit_all_sublist _ _ _ _ _ Hwalk) as (added & -> & Hsub).
  rewrite (visit_all_world _ _ _ _ _ Hwalk) in *.
  split; [done|]. split; [done|]. split; [done|].
  split.
  { apply example_map_nonempty. by destruct added. }
  split; [done|]. by apply Z.ltb_lt.
Qed.

Lemma test_find_example_makefiles_dumps_witness :
  ∃ m,
    returned (TestFindVitisExamples.test_find_example_makefiles
                (fs := Lab.three_examples) "/w" "2021.2" (mkState () []))
    = Some m
    ∧ m ≠ ∅.
Proof.
  destruct (TestFindVitisExamples.test_find_example_makefiles
              (fs := Lab.three_examples) "/w" "2021.2" (mkState () []))
    as [[e|m] st'] eqn:Hrun; [vm_compute in Hrun; discriminate|].
  exists m. split; [reflexivity|].
  destruct (test_find_example_makefiles_dumps_one_map_twice
              (fs := Lab.three_examples) "/w" "2021.2" (mkState () []) st' m
              Hrun) as (collected & _ & _ & _ & Hne & _).
  exact Hne.
Defined.

(** X14: the guards of [test_find_example_makefiles] come before any
    write.  When the examples directory does not exist, when it is empty,
    or when the walk returns without a single directory, the test raises
    the [AssertionError] of that guard and the file system is as it was:
    no list file and no archive file has been written. *)
Theorem test_find_example_makefiles_writes_nothing_on_failure
    {World : Type} {fs : FileSystem World}
    (git_repo_dir xilinxVersion : string) (st : State World) :
  let dir := git_repo_dir +:+ "/" +:+ "Vitis/examples/xilinx" in
  let run :=
    TestFindVitisExamples.test_find_example_makefiles
      git_repo_dir xilinxVersion st in
  (os_path_exists dir (world st) = false →
   run = (inl (AssertionError
                 ("The Xilinx Vitis example dir does not exist: " +:+ dir)),
          st))
  ∧ (os_path_exists dir (world st) = true →
     os_listdir dir (world st) = [] →
     run = (inl (AssertionError
                   "Xilinx Vitis example submodule not cloned or does not exist"),
            st))
  ∧ (os_path_exists dir (world st) = true →
     os_listdir dir (world st) ≠ [] →
     returned (TestFindVitisExamples.visit_all (os_walk dir (world st)) [] st)
       = Some [] →
     signalled run
       = Some (AssertionError
                 ("Could not find any Xilinx Vitis example in " +:+ dir))
     ∧ world run.2 = world st).
Proof.
  intros dir run. unfold run.
  rewrite test_find_example_makefiles_eval. cbv zeta.
  change (TestFindVitisExamples.xilinx_vitis_examples_dir git_repo_dir)
    with dir.
  split; [|split].
  - by intros ->.
  - intros -> ->. done.
  - intros -> Hne. rewrite bool_decide_false by done. simpl.
    unfold returned.
    destruct (TestFindVitisExamples.visit_all _ _ _) as [[e|collected] st1]
      eqn:Hwalk; [done|].
    simpl. intros [= ->]. simpl. split; [done|].
    by apply (visit_all_world _ _ _ _ _ Hwalk).
Qed.

Lemma test_find_example_makefiles_failure_witness :
  TestFindVitisExamples.test_find_example_makefiles
    (fs := {| os_walk _ _ := [];
              os_path_exists _ _ := false;
              os_listdir _ _ := [];
              json_load _ _ := inl (PyError "FileNotFoundError");
              json_dump _ _ (w : nat) := S w;
              os_path_getsize _ _ := 0%Z;
              os_path_relpath path _ := path;
                     str_capitalize s := s |})
    "/w" "2021.2" (mkState 0 [])
  = (inl (AssertionError
            "The Xilinx Vitis example dir does not exist: /w/Vitis/examples/xilinx"),
     mkState 0 []).
Proof.
  exact (proj1 (test_find_example_makefiles_writes_nothing_on_failure
           (fs := {| os_walk _ _ := [];
                     os_path_exists _ _ := false;
                     os_listdir _ _ := [];
                     json_load _ _ := inl (PyError "FileNotFoundError");
                     json_dump _ _ (w : nat) := S w;
                     os_path_getsize _ _ := 0%Z;
                     os_path_relpath path _ := path;
                     str_capitalize s := s |})
           "/w" "2021.2" (mkState 0 [])) eq_refl).
Defined.

(** *** The environment of the test base *)

(** X15: the four setup checks read the environment and change nothing.
    [assert_hdk_setup] passes exactly when [AWS_FPGA_REPO_DIR] is the
    repository and [HDK_DIR] is its [hdk]; [assert_sdk_setup] exactly when
    [SDK_DIR] is its [sdk]; [assert_sdaccel_setup] and [assert_vitis_setup]
    exactly when the repository, [SDK_DIR] and the tool's directory
    ([SDAccel], [Vitis]) are right and neither [AWS_PLATFORM] nor the
    tool's variable is the string [None].  A variable of the last two that
    is not set at all passes: it is compared with the string ['None']. *)
Theorem setup_checks_accept_exactly_the_sourced_environment
    (git_repo_dir : string) (st : State TestBaseEnv.Process) :
  let env := TestBaseEnv.environ (world st) in
  let repo_ok := env !! "AWS_FPGA_REPO_DIR" = Some git_repo_dir in
  let sdk_ok := env !! "SDK_DIR" = Some (PyPath.join git_repo_dir "sdk") in
  (returned (TestBaseEnv.assert_hdk_setup git_repo_dir st) = Some () ↔
   repo_ok ∧ env !! "HDK_DIR" = Some (PyPath.join git_repo_dir "hdk"))
  ∧ (returned (TestBaseEnv.assert_sdk_setup git_repo_dir st) = Some () ↔
     sdk_ok)
  ∧ (returned (TestBaseEnv.assert_sdaccel_setup git_repo_dir st) = Some () ↔
     repo_ok ∧ sdk_ok
     ∧ env !! "SDACCEL_DIR" = Some (PyPath.join git_repo_dir "SDAccel")
     ∧ env !! "AWS_PLATFORM" ≠ Some "None"
     ∧ env !! "XILINX_SDX" ≠ Some "None")
  ∧ (returned (TestBaseEnv.assert_vitis_setup git_repo_dir st) = Some () ↔
     repo_ok ∧ sdk_ok
     ∧ env !! "VITIS_DIR" = Some (PyPath.join git_repo_dir "Vitis")
     ∧ env !! "AWS_PLATFORM" ≠ Some "None"
     ∧ env !! "XILINX_VITIS" ≠ Some "None")
  ∧ (TestBaseEnv.assert_hdk_setup git_repo_dir st).2 = st
  ∧ (TestBaseEnv.assert_sdk_setup git_repo_dir st).2 = st
  ∧ (TestBaseEnv.assert_sdaccel_setup git_repo_dir st).2 = st
  ∧ (TestBaseEnv.assert_vitis_setup git_repo_dir st).2 = st.
Proof.
  intros env repo_ok sdk_ok.
  pose proof (assert_hdk_setup_returned git_repo_dir st) as [Hhdk2 Hhdk].
  pose proof (assert_sdk_setup_returned git_repo_dir st) as [Hsdk2 Hsdk].
  pose proof (tool_setup_cascade git_repo_dir
                (" source " +:+ git_repo_dir +:+ "/sdaccel_setup.sh")
                "SDACCEL_DIR" "SDAccel" "XILINX_SDX"
                "Environment Var XILINX_SDX not set. Please check the AMI."
                st) as [Hsda2 Hsda].
  pose proof (tool_setup_cascade git_repo_dir
                (" source " +:+ git_repo_dir +:+ "/vitis_setup.sh")
                "VITIS_DIR" "Vitis" "XILINX_VITIS"
                "Environment Var XILINX_VITIS not set. Please check the AMI."
                st) as [Hvit2 Hvit].
  split; [exact Hhdk|]. split; [exact Hsdk|].
  split; [exact Hsda|]. split; [exact Hvit|].
  split; [exact Hhdk2|]. split; [exact Hsdk2|].
  split; [exact Hsda2 | exact Hvit2].
Qed.

Lemma setup_checks_witness :
  let env : gmap string string :=
    {[ "AWS_FPGA_REPO_DIR" := "/home/centos/aws-fpga";
       "SDK_DIR" := "/home/centos/aws-fpga/sdk";
       "VITIS_DIR" := "/home/centos/aws-fpga/Vitis" ]} in
  returned (TestBaseEnv.assert_vitis_setup "/home/centos/aws-fpga"
              (LabEnv.fresh env)) = Some ()
  ∧ returned (TestBaseEnv.assert_vitis_setup "/home/centos/aws-fpga"
                (LabEnv.fresh (<["AWS_PLATFORM" := "None"]> env))) = None.
Proof.
  intros env. split.
  - apply (proj1 (proj2 (proj2 (proj2
             (setup_checks_accept_exactly_the_sourced_environment
                "/home/centos/aws-fpga" (LabEnv.fresh env)))))).
    vm_compute. repeat split; congruence.
  - destruct (returned (TestBaseEnv.assert_vitis_setup "/home/centos/aws-fpga"
                (LabEnv.fresh (<["AWS_PLATFORM" := "None"]> env))))
      as [[]|] eqn:Hret; [|reflexivity].
    apply (proj1 (proj2 (proj2 (proj2
             (setup_checks_accept_exactly_the_sourced_environment
                "/home/centos/aws-fpga" _))))) in Hret
      as (_ & _ & _ & Hplatform & _).
    exfalso. apply Hplatform. vm_compute. reflexivity.
Defined.

(** X16: [setup_class] assigns the bucket, the two client handles, the
    test directory and the six example locations before it looks at the
    environment.  So a call that is refused, for a [WORKSPACE] that is not
    the repository, has changed exactly those attributes when it raises
    [WORKSPACE incorrect]; the environment, the log and the attributes
    [instance_type] and [num_slots] are as they were.  A call that is not
    refused, also when the instance type cannot be found afterwards, leaves
    [WORKSPACE] set to the repository and [BUILD_TAG] set, to its earlier
    value when it had one and to [test] when it had none, and every other
    variable as it was; a second [setup_class] then changes neither the
    environment nor the log. *)
Theorem setup_class_prepares_environment
    (git_repo_dir : string) (dirname_realpath : string → string)
    (get_instance_type : Signal + string)
    (get_num_fpga_slots : string → Signal + nat)
    (file file' : string) (st : State TestBaseEnv.Process) :
  let setup :=
    TestBaseEnv.setup_class git_repo_dir dirname_realpath get_instance_type
      get_num_fpga_slots in
  let env := TestBaseEnv.environ (world st) in
  let attrs := TestBaseEnv.attributes (world st) in
  let after := (setup file st).2 in
  (∀ workspace,
     env !! "WORKSPACE" = Some workspace → workspace ≠ git_repo_dir →
     setup file st
     = (inl (AssertionError "WORKSPACE incorrect"),
        mkState
          (TestBaseEnv.mkProcess env
             (TestBaseEnv.mkAttributes
                (Some "aws-fpga-jenkins-testing")
                (Some TestBaseEnv.NoClient) (Some TestBaseEnv.NoClient)
                (Some (dirname_realpath file))
                (Some "SDAccel/examples/xilinx")
                (Some (git_repo_dir +:+ "/SDAccel/examples/xilinx"))
                (Some (git_repo_dir +:+ "/sdaccel_examples_list.json"))
                (Some "Vitis/examples/xilinx")
                (Some (git_repo_dir +:+ "/Vitis/examples/xilinx"))
                (Some (git_repo_dir +:+ "/vitis_examples_list.json"))
                (TestBaseEnv.instance_type attrs)
                (TestBaseEnv.num_slots attrs)))
          (logs st)))
  ∧ (env !! "WORKSPACE" = None ∨ env !! "WORKSPACE" = Some git_repo_dir →
     TestBaseEnv.environ (world after) !! "WORKSPACE" = Some git_repo_dir
     ∧ TestBaseEnv.environ (world after) !! "BUILD_TAG"
       = Some (default "test" (env !! "BUILD_TAG"))
     ∧ (∀ k, k ≠ "WORKSPACE" → k ≠ "BUILD_TAG" →
             TestBaseEnv.environ (world after) !! k = env !! k)
     ∧ TestBaseEnv.environ (world (setup file' after).2)
       = TestBaseEnv.environ (world after)
     ∧ logs (setup file' after).2 = logs after)
  ∧ (∀ instance_type num_slots,
       env !! "WORKSPACE" = None ∨ env !! "WORKSPACE" = Some git_repo_dir →
       get_instance_type = inr instance_type →
       get_num_fpga_slots instance_type = inr num_slots →
       (setup file st).1 = inr ()
       ∧ TestBaseEnv.attributes (world after)
         = attributes_after_setup git_repo_dir dirname_realpath file
             instance_type num_slots attrs).
Proof.
  intros setup env attrs after. split; [|split].
  - intros workspace Hws Hne. unfold setup.
    by erewrite setup_class_wrong_workspace.
  - intros Hws.
    destruct (setup_class_environ git_repo_dir dirname_realpath
                get_instance_type get_num_fpga_slots file st Hws)
      as [Henv Hlogs].
    fold setup after env in Henv, Hlogs. rewrite Henv.
    split; [apply environ_after_setup_workspace|].
    split; [apply environ_after_setup_build_tag|].
    split; [apply environ_after_setup_other|].
    destruct (setup_class_environ git_repo_dir dirname_realpath
                get_instance_type get_num_fpga_slots file' after)
      as [Henv' Hlogs'].
    { right. rewrite Henv. apply environ_after_setup_workspace. }
    fold setup in Henv', Hlogs'. rewrite Henv', Hlogs', Henv.
    split; [apply environ_after_setup_idemp|].
    rewrite environ_after_setup_build_tag. by rewrite app_nil_r.
  - intros instance_type num_slots Hws Hty Hslots. unfold after, setup.
    rewrite setup_class_eval by done. cbv zeta.
    rewrite Hty, Hslots. done.
Qed.

Lemma setup_class_prepares_witness :
  let setup :=
    TestBaseEnv.setup_class "/home/centos/aws-fpga" (λ _, "/tests")
      (inl (PyError "URLError")) (λ _, inr 1) "test_x.py" in
  let after := (setup (LabEnv.fresh {[ "HOME" := "/home/centos" ]})).2 in
  TestBaseEnv.environ (world after) !! "WORKSPACE"
  = Some "/home/centos/aws-fpga"
  ∧ TestBaseEnv.environ (world after) !! "BUILD_TAG" = Some "test"
  ∧ TestBaseEnv.environ (world after) !! "HOME" = Some "/home/centos"
  ∧ TestBaseEnv.s3_bucket
      (TestBaseEnv.attributes
         (world (setup (LabEnv.fresh {[ "WORKSPACE" := "/elsewhere" ]})).2))
    = Some "aws-fpga-jenkins-testing".
Proof.
  intros setup after.
  pose proof (setup_class_prepares_environment
                "/home/centos/aws-fpga" (λ _, "/tests")
                (inl (PyError "URLError")) (λ _, inr 1) "test_x.py" "test_x.py")
    as Hsetup.
  destruct (proj1 (proj2 (Hsetup (LabEnv.fresh {[ "HOME" := "/home/centos" ]})))
              ltac:(left; vm_compute; reflexivity))
    as (Hws & Hbt & Hother & _).
  split; [exact Hws|]. split; [exact Hbt|].
  split; [exact (Hother "HOME" ltac:(discriminate) ltac:(discriminate))|].
  unfold setup.
  rewrite (proj1 (Hsetup (LabEnv.fresh {[ "WORKSPACE" := "/elsewhere" ]}))
             "/elsewhere");
    [reflexivity | vm_compute; reflexivity | discriminate].
Defined.

(** *** The S3 tags *)

(** X17: the eight tag functions of SDAccel and Vitis examples read the
    class and the environment and change nothing.  Each returns exactly
    when [examplePath], [target], [rteName] and [xilinxVersion] are all
    non-empty, the prefix path of its family has been assigned by
    [setup_class], and [BUILD_TAG] is set.  An empty argument is an
    [AssertionError] whatever else is missing; with good arguments a
    missing prefix path is an [AttributeError], also when [BUILD_TAG] is
    missing; and with good arguments and the prefix path a missing
    [BUILD_TAG] is a [KeyError]. *)
Theorem example_tags_need_arguments_class_and_build_tag
    (relpath : string → string → string) (sdaccel : bool) (i : nat)
    (f : string → string → string → string → M TestBaseEnv.Process string)
    (examplePath target rteName xilinxVersion : string)
    (st : State TestBaseEnv.Process) :
  (if sdaccel then sdaccel_tag_functions relpath
   else vitis_tag_functions relpath) !! i = Some f →
  let run := f examplePath target rteName xilinxVersion st in
  let args_ok := example_args_ok examplePath target rteName xilinxVersion in
  let prefix_path := prefix_path_of sdaccel (world st) in
  let build_tag := TestBaseEnv.environ (world st) !! "BUILD_TAG" in
  run.2 = st
  ∧ (is_Some (returned run) ↔
     args_ok = true ∧ is_Some prefix_path ∧ is_Some build_tag)
  ∧ (args_ok = false → signalled run = Some (AssertionError ""))
  ∧ (args_ok = true → prefix_path = None →
     signalled run = Some AttributeError)
  ∧ (args_ok = true → is_Some prefix_path → build_tag = None →
     signalled run = Some KeyError).
Proof.
  intros Hf run args_ok prefix_path build_tag.
  destruct (family_tag_eval relpath sdaccel i f Hf) as (suffix & _ & Heval).
  unfold run. rewrite Heval. unfold returned, signalled, tag_answer.
  cbn [fst snd]. fold args_ok prefix_path build_tag.
  split; [done|]. split; [|split; [|split]].
  - destruct args_ok; [|split; [by intros [? ?] | by intros [? _]]].
    destruct prefix_path;
      [|split; [by intros [? ?] | by intros (_ & [? ?] & _)]].
    destruct build_tag; split; try done;
      first [by eexists | by intros [? ?] | by intros (_ & _ & [? ?])].
  - by intros ->.
  - by intros -> ->.
  - intros -> [p ->] ->. done.
Qed.

Lemma example_tags_need_witness :
  signalled (TestBaseEnv.get_vitis_example_s3_dcp_tag (λ p _, p)
               "vadd" "" "rte" "2021.2" (LabEnv.fresh ∅))
  = Some (AssertionError "")
  ∧ signalled (TestBaseEnv.get_vitis_example_s3_dcp_tag (λ p _, p)
                 "vadd" "hw" "rte" "2021.2"
                 (LabEnv.fresh {[ "BUILD_TAG" := "test" ]}))
    = Some AttributeError
  ∧ signalled (TestBaseEnv.get_vitis_example_s3_dcp_tag (λ p _, p)
                 "vadd" "hw" "rte" "2021.2" (LabEnv.located ∅))
    = Some KeyError.
Proof.
  split; [|split].
  - exact (proj1 (proj2 (proj2
             (example_tags_need_arguments_class_and_build_tag
                (λ p _, p) false 2 _ "vadd" "" "rte" "2021.2"
                (LabEnv.fresh ∅) eq_refl))) eq_refl).
  - exact (proj1 (proj2 (proj2 (proj2
             (example_tags_need_arguments_class_and_build_tag
                (λ p _, p) false 2 _ "vadd" "hw" "rte" "2021.2"
                (LabEnv.fresh {[ "BUILD_TAG" := "test" ]}) eq_refl))))
             eq_refl eq_refl).
  - exact (proj2 (proj2 (proj2 (proj2
             (example_tags_need_arguments_class_and_build_tag
                (λ p _, p) false 2 _ "vadd" "hw" "rte" "2021.2"
                (LabEnv.located ∅) eq_refl))))
             eq_refl ltac:(by eexists) eq_refl).
Defined.

(** X18: S3 keys do not collide.  For one example and one environment the
    root tag, the xclbin tag, the dcp tag and the afi tag of a family are
    four different strings; and in one environment no tag of an SDAccel
    example is a tag of a Vitis example, and no tag of either is a tag of a
    custom logic build, whatever the arguments. *)
Theorem s3_tags_do_not_collide
    (relpath : string → string → string)
    (st : State TestBaseEnv.Process) :
  (∀ sdaccel i j f g examplePath target rteName xilinxVersion t u,
     let family := if sdaccel : bool then sdaccel_tag_functions relpath
                   else vitis_tag_functions relpath in
     i ≠ j → family !! i = Some f → family !! j = Some g →
     returned (f examplePath target rteName xilinxVersion st) = Some t →
     returned (g examplePath target rteName xilinxVersion st) = Some u →
     t ≠ u)
  ∧ (∀ f g a1 a2 a3 a4 b1 b2 b3 b4 t u,
       f ∈ sdaccel_tag_functions relpath →
       g ∈ vitis_tag_functions relpath →
       returned (f a1 a2 a3 a4 st) = Some t →
       returned (g b1 b2 b3 b4 st) = Some u →
       t ≠ u)
  ∧ (∀ sdaccel f g a1 a2 a3 a4 cl option_tag xilinxVersion t u,
       f ∈ (if sdaccel : bool then sdaccel_tag_functions relpath
            else vitis_tag_functions relpath) →
       g ∈ cl_tag_functions →
       returned (f a1 a2 a3 a4 st) = Some t →
       returned (g cl option_tag xilinxVersion st) = Some u →
       t ≠ u).
Proof.
  split; [|split].
  - intros sdaccel i j f g p1 p2 p3 p4 t u family Hij Hf Hg Ht Hu.
    destruct (family_tag_eval relpath sdaccel i f Hf) as (s1 & Hs1 & Ef).
    destruct (family_tag_eval relpath sdaccel j g Hg) as (s2 & Hs2 & Eg).
    rewrite Ef in Ht. rewrite Eg in Hu. unfold returned in *. simpl in *.
    destruct (tag_answer _ _ _ _ _ _) as [?|t'] eqn:E1 in Ht; [done|].
    destruct (tag_answer _ _ _ _ _ _) as [?|u'] eqn:E2 in Hu; [done|].
    simplify_eq.
    apply tag_answer_inr in E1 as (_ & pp1 & bt1 & Hp1 & Hbt1 & ->).
    apply tag_answer_inr in E2 as (_ & pp2 & bt2 & Hp2 & Hbt2 & ->).
    rewrite Hbt1 in Hbt2. injection Hbt2 as <-.
    rewrite Hp1 in Hp2. injection Hp2 as <-.
    intros E%app_suffix_inj.
    by apply (tag_suffixes_distinct i j s1 s2).
  - intros f g a1 a2 a3 a4 b1 b2 b3 b4 t u Hf Hg Ht Hu.
    apply list_elem_of_lookup in Hf as [i Hf], Hg as [j Hg].
    destruct (family_tag_eval relpath true i f Hf) as (s1 & _ & Ef).
    destruct (family_tag_eval relpath false j g Hg) as (s2 & _ & Eg).
    rewrite Ef in Ht. rewrite Eg in Hu. unfold returned in *. simpl in *.
    destruct (tag_answer _ _ _ _ _ _) as [?|t'] eqn:E1 in Ht; [done|].
    destruct (tag_answer _ _ _ _ _ _) as [?|u'] eqn:E2 in Hu; [done|].
    simplify_eq.
    apply tag_answer_inr in E1 as (_ & pp1 & bt1 & Hp1 & Hbt1 & ->).
    apply tag_answer_inr in E2 as (_ & pp2 & bt2 & Hp2 & Hbt2 & ->).
    rewrite Hbt1 in Hbt2. injection Hbt2 as <-.
    apply root_tags_differ.
  - intros sdaccel f g a1 a2 a3 a4 cl option_tag xilinxVersion t u
      Hf Hg Ht Hu.
    apply list_elem_of_lookup in Hf as [i Hf], Hg as [j Hg].
    destruct (family_tag_eval relpath sdaccel i f Hf) as (s1 & _ & Ef).
    destruct (cl_tag_eval j g Hg) as (s2 & _ & Eg).
    rewrite Ef in Ht. rewrite Eg in Hu. unfold returned in *. simpl in *.
    destruct (tag_answer _ _ _ _ _ _) as [?|t'] eqn:E1 in Ht; [done|].
    simplify_eq.
    apply tag_answer_inr in E1 as (_ & pp1 & bt1 & Hp1 & Hbt1 & ->).
    rewrite Hbt1 in Hu.
    destruct (_ && _) in Hu; [|done]. simplify_eq.
    rewrite <-!app_assoc_str. rewrite !app_assoc_str.
    apply root_tag_not_cl.
Qed.

Lemma s3_tags_do_not_collide_witness :
  "jenkins/test/Vitis/2021.2/rte/vadd/hw/xclbin"
  ≠ "jenkins/test/Vitis/2021.2/rte/vadd/hw/dcp".
Proof.
  exact (proj1 (s3_tags_do_not_collide (λ p _, p)
                  (LabEnv.located {[ "BUILD_TAG" := "test" ]}))
           false 1 2 _ _ "vadd" "hw" "rte" "2021.2" _ _
           ltac:(discriminate) eq_refl eq_refl eq_refl eq_refl).
Defined.

(** X19: once [setup_class] has got past its [WORKSPACE] assertion, no tag
    function can meet a missing [BUILD_TAG]: with four non-empty arguments
    each of the eight example tag functions returns, and its tag is built
    on the [BUILD_TAG] the environment had before [setup_class], or on
    [test] when it had none. *)
Theorem example_tags_after_setup_class
    (git_repo_dir : string) (dirname_realpath : string → string)
    (get_instance_type : Signal + string)
    (get_num_fpga_slots : string → Signal + nat)
    (relpath : string → string → string) (file : string)
    (sdaccel : bool) (i : nat)
    (f : string → string → string → string → M TestBaseEnv.Process string)
    (examplePath target rteName xilinxVersion : string)
    (st : State TestBaseEnv.Process) :
  TestBaseEnv.environ (world st) !! "WORKSPACE" = None
  ∨ TestBaseEnv.environ (world st) !! "WORKSPACE" = Some git_repo_dir →
  (if sdaccel then sdaccel_tag_functions relpath
   else vitis_tag_functions relpath) !! i = Some f →
  example_args_ok examplePath target rteName xilinxVersion = true →
  let after :=
    (TestBaseEnv.setup_class git_repo_dir dirname_realpath get_instance_type
       get_num_fpga_slots file st).2 in
  ∃ suffix,
    tag_suffixes !! i = Some suffix
    ∧ f examplePath target rteName xilinxVersion after
      = (inr (example_root_tag sdaccel relpath
                (default "test" (TestBaseEnv.environ (world st) !! "BUILD_TAG"))
                examplePath target rteName xilinxVersion +:+ suffix),
         after).
Proof.
  intros Hws Hf Hargs after.
  destruct (family_tag_eval relpath sdaccel i f Hf) as (suffix & Hs & Heval).
  exists suffix. split; [done|].
  rewrite Heval. unfold tag_answer. rewrite Hargs.
  unfold after. rewrite setup_class_prefix_paths.
  destruct (setup_class_environ git_repo_dir dirname_realpath
              get_instance_type get_num_fpga_slots file st Hws) as [-> _].
  rewrite environ_after_setup_build_tag.
  by destruct sdaccel.
Qed.

Lemma example_tags_after_setup_class_witness :
  ∃ suffix,
    tag_suffixes !! 3 = Some suffix
    ∧ TestBaseEnv.get_sdaccel_example_s3_afi_tag (λ p _, p)
        "vadd" "hw" "rte" "2019.2"
        (TestBaseEnv.setup_class "/repo" (λ f, f) (inr "f1.2xlarge")
           (λ _, inr 1) "test.py" (LabEnv.fresh ∅)).2
      = (inr (example_root_tag true (λ p _, p) "test"
                "vadd" "hw" "rte" "2019.2" +:+ suffix),
         (TestBaseEnv.setup_class "/repo" (λ f, f) (inr "f1.2xlarge")
            (λ _, inr 1) "test.py" (LabEnv.fresh ∅)).2).
Proof.
  exact (example_tags_after_setup_class "/repo" (λ f, f) (inr "f1.2xlarge")
           (λ _, inr 1) (λ p _, p) "test.py" true 3 _
           "vadd" "hw" "rte" "2019.2" (LabEnv.fresh ∅)
           (or_introl eq_refl) eq_refl eq_refl).
Defined.

(** *** Files, example descriptions and run commands *)

(** X20: [assert_non_zero_file] changes nothing and returns a file name
    exactly when the pattern has one match outside the [.link.] files and
    that match has a size other than 0; the name it returns is that
    match.  With no such match, or with several, it fails its assertion
    without looking at any size. *)
Theorem assert_non_zero_file_returns_the_single_match
    {World : Type} `{!ExampleFiles World}
    (py_repr : list string → string) (filter : string) (st : State World) :
  let found := TestBaseFiles.without_links (glob_glob filter (world st)) in
  let run := TestBaseFiles.assert_non_zero_file py_repr filter st in
  run.2 = st
  ∧ (∀ filename,
       returned run = Some filename ↔
       found = [filename]
       ∧ ∃ size, os_stat_st_size filename (world st) = inr size ∧ size ≠ 0%Z)
  ∧ (∀ filename,
       returned run = Some filename →
       filename ∈ glob_glob filter (world st)
       ∧ PyJson.is_substring ".link." filename = false)
  ∧ (found = [] →
     signalled run
     = Some (AssertionError ("No " +:+ filter +:+ " file found in "
                             +:+ os_getcwd (world st))))
  ∧ (1 < length found →
     signalled run
     = Some (AssertionError
               ("More than 1 " +:+ filter +:+ " file found: "
                +:+ pretty (length found) +:+ PyStr.nl +:+ py_repr found))).
Proof.
  intros found run.
  assert (∀ filename,
            returned run = Some filename ↔
            found = [filename]
            ∧ ∃ size, os_stat_st_size filename (world st) = inr size
                      ∧ size ≠ 0%Z) as Hiff.
  { intros filename. unfold run, returned.
    rewrite assert_non_zero_file_eval. cbn [fst]. fold found.
    destruct found as [|f [|other more]].
    - split; [done|]. by intros [? _].
    - destruct (os_stat_st_size f (world st)) as [e|size] eqn:Hsize.
      + split; [done|]. intros [[= <-] (size & Hs & _)]. congruence.
      + destruct (Z.eqb_spec size 0) as [->|Hne].
        * split; [done|]. intros [[= <-] (size & Hs & Hne)]. congruence.
        * split.
          -- intros [= <-]. split; [done|]. by exists size.
          -- by intros [[= <-] _].
    - split; [done|]. by intros [? _]. }
  split; [apply assert_non_zero_file_state|].
  split; [done|]. split; [|split].
  - intros filename [Hfound _]%Hiff.
    assert (filename ∈ found) as Hin by (rewrite Hfound; apply list_elem_of_here).
    unfold found, TestBaseFiles.without_links in Hin.
    apply list_elem_of_In, filter_In in Hin as [Hin Hlink].
    split; [by apply list_elem_of_In|]. by apply negb_true_iff.
  - intros Hnone. unfold run, signalled.
    rewrite assert_non_zero_file_eval. cbn [fst]. fold found.
    by rewrite Hnone.
  - intros Hmany. unfold run, signalled.
    rewrite assert_non_zero_file_eval. cbn [fst]. fold found.
    destruct found as [|f [|other more]]; simpl in Hmany; [lia|lia|done].
Qed.

Lemma assert_non_zero_file_witness :
  returned (TestBaseFiles.assert_non_zero_file LabFiles.no_repr
              LabFiles.vadd_json (mkState LabFiles.disk []))
  = Some LabFiles.vadd_json.
Proof.
  apply (proj1 (proj2 (assert_non_zero_file_returns_the_single_match
                         LabFiles.no_repr LabFiles.vadd_json
                         (mkState LabFiles.disk [])))).
  split; [reflexivity|]. exists 57%Z. split; [reflexivity|done].
Defined.

(** X21: [get_sdaccel_example_run_cmd] changes nothing, and its closing
    [assert run_cmd is not None] can never fail: an [AssertionError] that
    leaves it was raised while the description was fetched.  A description
    with neither a usable [em_cmd] nor a usable [host_exe] ends in an
    [UnboundLocalError] instead, and a usable [em_cmd] is returned as it
    is, whatever else the description holds and whatever the version. *)
Theorem get_sdaccel_example_run_cmd_never_fails_its_assertion
    {World : Type} `{!ExampleFiles World}
    (git_repo_dir : string) (py_repr : list string → string)
    (py_str : Json → string) (examplePath xilinxVersion : string)
    (st : State World) :
  let run :=
    TestBaseFiles.get_sdaccel_example_run_cmd git_repo_dir py_repr py_str
      examplePath xilinxVersion st in
  let loaded :=
    (TestBaseFiles.get_sdaccel_example_description git_repo_dir py_repr
       examplePath st).1 in
  run.2 = st
  ∧ (∀ msg, run.1 = inl (AssertionError msg) →
            loaded = inl (AssertionError msg))
  ∧ (∀ members,
       loaded = inr (JObject members) →
       PyValue.truthy (default JNull (PyJson.assoc "em_cmd" members)) = false →
       PyValue.truthy (default JNull (PyJson.assoc "host_exe" members)) = false →
       run.1 = inl UnboundLocalError)
  ∧ (∀ members em_cmd,
       loaded = inr (JObject members) →
       PyJson.assoc "em_cmd" members = Some em_cmd →
       PyValue.truthy em_cmd = true →
       run.1 = inr em_cmd).
Proof.
  intros run loaded.
  split; [apply get_sdaccel_example_run_cmd_state|].
  split; [|split].
  - intros msg Hrun. destruct loaded as [e|description] eqn:Hloaded.
    + unfold run in Hrun.
      erewrite get_sdaccel_example_run_cmd_description_signal in Hrun
        by exact Hloaded.
      exact Hrun.
    + destruct (get_sdaccel_example_run_cmd_signals _ _ _ _ _ _ _ _
                  Hloaded Hrun) as [name [=]].
  - intros members Hloaded Hem Hexe. unfold run.
    by erewrite get_sdaccel_example_run_cmd_unbound.
  - intros members em_cmd Hloaded Hem Ht. unfold run.
    by erewrite get_sdaccel_example_run_cmd_em_cmd.
Qed.

Lemma get_sdaccel_example_run_cmd_witness :
  (TestBaseFiles.get_sdaccel_example_run_cmd "/repo" LabFiles.no_repr
     LabFiles.no_str "examples/copy" "2019.2" (mkState LabFiles.disk [])).1
  = inr (JString "./copy -e")
  ∧ (TestBaseFiles.get_sdaccel_example_run_cmd "/repo" LabFiles.no_repr
       LabFiles.no_str "examples/host" "2019.2" (mkState LabFiles.disk [])).1
    = inl UnboundLocalError.
Proof.
  split.
  - exact (proj2 (proj2 (proj2
             (get_sdaccel_example_run_cmd_never_fails_its_assertion
                "/repo" LabFiles.no_repr LabFiles.no_str "examples/copy"
                "2019.2" (mkState LabFiles.disk []))))
             _ _ eq_refl eq_refl eq_refl).
  - exact (proj1 (proj2 (proj2
             (get_sdaccel_example_run_cmd_never_fails_its_assertion
                "/repo" LabFiles.no_repr LabFiles.no_str "examples/host"
                "2019.2" (mkState LabFiles.disk []))))
             _ eq_refl eq_refl eq_refl).
Defined.

(** X22: [get_vitis_example_run_cmd] changes nothing.  Of its three
    assertions only the first two can fail: an [AssertionError] that
    leaves it was raised while the description was fetched, or says that
    the [host] key or the [launch] key is missing.  It returns only for a
    description whose [host] section has a usable [host_exe], and what it
    returns starts with [./] and that program. *)
Theorem get_vitis_example_run_cmd_needs_host_exe
    {World : Type} `{!ExampleFiles World}
    (git_repo_dir : string) (py_repr : list string → string)
    (py_str : Json → string) (examplePath xilinxVersion : string)
    (st : State World) :
  let run :=
    TestBaseFiles.get_vitis_example_run_cmd git_repo_dir py_repr py_str
      examplePath xilinxVersion st in
  let loaded :=
    (TestBaseFiles.get_vitis_example_description git_repo_dir py_repr
       examplePath st).1 in
  run.2 = st
  ∧ (∀ msg, run.1 = inl (AssertionError msg) →
       loaded = inl (AssertionError msg)
       ∨ msg = "Could not find host key in the description.json here "
               +:+ examplePath
       ∨ msg = "Could not find launch/cmd_args key in the description.json here "
               +:+ examplePath)
  ∧ (∀ v, run.1 = inr v →
       ∃ description host host_exe rest,
         loaded = inr description
         ∧ PyValue.get description "host" = inr host
         ∧ PyValue.get host "host_exe" = inr host_exe
         ∧ PyValue.truthy host_exe = true
         ∧ v = JString ("./" +:+ TestBaseFiles.format py_str host_exe
                        +:+ rest)).
Proof.
  intros run loaded.
  split; [apply get_vitis_example_run_cmd_state|]. split.
  - intros msg Hrun. destruct loaded as [e|description] eqn:Hloaded.
    + left. unfold run in Hrun.
      erewrite get_vitis_example_run_cmd_description_signal in Hrun
        by exact Hloaded.
      exact Hrun.
    + right.
      destruct (get_vitis_example_run_cmd_signals _ _ _ _ _ _ _ _
                  Hloaded Hrun) as [[name [=]]|[[= ->]|[= ->]]];
        [by left|by right].
  - intros v Hrun. destruct loaded as [e|description] eqn:Hloaded.
    + unfold run in Hrun.
      erewrite get_vitis_example_run_cmd_description_signal in Hrun
        by exact Hloaded.
      done.
    + destruct (get_vitis_example_run_cmd_returns _ _ _ _ _ _ _ _
                  Hloaded Hrun) as (host & host_exe & rest & ? & ? & ? & ?).
      by exists description, host, host_exe, rest.
Qed.

Lemma get_vitis_example_run_cmd_witness :
  ∃ description host host_exe rest,
    (TestBaseFiles.get_vitis_example_description "/repo" LabFiles.no_repr
       "examples/vadd" (mkState LabFiles.disk [])).1 = inr description
    ∧ PyValue.get description "host" = inr host
    ∧ PyValue.get host "host_exe" = inr host_exe
    ∧ PyValue.truthy host_exe = true
    ∧ JString "./vadd -n 4"
      = JString ("./" +:+ TestBaseFiles.format LabFiles.no_str host_exe
                 +:+ rest).
Proof.
  exact (proj2 (proj2 (get_vitis_example_run_cmd_needs_host_exe
                         "/repo" LabFiles.no_repr LabFiles.no_str
                         "examples/vadd" "2021.2"
                         (mkState LabFiles.disk [])))
           (JString "./vadd -n 4") eq_refl).
Defined.

(** X23: arguments that name no placeholder reach the run command as they
    are.  For a description whose program and arguments are non-empty
    strings, with [.xclbin], [PROJECT] and [BUILD] (and, for Vitis,
    [REPO_DIR]) absent from the arguments, both functions return [./], the
    program, a blank and the arguments, for every tool version. *)
Theorem plain_cmd_args_are_passed_unchanged
    {World : Type} `{!ExampleFiles World}
    (git_repo_dir : string) (py_repr : list string → string)
    (py_str : Json → string) (examplePath xilinxVersion : string)
    (st : State World) (members : list (string * Json))
    (host_exe cmd_args : string) :
  host_exe ≠ "" → cmd_args ≠ "" →
  PyJson.is_substring ".xclbin" cmd_args = false →
  PyJson.is_substring "PROJECT" cmd_args = false →
  PyJson.is_substring "BUILD" cmd_args = false →
  let answer := inr (JString ("./" +:+ host_exe +:+ " " +:+ cmd_args)) in
  ((TestBaseFiles.get_sdaccel_example_description git_repo_dir py_repr
      examplePath st).1 = inr (JObject members) →
   PyValue.truthy (default JNull (PyJson.assoc "em_cmd" members)) = false →
   PyJson.assoc "host_exe" members = Some (JString host_exe) →
   PyJson.assoc "cmd_args" members = Some (JString cmd_args) →
   TestBaseFiles.get_sdaccel_example_run_cmd git_repo_dir py_repr py_str
     examplePath xilinxVersion st = (answer, st))
  ∧ (∀ host launch more,
       (TestBaseFiles.get_vitis_example_description git_repo_dir py_repr
          examplePath st).1 = inr (JObject members) →
       PyJson.assoc "host" members = Some (JObject host) →
       PyJson.assoc "launch" members
       = Some (JArray (JObject launch :: more)) →
       PyJson.assoc "host_exe" host = Some (JString host_exe) →
       PyJson.assoc "cmd_args" launch = Some (JString cmd_args) →
       PyJson.is_substring "REPO_DIR" cmd_args = false →
       TestBaseFiles.get_vitis_example_run_cmd git_repo_dir py_repr py_str
         examplePath xilinxVersion st = (answer, st)).
Proof.
  intros Hexe Hargs Hx Hp Hb answer. split.
  - intros Hloaded Hem Hhost Hcmd.
    by eapply get_sdaccel_example_run_cmd_plain.
  - intros host launch more Hloaded Hhost Hlaunch Hhost_exe Hcmd Hr.
    by eapply get_vitis_example_run_cmd_plain.
Qed.

Lemma plain_cmd_args_witness :
  TestBaseFiles.get_sdaccel_example_run_cmd "/repo" LabFiles.no_repr
    LabFiles.no_str "examples/vadd" "2019.1" (mkState LabFiles.disk [])
  = (inr (JString "./vadd -n 4"), mkState LabFiles.disk [])
  ∧ TestBaseFiles.get_vitis_example_run_cmd "/repo" LabFiles.no_repr
      LabFiles.no_str "examples/vadd" "2021.2" (mkState LabFiles.disk [])
    = (inr (JString "./vadd -n 4"), mkState LabFiles.disk []).
Proof.
  split.
  - exact (proj1 (plain_cmd_args_are_passed_unchanged "/repo"
                    LabFiles.no_repr LabFiles.no_str "examples/vadd"
                    "2019.1" (mkState LabFiles.disk []) _ "vadd" "-n 4"
                    ltac:(discriminate) ltac:(discriminate)
                    eq_refl eq_refl eq_refl)
             eq_refl eq_refl eq_refl eq_refl).
  - exact (proj2 (plain_cmd_args_are_passed_unchanged "/repo"
                    LabFiles.no_repr LabFiles.no_str "examples/vadd"
                    "2021.2" (mkState LabFiles.disk []) _ "vadd" "-n 4"
                    ltac:(discriminate) ltac:(discriminate)
                    eq_refl eq_refl eq_refl)
             _ _ _ eq_refl eq_refl eq_refl eq_refl eq_refl eq_refl).
Defined.

(** X24: [get_shell_version] changes nothing and fails exactly when the
    link [hdk/common/shell_stable] cannot be read, with the error of
    [os.readlink].  What it returns never has a ['/'] in it.  When the
    last component of the link's target is [shell_v] followed by a
    version, it returns [0x] followed by that version: so it is for the
    relative target [shell_v04261818] of the repository and for the same
    name in any directory.  When the last component does not start with
    [shell_v], it is returned as it is. *)
Theorem get_shell_version_of_stable_link
    {World : Type} `{!ExampleFiles World}
    (git_repo_dir : string) (st : State World) :
  let run := TestBaseFiles.get_shell_version git_repo_dir st in
  let link :=
    os_readlink (PyPath.join (TestBaseEnv.WORKSPACE git_repo_dir)
                   "hdk/common/shell_stable") (world st) in
  run.2 = st
  ∧ (∀ e, signalled run = Some e ↔ link = inl e)
  ∧ (∀ v, returned run = Some v → PyStr.has_char "/" v = false)
  ∧ (∀ target version,
       link = inr target →
       PyPath.basename target = "shell_v" +:+ version →
       returned run = Some ("0x" +:+ version))
  ∧ (∀ version,
       PyStr.has_char "/" version = false →
       PyPath.basename ("shell_v" +:+ version) = "shell_v" +:+ version
       ∧ ∀ dir,
           PyPath.basename (dir +:+ "/shell_v" +:+ version)
           = "shell_v" +:+ version)
  ∧ (∀ target,
       link = inr target →
       String.prefix "shell_v" (PyPath.basename target) = false →
       returned run = Some (PyPath.basename target)).
Proof.
  intros run link. unfold run, returned, signalled.
  rewrite get_shell_version_eval. cbn [fst snd]. fold link.
  split; [done|]. split; [|split; [|split; [|split]]].
  - intros e. destruct link as [e'|target]; split; congruence.
  - intros v. destruct link as [e'|target]; [done|]. intros [= <-].
    apply sub_prefix_no_char; [done|]. apply basename_no_slash.
  - intros target version -> ->. by rewrite sub_prefix_hit.
  - intros version Hversion.
    assert (PyStr.has_char "/" ("shell_v" +:+ version) = false) as Hname
      by (by rewrite has_char_app, Hversion).
    split; [by apply basename_of_name|].
    intros dir.
    change (dir +:+ "/shell_v" +:+ version)
      with (dir +:+ String "/" ("shell_v" +:+ version)).
    by apply basename_of_path.
  - intros target -> Hprefix. unfold PyPath.sub_prefix. by rewrite Hprefix.
Qed.

Lemma get_shell_version_witness :
  returned (TestBaseFiles.get_shell_version "/repo"
              (mkState LabFiles.disk []))
  = Some "0x04261818".
Proof.
  exact (proj1 (proj2 (proj2 (proj2 (get_shell_version_of_stable_link "/repo"
                                       (mkState LabFiles.disk [])))))
           "shell_v04261818" "04261818" eq_refl eq_refl).
Defined.
